(** * sqlmapper: command builder and sqlmap output interpreter

    A shallow embedding of [sqlmapper/core/command_builder.py] and of the
    output parser of [sqlmapper/core/subprocess_runner.py], with the
    properties their specification states about them.

    Conventions of the embedding.
    - A Python [str] is a [string]; one character stands for one code
      point in the range U+0000..U+00FF.
    - A dictionary with a fixed set of keys ([target], [options], [result])
      is a record; a key that can be absent is a field of an [option]
      type, and [None] is the absent key.
    - A Python exception that the modelled code can raise is a [None]
      result of the function that raises it. *)

From Stdlib Require Import ZArith Ascii String DecimalString Bool Lia.
From stdpp Require Import base option list strings gmap.

Local Open Scope Z_scope.

(** ** The Python string methods used by the program *)

Module Py.

(** [c.isspace()] for a character below U+0100: the ASCII controls
    TAB..CR and FS..US, the blank, NEL and the no-break space. *)
Definition isspace (c : ascii) : bool :=
  match c with
  | "009" | "010" | "011" | "012" | "013"
  | "028" | "029" | "030" | "031" | " "
  | "133" | "160" => true
  | _ => false
  end%char.

(** [c in chars] for one character. *)
Fixpoint char_in (c : ascii) (chars : string) : bool :=
  match chars with
  | "" => false
  | String d chars' => Ascii.eqb c d || char_in c chars'
  end.

Fixpoint lstrip_with (p : ascii → bool) (s : string) : string :=
  match s with
  | "" => ""
  | String c s' => if p c then lstrip_with p s' else s
  end.

Fixpoint rstrip_with (p : ascii → bool) (s : string) : string :=
  match s with
  | "" => ""
  | String c s' =>
      match rstrip_with p s' with
      | "" => if p c then "" else String c ""
      | r => String c r
      end
  end.

(** [s.strip()] *)
Definition strip (s : string) : string :=
  rstrip_with isspace (lstrip_with isspace s).

(** [s.strip(chars)] *)
Definition strip_chars (chars s : string) : string :=
  rstrip_with (λ c, char_in c chars) (lstrip_with (λ c, char_in c chars) s).

(** [s.startswith(p)] *)
Definition startswith (s p : string) : bool := String.prefix p s.

(** [sub in s] *)
Fixpoint contains (sub s : string) : bool :=
  String.prefix sub s ||
  match s with
  | "" => false
  | String _ s' => contains sub s'
  end.

(** [s.find(sub)]: the lowest index where [sub] starts, or -1. *)
Fixpoint find_from (i : Z) (sub s : string) : Z :=
  if String.prefix sub s then i
  else match s with
       | "" => -1
       | String _ s' => find_from (i + 1) sub s'
       end.
Definition find (s sub : string) : Z := find_from 0 sub s.

(** [s.rfind(sub)]: the highest index where [sub] starts, or -1. *)
Fixpoint rfind_from (i : Z) (sub s : string) : Z :=
  match s with
  | "" => if String.prefix sub s then i else -1
  | String _ s' =>
      let r := rfind_from (i + 1) sub s' in
      if 0 <=? r then r else if String.prefix sub s then i else -1
  end.
Definition rfind (s sub : string) : Z := rfind_from 0 sub s.

(** [s[start:stop]] for [0 <= start <= stop <= len(s)], the only way the
    program slices. *)
Definition slice (s : string) (start stop : Z) : string :=
  String.substring (Z.to_nat start) (Z.to_nat (stop - start)) s.

(** [s.split(sep)] for a non-empty [sep]: the separators are found from
    left to right and do not overlap.  [skip] counts the characters of
    a separator just found that are still to be passed over, [cur] is
    the piece being read. *)
Fixpoint split_go (sep : string) (skip : nat) (cur : string) (s : string)
  : list string :=
  match s with
  | "" => [cur]
  | String c s' =>
      match skip with
      | S k => split_go sep k cur s'
      | O =>
          if String.prefix sep s
          then cur :: split_go sep (String.length sep - 1) "" s'
          else split_go sep 0 (cur +:+ String c "") s'
      end
  end.
Definition split (s sep : string) : list string := split_go sep 0 "" s.

(** [s.split()]: the maximal runs of characters that are not white
    space. *)
Fixpoint split_ws_go (cur : string) (s : string) : list string :=
  match s with
  | "" => match cur with "" => [] | _ => [cur] end
  | String c s' =>
      if isspace c
      then match cur with "" => [] | _ => [cur] end ++ split_ws_go "" s'
      else split_ws_go (cur +:+ String c "") s'
  end.
Definition split_ws (s : string) : list string := split_ws_go "" s.

(** [s.split(sep)[-1]] and [s.split(sep)[0]]: [split] returns at least
    one piece, so neither can fail and the default is never used. *)
Definition last_piece (s sep : string) : string := List.last (split s sep) s.
Definition first_piece (s sep : string) : string := List.hd s (split s sep).

(** [l[0]]: [None] is the [IndexError] of an empty list. *)
Definition first_item (l : list string) : option string := head l.

(** [sep.join(l)] *)
Definition join (sep : string) (l : list string) : string :=
  String.concat sep l.

(** [c.lower()] below U+0100: the letters A..Z and the Latin-1 capitals
    U+00C0..U+00DE, the multiplication sign U+00D7 apart. *)
Definition lower_char (c : ascii) : ascii :=
  let n := N_of_ascii c in
  if ((65 <=? n) && (n <=? 90) ||
      (192 <=? n) && (n <=? 222) && negb (n =? 215))%N
  then ascii_of_N (n + 32) else c.

Fixpoint lower (s : string) : string :=
  match s with
  | "" => ""
  | String c s' => String (lower_char c) (lower s')
  end.

(** [s.replace(old, new)] for a one-character [old]. *)
Fixpoint replace_char (old : ascii) (new : string) (s : string) : string :=
  match s with
  | "" => ""
  | String c s' =>
      (if Ascii.eqb c old then new else String c "") +:+ replace_char old new s'
  end.

(** [str(n)] for an [int]. *)
Definition str_int (n : Z) : string := NilZero.string_of_int (Z.to_int n).

(** The values whose type the program asks for at run time. *)
Inductive value :=
  | VInt (n : Z)
  | VBool (b : bool)
  | VStr (s : string)
  | VNone.

(** [isinstance(v, int)] holds of the integers and of the booleans, which
    are the integers 1 and 0; [as_int] is the integer then. *)
Definition as_int (v : value) : option Z :=
  match v with
  | VInt n => Some n
  | VBool b => Some (if b then 1 else 0)
  | _ => None
  end.

(** [str(v)] *)
Definition str (v : value) : string :=
  match v with
  | VInt n => str_int n
  | VBool b => if b then "True" else "False"
  | VStr s => s
  | VNone => "None"
  end.

End Py.

(** ** [shlex.split] and [shlex.quote] of the Python standard library *)

Module Shlex.

(** The members [whitespace], [quotes] and [escape] of a [shlex]
    object. *)
Definition whitespace : string :=
  String " " (String "009" (String "013" (String "010" ""))).
Definition dquote : ascii := "034"%char.
Definition quotes : string := String "'" (String dquote "").
Definition escape : string := String "\" "".
Definition escapedquotes : string := String dquote "".

(** The member [state]: [' '], ['a'], an opening quote, or the escape
    character.  The state [None] of an exhausted input is the end of the
    recursion below. *)
Inductive lex_state :=
  | InWhite
  | InWord
  | InQuote (q : ascii)
  | InEscape.

Definition in_quotes (st : lex_state) : bool :=
  match st with InQuote _ => true | _ => false end.

Definition state_is (st : lex_state) (c : ascii) : bool :=
  match st with InQuote q => Ascii.eqb c q | _ => false end.

Definition nonempty (s : string) : bool :=
  match s with "" => false | _ => true end.

(** The end of [read_token] and one turn of [__next__]: the token read is
    the end of input when it is empty and was not quoted, and the
    iteration stops there. *)
Definition emit (quoted : bool) (token : string)
    (rest : option (list string)) : option (list string) :=
  if negb quoted && negb (nonempty token) then Some []
  else cons token <$> rest.

(** [list(lex)] for [lex = shlex(s, posix=True)] with
    [whitespace_split = True], [commenters = ''] and no punctuation
    characters: the loop of [read_token], one character at a time, with
    the instance variables [state] and [token] and the locals [quoted]
    and [escapedstate].  A character of [wordchars] is no quote and no
    escape character and is read as any other character is when
    [whitespace_split] is set, so the test for it is left out.  [None] is
    [ValueError]. *)
Fixpoint read_tokens (state : lex_state) (quoted : bool)
    (escapedstate : lex_state) (token : string) (s : string)
    : option (list string) :=
  match s with
  | "" =>
      match state with
      | InWhite | InWord => emit quoted token (Some [])
      | InQuote _ => None
      | InEscape => None
      end
  | String nextchar s' =>
      match state with
      | InWhite =>
          if Py.char_in nextchar whitespace then
            if nonempty token || quoted
            then emit quoted token (read_tokens InWhite false InWhite "" s')
            else read_tokens InWhite quoted escapedstate token s'
          else if Py.char_in nextchar escape then
            read_tokens InEscape quoted InWord token s'
          else if Py.char_in nextchar quotes then
            read_tokens (InQuote nextchar) quoted escapedstate token s'
          else
            read_tokens InWord quoted escapedstate (String nextchar "") s'
      | InQuote q =>
          if Ascii.eqb nextchar q then
            read_tokens InWord true escapedstate token s'
          else if Py.char_in nextchar escape && Py.char_in q escapedquotes then
            read_tokens InEscape true state token s'
          else
            read_tokens state true escapedstate (token +:+ String nextchar "") s'
      | InEscape =>
          let token :=
            if in_quotes escapedstate && negb (Py.char_in nextchar escape)
               && negb (state_is escapedstate nextchar)
            then token +:+ escape else token in
          read_tokens escapedstate quoted escapedstate
            (token +:+ String nextchar "") s'
      | InWord =>
          if Py.char_in nextchar whitespace then
            if nonempty token || quoted
            then emit quoted token (read_tokens InWhite false InWhite "" s')
            else read_tokens InWhite quoted escapedstate token s'
          else if Py.char_in nextchar quotes then
            read_tokens (InQuote nextchar) quoted escapedstate token s'
          else if Py.char_in nextchar escape then
            read_tokens InEscape quoted InWord token s'
          else
            read_tokens InWord quoted escapedstate
              (token +:+ String nextchar "") s'
      end
  end.

(** [shlex.split(s)] *)
Definition split (s : string) : option (list string) :=
  read_tokens InWhite false InWhite "" s.

(** The characters that [_find_unsafe] does not match: [\w] under
    [re.ASCII] and [@%+=:,./-]. *)
Definition safe_char (c : ascii) : bool :=
  let n := N_of_ascii c in
  ((48 <=? n) && (n <=? 57) || (65 <=? n) && (n <=? 90) ||
   (97 <=? n) && (n <=? 122))%N
  || Py.char_in c "_@%+=:,./-".

Fixpoint all_safe (s : string) : bool :=
  match s with
  | "" => true
  | String c s' => safe_char c && all_safe s'
  end.

(** The text that stands for a single quote inside single quotes: the
    quotes are closed, a single quote is put between double quotes, and
    the quotes are opened again. *)
Definition squote_escaped : string :=
  String "'" (String dquote (String "'" (String dquote (String "'" "")))).

(** [shlex.quote(s)] *)
Definition quote (s : string) : string :=
  match s with
  | "" => "''"
  | _ =>
      if all_safe s then s
      else "'" +:+ Py.replace_char "'" squote_escaped s +:+ "'"
  end.

End Shlex.


(** ** [sqlmapper/core/command_builder.py] *)

Module CommandBuilder.

(** The dictionary [target], as [get_target_info] fills it. *)
Record Target := {
  url : option string;
  request_file : option string;
  data : option string;
  cookies : option string;
  headers : option string;
  random_user_agent : option bool;
}.

(** The dictionary [options], as [get_options] fills it.  The entries
    that the program only prints with [str], or whose type it tests, hold
    any [Py.value]. *)
Record Options := {
  risk_level : option Py.value;
  level : option Py.value;
  threads : option Py.value;
  timeout : option Py.value;
  retries : option Py.value;
  techniques : option (list string);
  dbms : option string;
  detection : option (list string);
  proxy : option string;
  tor : option bool;
  tor_port : option Py.value;
  delay : option Z;
  skip_url_encode : option bool;
  skip_static : option bool;
  tamper : option string;
  os : option string;
  batch : option bool;
  skip_waf : option bool;
  fresh_queries : option bool;
  custom_args : option string;
}.

(** What the builder reads from [sys]. *)
Record Sys := {
  frozen : bool;
  executable : string;
}.

(** The builder object: [self.sqlmap_path], found when it is made. *)
Record Builder := {
  sqlmap_path : string;
}.

(** [d.get(k)] taken as a condition, for a flag and for a text. *)
Definition truthy (o : option bool) : bool :=
  match o with Some b => b | None => false end.

Definition truthy_str (o : option string) : bool :=
  match o with Some s => Shlex.nonempty s | None => false end.

(** [s.endswith(suffix)] *)
Definition endswith (s suffix : string) : bool :=
  let n := String.length s in
  let k := String.length suffix in
  (k <=? n)%nat && String.eqb (String.substring (n - k) k s) suffix.

(** [args.extend([flag, value])] when the key is there. *)
Definition pair_arg {A} (flag : string) (show : A → string) (o : option A)
  : list string :=
  match o with
  | Some v => [flag; show v]
  | None => []
  end.

(** [args.append(flag)] when the condition holds. *)
Definition flag_arg (flag : string) (b : bool) : list string :=
  if b then [flag] else [].

Definition _build_target_args (target : Target) : list string :=
  let args := [] in
  let args := args ++ pair_arg "-u" id (url target) in
  let args := args ++ pair_arg "-r" id (request_file target) in
  let args := args ++ pair_arg "--data" id (data target) in
  let args := args ++ pair_arg "--cookie" id (cookies target) in
  let args := args ++ pair_arg "--headers" id (headers target) in
  let args := args ++ flag_arg "--random-agent" (truthy (random_user_agent target)) in
  args.

Definition detection_map : gmap string string :=
  list_to_map
    [ ("banner", "--banner");
      ("current_user", "--current-user");
      ("current_db", "--current-db");
      ("hostname", "--hostname");
      ("is_dba", "--is-dba");
      ("users", "--users");
      ("passwords", "--passwords");
      ("privileges", "--privileges");
      ("roles", "--roles");
      ("dbs", "--dbs");
      ("tables", "--tables");
      ("columns", "--columns");
      ("schema", "--schema") ].

(** The loop over [options['detection']]. *)
Fixpoint detection_args (l : list string) : list string :=
  match l with
  | [] => []
  | detection :: l' =>
      match detection_map !! detection with
      | Some flag => flag :: detection_args l'
      | None => detection_args l'
      end
  end.

(** The custom arguments: split as a shell does, or at white space when
    the quoting is broken. *)
Definition custom_arg_list (o : option string) : list string :=
  match o with
  | Some text =>
      let custom_args := Py.strip text in
      if Shlex.nonempty custom_args then
        match Shlex.split custom_args with
        | Some custom_args_list => custom_args_list
        | None => Py.split_ws custom_args
        end
      else []
  | None => []
  end.

Definition _build_option_args (options : Options) : list string :=
  let args := [] in
  let args := args ++ pair_arg "--risk" Py.str (risk_level options) in
  let args := args ++ pair_arg "--level" Py.str (level options) in
  let args := args ++ pair_arg "--threads" Py.str (threads options) in
  let args := args ++ pair_arg "--timeout" Py.str (timeout options) in
  let args := args ++ pair_arg "--retries" Py.str (retries options) in
  let args := args ++
    match techniques options with
    | Some ((_ :: _) as l) => ["--technique"; Py.join "" l]
    | _ => []
    end in
  let args := args ++ pair_arg "--dbms" id (dbms options) in
  let args := args ++
    match detection options with
    | Some l => detection_args l
    | None => []
    end in
  let args := args ++ pair_arg "--proxy" id (proxy options) in
  let args := args ++
    (if truthy (tor options)
     then "--tor" :: pair_arg "--tor-port" Py.str (tor_port options)
     else []) in
  let args := args ++
    match delay options with
    | Some d => if 0 <? d then ["--delay"; Py.str_int d] else []
    | None => []
    end in
  let args := args ++ flag_arg "--skip-url-encode" (truthy (skip_url_encode options)) in
  let args := args ++ flag_arg "--skip-static" (truthy (skip_static options)) in
  let args := args ++ pair_arg "--tamper" id (tamper options) in
  let args := args ++ pair_arg "--os" id (os options) in
  let args := args ++ flag_arg "--batch" (truthy (batch options)) in
  let args := args ++ flag_arg "--skip-waf" (truthy (skip_waf options)) in
  let args := args ++ flag_arg "--fresh-queries" (truthy (fresh_queries options)) in
  let args :=
    if negb (existsb (Py.contains "--batch") args)
    then args ++ ["--batch"] else args in
  let args := args ++ custom_arg_list (custom_args options) in
  args.

Definition build_command (sys : Sys) (self : Builder)
    (target : Target) (options : Options) : list string :=
  let cmd :=
    if endswith (sqlmap_path self) ".py" then
      if frozen sys then [executable sys; sqlmap_path self]
      else ["python"; sqlmap_path self]
    else [sqlmap_path self] in
  let cmd := cmd ++ _build_target_args target in
  let cmd := cmd ++ _build_option_args options in
  cmd.

Definition get_command_string (sys : Sys) (self : Builder)
    (target : Target) (options : Options) : string :=
  let cmd := build_command sys self target options in
  Py.join " " (Shlex.quote <$> cmd).

(** [validate_target]; [isfile] is [os.path.isfile], the state of the
    file system. *)
Definition validate_target (isfile : string → bool) (target : Target)
  : list string :=
  let errors := [] in
  let errors :=
    if negb (truthy_str (url target)) && negb (truthy_str (request_file target))
    then errors ++ ["Either URL or request file must be specified"]
    else errors in
  let errors :=
    match url target with
    | Some url =>
        if negb (Py.startswith url "http://" || Py.startswith url "https://")
        then errors ++ ["URL must start with http:// or https://"]
        else errors
    | None => errors
    end in
  let errors :=
    match request_file target with
    | Some f =>
        if negb (isfile f)
        then errors ++ ["Request file does not exist"]
        else errors
    | None => errors
    end in
  errors.

(** [not isinstance(v, int) or v < lo or v > hi] *)
Definition out_of_range (lo hi : Z) (v : Py.value) : bool :=
  match Py.as_int v with
  | Some n => (n <? lo) || (hi <? n)
  | None => true
  end.

Definition range_errors (lo hi : Z) (message : string)
    (o : option Py.value) : list string :=
  match o with
  | Some v => if out_of_range lo hi v then [message] else []
  | None => []
  end.

Definition valid_techniques : list string := ["B"; "E"; "U"; "S"; "T"; "Q"].

(** The loop over [options['techniques']]. *)
Fixpoint technique_errors (l : list string) : list string :=
  match l with
  | [] => []
  | technique :: l' =>
      if bool_decide (technique ∈ valid_techniques)
      then technique_errors l'
      else ("Invalid technique: " +:+ technique) :: technique_errors l'
  end.

Definition validate_options (options : Options) : list string :=
  let errors := [] in
  let errors := errors ++
    range_errors 1 3 "Risk level must be between 1 and 3" (risk_level options) in
  let errors := errors ++
    range_errors 1 5 "Level must be between 1 and 5" (level options) in
  let errors := errors ++
    range_errors 1 10 "Threads must be between 1 and 10" (threads options) in
  let errors := errors ++
    range_errors 1 300 "Timeout must be between 1 and 300 seconds" (timeout options) in
  let errors := errors ++
    match techniques options with
    | Some l => technique_errors l
    | None => []
    end in
  errors.

(** What [find_sqlmap] asks of the operating system: [os.path.exists],
    [os.path.isfile], [os.access(_, os.X_OK)], [shutil.which],
    [os.path.dirname] and [os.path.join]. *)
Record Host := {
  path_exists : string → bool;
  path_isfile : string → bool;
  access_x : string → bool;
  which : string → option string;
  dirname : string → string;
  path_join : string → string → string;
}.

Definition _is_executable (host : Host) (path : string) : bool :=
  if path_isfile host path then
    if endswith path ".py" then true
    else access_x host path
  else false.

Definition common_paths : list string :=
  ["sqlmap.py"; "./sqlmap.py"; "../sqlmap.py"; "sqlmap/sqlmap.py"].

(** The loop over [common_paths]: where it returns, if it does. *)
Fixpoint first_executable (host : Host) (paths : list string) : option string :=
  match paths with
  | [] => None
  | path :: paths' =>
      if _is_executable host path then Some path
      else first_executable host paths'
  end.

(** The first part of [find_sqlmap]: the script beside a frozen
    application, when it is there. *)
Definition bundled_sqlmap (sys : Sys) (host : Host) : option string :=
  if frozen sys then
    let current_dir := dirname host (executable sys) in
    let sqlmap_dir := dirname host (dirname host current_dir) in
    let sqlmap_path := path_join host sqlmap_dir "sqlmap.py" in
    if path_exists host sqlmap_path then Some sqlmap_path else None
  else None.

Definition find_sqlmap (sys : Sys) (host : Host) : string :=
  match bundled_sqlmap sys host with
  | Some sqlmap_path => sqlmap_path
  | None =>
      if truthy_str (which host "sqlmap")
      then default "" (which host "sqlmap")
      else match first_executable host common_paths with
           | Some path => path
           | None => "sqlmap"
           end
  end.

(** [CommandBuilder()] *)
Definition __init__ (sys : Sys) (host : Host) : Builder :=
  {| sqlmap_path := find_sqlmap sys host |}.

End CommandBuilder.

(** ** The output parser of [sqlmapper/core/subprocess_runner.py] *)

Module SubprocessRunner.

(** The values of the local [current_section]; Python's [None] is
    [None]. *)
Inductive section :=
  | vulnerability
  | not_vulnerable
  | databases_section
  | user_info
  | version_info.

Global Instance section_eq_dec : EqDecision section.
Proof. solve_decision. Defined.

(** One entry of [vulnerabilities]. *)
Record vuln := {
  parameter : string;
  type : string;
  title : string;
  payload : string;
}.

(** One entry of [database_info['databases']]. *)
Record db_entry := {
  tables : list string;
}.

(** The dictionary [database_info]: the texts kept under ['dbms'],
    ['banner'], ['current_user'] and ['version'], and the dictionary
    under ['databases'] when that key is there. *)
Record db_info := {
  info : gmap string string;
  databases : option (gmap string db_entry);
}.

(** The dictionary [result]. *)
Record Result := {
  status : string;
  target : string;
  dbms : string;
  vulnerable : bool;
  vulnerabilities : list vuln;
  database_info : db_info;
  summary : string;
  raw_output : string;
  timestamp : string;
}.

Definition set_target (v : string) (r : Result) : Result :=
  {| status := status r; target := v; dbms := dbms r;
     vulnerable := vulnerable r; vulnerabilities := vulnerabilities r;
     database_info := database_info r; summary := summary r;
     raw_output := raw_output r; timestamp := timestamp r |}.

Definition set_dbms (v : string) (r : Result) : Result :=
  {| status := status r; target := target r; dbms := v;
     vulnerable := vulnerable r; vulnerabilities := vulnerabilities r;
     database_info := database_info r; summary := summary r;
     raw_output := raw_output r; timestamp := timestamp r |}.

Definition set_vulnerable (v : bool) (r : Result) : Result :=
  {| status := status r; target := target r; dbms := dbms r;
     vulnerable := v; vulnerabilities := vulnerabilities r;
     database_info := database_info r; summary := summary r;
     raw_output := raw_output r; timestamp := timestamp r |}.

Definition set_summary (v : string) (r : Result) : Result :=
  {| status := status r; target := target r; dbms := dbms r;
     vulnerable := vulnerable r; vulnerabilities := vulnerabilities r;
     database_info := database_info r; summary := v;
     raw_output := raw_output r; timestamp := timestamp r |}.

Definition set_parsed (vs : list vuln) (d : db_info) (r : Result) : Result :=
  {| status := status r; target := target r; dbms := dbms r;
     vulnerable := vulnerable r; vulnerabilities := vs;
     database_info := d; summary := summary r;
     raw_output := raw_output r; timestamp := timestamp r |}.

(** What the loop of [_parse_sqlmap_output] reads and writes: its four
    locals and the dictionary [result]. *)
Record locals := {
  current_section : option section;
  found : list vuln;
  collected : db_info;
  target_url : option string;
  res : Result;
}.

Definition with_section (s : section) (st : locals) : locals :=
  {| current_section := Some s; found := found st;
     collected := collected st; target_url := target_url st;
     res := res st |}.

Definition with_found (vs : list vuln) (st : locals) : locals :=
  {| current_section := current_section st; found := vs;
     collected := collected st; target_url := target_url st;
     res := res st |}.

Definition with_collected (d : db_info) (st : locals) : locals :=
  {| current_section := current_section st; found := found st;
     collected := d; target_url := target_url st; res := res st |}.

Definition with_target_url (u : string) (st : locals) : locals :=
  {| current_section := current_section st; found := found st;
     collected := collected st; target_url := Some u; res := res st |}.

Definition with_res (f : Result → Result) (st : locals) : locals :=
  {| current_section := current_section st; found := found st;
     collected := collected st; target_url := target_url st;
     res := f (res st) |}.

(** [database_info[key] = v] for one of the text entries. *)
Definition put_info (key v : string) (d : db_info) : db_info :=
  {| info := <[key := v]> (info d); databases := databases d |}.

(** The two guards that make [database_info['databases'][db_name]]
    exist. *)
Definition ensure_database (db_name : string) (d : db_info) : db_info :=
  let dbs := default ∅ (databases d) in
  let dbs :=
    match dbs !! db_name with
    | Some _ => dbs
    | None => <[db_name := {| tables := [] |}]> dbs
    end in
  {| info := info d; databases := Some dbs |}.

(** The guarded [append] of a table name to the list of an existing
    database. *)
Definition add_table (db_name table_name : string) (d : db_info) : db_info :=
  match databases d with
  | Some dbs =>
      match dbs !! db_name with
      | Some e =>
          if bool_decide (table_name ∈ tables e) then d
          else {| info := info d;
                  databases :=
                    Some (<[db_name := {| tables := tables e ++ [table_name] |}]> dbs) |}
      | None => d
      end
  | None => d
  end.

(** The text between the first and the last single quote of the line,
    when there are two of them with something in between. *)
Definition quoted_text (line : string) : option string :=
  if Py.contains "'" line then
    let start := Py.find line "'" + 1 in
    let end_ := Py.rfind line "'" in
    if (0 <? start) && (start <? end_)
    then Some (Py.slice line start end_) else None
  else None.

(** [line.split('Parameter: ')[-1].split()[0]] *)
Definition param_of (line : string) : option string :=
  Py.first_item (Py.split_ws (Py.last_piece line "Parameter: ")).

(** The characters stripped around the name of a database or a table:
    the single and the double quote. *)
Definition quote_chars : string := Shlex.quotes.

Definition in_section (s : section) (st : locals) : bool :=
  bool_decide (current_section st = Some s).

(** The body of the loop over [lines]. *)
Definition parse_line (st : locals) (line : string) : option locals :=
  let line := Py.strip line in
  if negb (Shlex.nonempty line) then Some st
  else if Py.contains "[*] testing connection to the target URL" line then
    match quoted_text line with
    | Some u => Some (with_res (set_target u) (with_target_url u st))
    | None => Some st
    end
  else if Py.contains "[*] starting at" line && Py.contains "[*] ending at" line then
    match target_url st with
    | Some u => if Shlex.nonempty u then Some (with_res (set_target u) st) else Some st
    | None => Some st
    end
  else if Py.contains "[INFO] testing URL" line then
    match quoted_text line with
    | Some u => Some (with_res (set_target u) st)
    | None => Some st
    end
  else if Py.contains "[INFO] testing connection to the target URL" line then
    match quoted_text line with
    | Some u => Some (with_res (set_target u) st)
    | None => Some st
    end
  else if Py.contains "[INFO] the back-end DBMS is" line then
    let dbms := Py.strip (Py.last_piece line "is ") in
    Some (with_collected (put_info "dbms" dbms (collected st))
            (with_res (set_dbms dbms) st))
  else if Py.contains "[INFO] banner:" line then
    let banner := Py.strip (Py.last_piece line "banner: ") in
    Some (with_collected (put_info "banner" banner (collected st)) st)
  else if Py.contains "[CRITICAL] sqlmap identified the following injection point(s):" line then
    Some (with_section vulnerability (with_res (set_vulnerable true) st))
  else if Py.contains "[CRITICAL] all tested parameters appear to be not injectable" line then
    Some (with_section not_vulnerable (with_res (set_vulnerable false) st))
  else if Py.contains "[INFO] sqlmap identified the following injection point(s):" line then
    Some (with_section vulnerability (with_res (set_vulnerable true) st))
  else if Py.contains "[PAYLOAD]" line && in_section vulnerability st then
    if Py.contains "Parameter:" line then
      param ← param_of line;
      let vuln := {| parameter := param; type := "Unknown";
                     title := "SQL Injection"; payload := line |} in
      Some (with_found (found st ++ [vuln]) st)
    else Some st
  else if Py.contains "[INFO] testing for SQL injection on" line then
    if Py.contains "Parameter:" line then
      param ← param_of line;
      Some (with_res (set_vulnerable true) st)
    else Some st
  else if Py.contains "[INFO] testing" line && Py.contains "injection" (Py.lower line) then
    if Py.contains "Parameter:" line then
      param ← param_of line;
      Some st
    else Some st
  else if Py.contains "[INFO] fetching database names" line then
    Some (with_section databases_section st)
  else if Py.contains "[INFO] fetching tables for database:" line then
    let db_name := Py.strip_chars quote_chars (Py.last_piece line "database: ") in
    Some (with_collected (ensure_database db_name (collected st)) st)
  else if Py.contains "[INFO] fetching columns for table" line then
    if Py.contains "table " line && Py.contains "database" line then
      let table_info := Py.last_piece line "table " in
      if Py.contains " in database" table_info then
        let table_name :=
          Py.strip_chars quote_chars (Py.first_piece table_info " in database") in
        let db_name :=
          Py.strip_chars quote_chars (Py.last_piece table_info "database ") in
        Some (with_collected
                (add_table db_name table_name
                   (ensure_database db_name (collected st))) st)
      else Some st
    else Some st
  else if Py.contains "[INFO] fetching current user" line then
    Some (with_section user_info st)
  else if Py.contains "[INFO] retrieved:" line && in_section user_info st then
    let user_info := Py.strip (Py.last_piece line "retrieved: ") in
    Some (with_collected (put_info "current_user" user_info (collected st)) st)
  else if Py.contains "[INFO] fetching database server version" line then
    Some (with_section version_info st)
  else if Py.contains "[INFO] retrieved:" line && in_section version_info st then
    let version_info := Py.strip (Py.last_piece line "retrieved: ") in
    Some (with_collected (put_info "version" version_info (collected st)) st)
  else if Py.contains "[INFO] retrieved:" line then
    if negb (vulnerable (res st))
    then Some (with_res (set_vulnerable true) st) else Some st
  else if Py.contains "[INFO] sqlmap identified the following injection point(s):" line then
    Some (with_res (set_summary "SQL injection vulnerability found")
            (with_res (set_vulnerable true) st))
  else if Py.contains "[INFO] no injection point(s) found" line then
    Some (with_res (set_summary "No SQL injection vulnerabilities found")
            (with_res (set_vulnerable false) st))
  else if Py.contains "[CRITICAL] all tested parameters appear to be not injectable" line then
    Some (with_res (set_summary "No SQL injection vulnerabilities found")
            (with_res (set_vulnerable false) st))
  else if Py.contains "[INFO] sqlmap got a connection to the target URL" line then
    Some (with_res (set_summary "Successfully connected to target") st)
  else if Py.contains "[INFO] confirming that the parameter" line
          && Py.contains "is injectable" line then
    Some (with_res (set_vulnerable true) st)
  else if Py.contains "[INFO] parameter" line && Py.contains "is vulnerable" line then
    Some (with_res (set_vulnerable true) st)
  else if Py.contains "[INFO] found a total of" line
          && Py.contains "injection point(s)" line then
    Some (with_res (set_vulnerable true) st)
  else Some st.

(** The loop over [lines]. *)
Fixpoint parse_lines (st : locals) (lines : list string) : option locals :=
  match lines with
  | [] => Some st
  | line :: lines' => st' ← parse_line st line; parse_lines st' lines'
  end.

(** [command.index(arg)] for an [arg] that is in [command]. *)
Fixpoint index (command : list string) (arg : string) : nat :=
  match command with
  | [] => 0
  | a :: command' => if String.eqb a arg then 0 else S (index command' arg)
  end.

(** The loop over [self.command] that looks for the target when the
    output did not name it: what it stores in [result['target']], if
    anything. *)
Fixpoint target_from_command (command args : list string) : option string :=
  match args with
  | [] => None
  | arg :: args' =>
      if Py.startswith arg "http://" || Py.startswith arg "https://"
      then Some arg
      else if String.eqb arg "-u" && (index command arg + 1 <? length command)%nat
      then (* in range, by the test *) command !! (index command arg + 1)%nat
      else target_from_command command args'
  end.

(** The summary written at the end. *)
Definition final_summary (r : Result) (vulnerabilities : list vuln) : string :=
  if vulnerable r then
    let vuln_count := length vulnerabilities in
    if (0 <? vuln_count)%nat
    then "Found " +:+ Py.str_int (Z.of_nat vuln_count)
         +:+ " SQL injection vulnerability(ies)"
    else "SQL injection vulnerability detected"
  else "No SQL injection vulnerabilities found".

Definition start (result : Result) : locals :=
  {| current_section := None; found := [];
     collected := {| info := ∅; databases := None |};
     target_url := None; res := result |}.

(** [_parse_sqlmap_output(lines, result)] of a runner whose [command]
    is [command]: the dictionary [result] as the call leaves it. *)
Definition _parse_sqlmap_output (command : list string)
    (lines : list string) (result : Result) : option Result :=
  st ← parse_lines (start result) lines;
  let result := set_parsed (found st) (collected st) (res st) in
  let result :=
    if String.eqb (target result) "Unknown" && negb (bool_decide (command = []))
    then match target_from_command command command with
         | Some t => set_target t result
         | None => result
         end
    else result in
  Some (set_summary (final_summary result (found st)) result).

(** The dictionary with which [_parse_results] starts, for a runner
    with the given [output_lines], at the time of day [now]. *)
Definition initial_result (now : string) (output_lines : list string)
  : Result :=
  {| status := "completed"; target := "Unknown"; dbms := "Unknown";
     vulnerable := false; vulnerabilities := [];
     database_info := {| info := ∅; databases := None |};
     summary := "Scan completed successfully";
     raw_output := Py.join (String "010" "") output_lines;
     timestamp := now |}.

(** [_parse_results()] of a runner with the given [command] and
    [output_lines]. *)
Definition _parse_results (now : string) (command output_lines : list string)
  : option Result :=
  let result := initial_result now output_lines in
  _parse_sqlmap_output command output_lines result.

(** *** [run] and [stop] *)

(** The exceptions that a call on the process can raise: the time-out of
    [wait], another instance of [Exception], and one that is no
    [Exception], such as [KeyboardInterrupt]. *)
Inductive raised :=
  | TimeoutExpired
  | OtherException
  | NotAnException.

(** The calls that [stop] can make, in the words of the source;
    [print_error] is the [print] of its last handler. *)
Inductive call :=
  | terminate
  | wait (timeout : Z)
  | kill
  | print_error.

Global Instance call_eq_dec : EqDecision call.
Proof. solve_decision. Defined.

(** The child process as [stop] meets it: what [poll()] returns ([None]
    while it runs), and whether a call returns or raises. *)
Record Process := {
  poll : option Z;
  outcome : call → option raised;
}.

(** A piece of [stop]: the calls it made, and how it ended. *)
Definition action : Type := list call * option raised.

Definition perform (process : Process) (c : call) : action :=
  ([c], outcome process c).

(** [first; second] *)
Definition and_then (first second : action) : action :=
  match first with
  | (calls, None) => (calls ++ fst second, snd second)
  | (calls, Some e) => (calls, Some e)
  end.

(** [try: body] with its [except] clauses: [handler e] is the clause
    that catches [e], when there is one. *)
Definition try_except (body : action) (handler : raised → option action)
  : action :=
  match body with
  | (calls, None) => (calls, None)
  | (calls, Some e) =>
      match handler e with
      | Some h => (calls ++ fst h, snd h)
      | None => (calls, Some e)
      end
  end.

(** [stop()], for the [self.process] given; [self.running] is false
    afterwards in any case. *)
Definition stop (process : option Process) : action :=
  match process with
  | Some process =>
      match poll process with
      | None =>
          try_except
            (and_then (perform process terminate) (perform process (wait 5)))
            (λ e,
               match e with
               | TimeoutExpired =>
                   Some (try_except
                           (and_then (perform process kill)
                                     (perform process (wait 2)))
                           (λ _, Some ([], None)))
               | OtherException => Some (perform process print_error)
               | NotAnException => None
               end)
      | Some _ => ([], None)
      end
  | None => ([], None)
  end.



(** What [run] emits. *)
Inductive signal :=
  | output_received (line : string)
  | scan_completed (result : Result)
  | scan_failed (message : string).

(** What ends a call of [run] early: an instance of [Exception], with
    the text that [str] makes of it, or something that is no [Exception],
    such as [KeyboardInterrupt], which the handler of [run] does not
    catch. *)
Inductive failure :=
  | exception (message : string)
  | base_exception.

(** A call that returns a value or raises. *)
Inductive attempt (A : Type) :=
  | gives (a : A)
  | fails (e : failure).
Arguments gives {A} a.
Arguments fails {A} e.

(** What the child process did during one [run]: why [Popen] raised, if
    it did; what the [readline()] calls of the loop returned; why the
    loop ended in a [readline()] that raised, if it did; what [read()]
    did after the loop, when the process was still running then; and
    what [wait()] did. *)
Record Transcript := {
  spawn_error : option failure;
  reads : list string;
  readline_error : option failure;
  remaining_output : option (attempt string);
  wait_result : attempt Z;
}.

(** The lines that the reading loop keeps. *)
Fixpoint streamed (reads : list string) : list string :=
  match reads with
  | [] => []
  | line :: reads' =>
      if Shlex.nonempty line
      then Py.rstrip_with Py.isspace line :: streamed reads'
      else streamed reads'
  end.

(** The lines kept of the output that was left. *)
Fixpoint drained (remaining_lines : list string) : list string :=
  match remaining_lines with
  | [] => []
  | line :: lines' =>
      if Shlex.nonempty (Py.strip line)
      then Py.strip line :: drained lines'
      else drained lines'
  end.

(** The lines that the part after the loop keeps. *)
Definition left_over (t : Transcript) : list string :=
  match remaining_output t with
  | Some (gives remaining) =>
      if Shlex.nonempty remaining
      then drained (Py.split remaining (String "010" ""))
      else []
  | _ => []
  end.

(** [self.output_lines] of a process that started, when [run] ends. *)
Definition output_lines (t : Transcript) : list string :=
  streamed (reads t) ++
  match readline_error t with
  | None => left_over t
  | Some _ => []
  end.

(** The handler [except Exception as e] of [run]: what is no
    [Exception] passes through it and no signal follows. *)
Definition reported (e : failure) : list signal :=
  match e with
  | exception message => [scan_failed message]
  | base_exception => []
  end.

(** [run()], at the time of day [now]: the signals, in order. *)
Definition run (now : string) (command : list string) (t : Transcript)
  : list signal :=
  match spawn_error t with
  | Some e => reported e
  | None =>
      (output_received <$> streamed (reads t)) ++
      match readline_error t with
      | Some e => reported e
      | None =>
          match remaining_output t with
          | Some (fails e) => reported e
          | _ =>
              (output_received <$> left_over t) ++
              match wait_result t with
              | fails e => reported e
              | gives return_code =>
                  if return_code =? 0 then
                    match _parse_results now command (output_lines t) with
                    | Some result => [scan_completed result]
                    | None => [scan_failed "list index out of range"]
                    end
                  else
                    [scan_failed
                       ("Process exited with code " +:+ Py.str_int return_code)]
              end
          end
      end
  end.

End SubprocessRunner.

(** ** The client of the REST interface, in the same file *)

Module RestApiClient.

(** One entry of [self.tasks]. *)
Record task := {
  target : CommandBuilder.Target;
  options : CommandBuilder.Options;
  command : list string;
  status : string;
}.

(** What a request comes to: an exception, or a response with its
    status code and, for [/task/new], the ['taskid'] of its body when
    the body has one. *)
Inductive reply :=
  | no_reply
  | response (status_code : Z) (taskid : option string).

Inductive signal :=
  | task_created (task_id : string)
  | task_started (task_id : string).

Definition with_status (v : string) (t : task) : task :=
  {| target := target t; options := options t; command := command t;
     status := v |}.

(** Each method gives what it returns, [self.tasks] as it leaves it, and
    the signals it emits. *)
Definition create_task (sys : CommandBuilder.Sys) (host : CommandBuilder.Host)
    (post : reply) (tasks : gmap string task)
    (target : CommandBuilder.Target) (options : CommandBuilder.Options)
  : option string * gmap string task * list signal :=
  let builder := CommandBuilder.__init__ sys host in
  let command := CommandBuilder.build_command sys builder target options in
  match post with
  | response status_code taskid =>
      if status_code =? 200 then
        match taskid with
        | Some task_id =>
            (Some task_id,
             <[task_id := {| target := target; options := options;
                             command := command; status := "created" |}]> tasks,
             [task_created task_id])
        | None => (* KeyError, caught *) (None, tasks, [])
        end
      else (None, tasks, [])
  | no_reply => (None, tasks, [])
  end.

Definition start_task (post : reply) (tasks : gmap string task)
    (task_id : string) : bool * gmap string task * list signal :=
  match tasks !! task_id with
  | None => (false, tasks, [])
  | Some t =>
      match post with
      | response status_code _ =>
          if status_code =? 200 then
            (true, <[task_id := with_status "running" t]> tasks,
             [task_started task_id])
          else (false, tasks, [])
      | no_reply => (false, tasks, [])
      end
  end.

Definition stop_task (post : reply) (tasks : gmap string task)
    (task_id : string) : bool * gmap string task :=
  match post with
  | response status_code _ =>
      if status_code =? 200 then
        (true,
         match tasks !! task_id with
         | Some t => <[task_id := with_status "stopped" t]> tasks
         | None => tasks
         end)
      else (false, tasks)
  | no_reply => (false, tasks)
  end.

Definition delete_task (delete_reply : reply) (tasks : gmap string task)
    (task_id : string) : bool * gmap string task :=
  match delete_reply with
  | response status_code _ =>
      if status_code =? 200 then (true, delete task_id tasks)
      else (false, tasks)
  | no_reply => (false, tasks)
  end.

End RestApiClient.

(** ** The forms that fill [target] and [options], and the start of a scan *)

Module TargetInput.

(** The widgets that [get_target_info] reads: the index of the current
    tab, the texts, and the check box. *)
Record Form := {
  current_tab : Z;
  url_input : string;
  data_input : string;
  cookie_input : string;
  request_file_input : string;
  headers_input : string;
  random_user_agent : bool;
}.

(** [v = text.strip()], and the key is set [if v]. *)
Definition entry (text : string) : option string :=
  let v := Py.strip text in
  if Shlex.nonempty v then Some v else None.

Definition get_target_info (self : Form) : CommandBuilder.Target :=
  {| CommandBuilder.url :=
       if current_tab self =? 0 then entry (url_input self) else None;
     CommandBuilder.data :=
       if current_tab self =? 0 then entry (data_input self) else None;
     CommandBuilder.cookies :=
       if current_tab self =? 0 then entry (cookie_input self) else None;
     CommandBuilder.request_file :=
       if current_tab self =? 0 then None
       else if current_tab self =? 1 then entry (request_file_input self)
       else None;
     CommandBuilder.headers := entry (headers_input self);
     CommandBuilder.random_user_agent :=
       if random_user_agent self then Some true else None |}.

End TargetInput.

Module OptionsPanel.

(** The widgets that [get_options] reads: the values of the spin boxes,
    the check boxes, the current texts of the combo boxes and the texts
    of the line edits. *)
Record Form := {
  risk_level : Z;
  level : Z;
  threads : Z;
  timeout : Z;
  retries : Z;
  technique_b : bool;
  technique_e : bool;
  technique_u : bool;
  technique_s : bool;
  technique_t : bool;
  technique_q : bool;
  dbms : string;
  banner : bool;
  current_user : bool;
  current_db : bool;
  hostname : bool;
  is_dba : bool;
  users : bool;
  passwords : bool;
  privileges : bool;
  roles : bool;
  dbs : bool;
  tables : bool;
  columns : bool;
  schema : bool;
  proxy : string;
  tor : bool;
  tor_port : Z;
  delay : Z;
  skip_url_encode : bool;
  skip_static : bool;
  tamper : string;
  os : string;
  batch : bool;
  no_check : bool;
  fresh_queries : bool;
  custom_args : string;
}.

(** [if box.isChecked(): l.append(name)] *)
Definition checked (box : bool) (name : string) : list string :=
  if box then [name] else [].

(** The text of a combo box, in lower case, unless it is the first
    item. *)
Definition chosen (text : string) : option string :=
  if String.eqb text "Auto-detect" then None else Some (Py.lower text).

(** [get_options]; the key ['no_check'] that it sets as well is one that
    the command builder does not read. *)
Definition get_options (self : Form) : CommandBuilder.Options :=
  {| CommandBuilder.risk_level := Some (Py.VInt (risk_level self));
     CommandBuilder.level := Some (Py.VInt (level self));
     CommandBuilder.threads := Some (Py.VInt (threads self));
     CommandBuilder.timeout := Some (Py.VInt (timeout self));
     CommandBuilder.retries := Some (Py.VInt (retries self));
     CommandBuilder.techniques :=
       Some (checked (technique_b self) "B" ++ checked (technique_e self) "E"
             ++ checked (technique_u self) "U" ++ checked (technique_s self) "S"
             ++ checked (technique_t self) "T" ++ checked (technique_q self) "Q");
     CommandBuilder.dbms := chosen (dbms self);
     CommandBuilder.detection :=
       Some (checked (banner self) "banner"
             ++ checked (current_user self) "current_user"
             ++ checked (current_db self) "current_db"
             ++ checked (hostname self) "hostname"
             ++ checked (is_dba self) "is_dba"
             ++ checked (users self) "users"
             ++ checked (passwords self) "passwords"
             ++ checked (privileges self) "privileges"
             ++ checked (roles self) "roles"
             ++ checked (dbs self) "dbs"
             ++ checked (tables self) "tables"
             ++ checked (columns self) "columns"
             ++ checked (schema self) "schema");
     CommandBuilder.proxy := TargetInput.entry (proxy self);
     CommandBuilder.tor := if tor self then Some true else None;
     CommandBuilder.tor_port :=
       if tor self then Some (Py.VInt (tor_port self)) else None;
     CommandBuilder.delay := Some (delay self);
     CommandBuilder.skip_url_encode := Some (skip_url_encode self);
     CommandBuilder.skip_static := Some (skip_static self);
     CommandBuilder.tamper := TargetInput.entry (tamper self);
     CommandBuilder.os := chosen (os self);
     CommandBuilder.batch := Some (batch self);
     CommandBuilder.skip_waf := None;
     CommandBuilder.fresh_queries := Some (fresh_queries self);
     CommandBuilder.custom_args := TargetInput.entry (custom_args self) |}.

End OptionsPanel.

Module MainWindow.

(** [start_scan]: the command with which the runner is started, or
    [None] when the warning is shown instead. *)
Definition start_scan (sys : CommandBuilder.Sys)
    (command_builder : CommandBuilder.Builder)
    (target_input : TargetInput.Form) (options_panel : OptionsPanel.Form)
  : option (list string) :=
  let target := TargetInput.get_target_info target_input in
  if negb (CommandBuilder.truthy_str (CommandBuilder.url target))
     && negb (CommandBuilder.truthy_str (CommandBuilder.request_file target))
  then None
  else
    let options := OptionsPanel.get_options options_panel in
    Some (CommandBuilder.build_command sys command_builder target options).

End MainWindow.

(** ** The notions in which the properties are stated *)

Section BuilderNotions.

Import CommandBuilder.

(** The number of times the argument [x] stands in a command. *)
Fixpoint occurrences (x : string) (l : list string) : nat :=
  match l with
  | [] => 0
  | a :: l' => (if String.eqb a x then 1 else 0) + occurrences x l'
  end%nat.

(** No argument of [l] has [--batch] inside: the test that guards the
    forced flag fails on [l]. *)
Definition clean (l : list string) : Prop :=
  existsb (Py.contains "--batch") l = false.

(** The texts that a target and the options bring into the command. *)
Definition text_of {A} (show : A → string) (o : option A) : list string :=
  match o with
  | Some v => [show v]
  | None => []
  end.

Definition target_texts (t : Target) : list string :=
  text_of id (url t) ++ text_of id (request_file t) ++ text_of id (data t)
  ++ text_of id (cookies t) ++ text_of id (headers t).

Definition option_texts (o : Options) : list string :=
  text_of Py.str (risk_level o) ++ text_of Py.str (level o)
  ++ text_of Py.str (threads o) ++ text_of Py.str (timeout o)
  ++ text_of Py.str (retries o) ++ text_of (Py.join "") (techniques o)
  ++ text_of id (dbms o) ++ text_of id (proxy o)
  ++ text_of Py.str (tor_port o) ++ text_of Py.str_int (delay o)
  ++ text_of id (tamper o) ++ text_of id (os o).

(** Options as the form delivers them when nothing but the batch flag
    and two detection boxes is touched, and ways to change one entry. *)
Definition plain_options : Options :=
  {| risk_level := Some (Py.VInt 1); level := Some (Py.VInt 1);
     threads := Some (Py.VInt 1); timeout := Some (Py.VInt 30);
     retries := Some (Py.VInt 3); techniques := Some ["B"; "E"; "U"];
     dbms := None; detection := Some ["banner"; "dbs"]; proxy := None;
     tor := None; tor_port := None; delay := Some 0;
     skip_url_encode := Some false; skip_static := Some false;
     tamper := None; os := None; batch := Some true; skip_waf := None;
     fresh_queries := Some false; custom_args := None |}.

Definition with_custom_args (text : string) (o : Options) : Options :=
  {| risk_level := risk_level o; level := level o; threads := threads o;
     timeout := timeout o; retries := retries o; techniques := techniques o;
     dbms := dbms o; detection := detection o; proxy := proxy o;
     tor := tor o; tor_port := tor_port o; delay := delay o;
     skip_url_encode := skip_url_encode o; skip_static := skip_static o;
     tamper := tamper o; os := os o; batch := batch o;
     skip_waf := skip_waf o; fresh_queries := fresh_queries o;
     custom_args := Some text |}.

(** A target that is a URL and nothing else. *)
Definition url_target (u : string) : Target :=
  {| url := Some u; request_file := None; data := None; cookies := None;
     headers := None; random_user_agent := None |}.

(** A run from source, with [sqlmap.py] in the working directory. *)
Definition plain_sys : Sys := {| frozen := false; executable := "python3" |}.
Definition plain_builder : Builder := {| sqlmap_path := "sqlmap.py" |}.

(** The errors of each of the three checks of [validate_target]. *)
Definition missing_errors (t : Target) : list string :=
  if truthy_str (url t) || truthy_str (request_file t) then []
  else ["Either URL or request file must be specified"].

Definition url_errors (t : Target) : list string :=
  match url t with
  | Some u =>
      if Py.startswith u "http://" || Py.startswith u "https://" then []
      else ["URL must start with http:// or https://"]
  | None => []
  end.

Definition file_errors (isfile : string → bool) (t : Target) : list string :=
  match request_file t with
  | Some f => if isfile f then [] else ["Request file does not exist"]
  | None => []
  end.

(** The value under a key is an integer between [lo] and [hi], when the
    key is there. *)
Definition within (lo hi : Z) (o : option Py.value) : Prop :=
  match o with
  | Some v =>
      match Py.as_int v with
      | Some n => lo ≤ n ≤ hi
      | None => False
      end
  | None => True
  end.

(** Every technique letter, when the key is there, is one of the six. *)
Definition known_techniques (o : option (list string)) : Prop :=
  match o with
  | Some l => Forall (λ t, t ∈ valid_techniques) l
  | None => True
  end.

Definition with_risk_level (v : Py.value) (o : Options) : Options :=
  {| risk_level := Some v; level := level o; threads := threads o;
     timeout := timeout o; retries := retries o; techniques := techniques o;
     dbms := dbms o; detection := detection o; proxy := proxy o;
     tor := tor o; tor_port := tor_port o; delay := delay o;
     skip_url_encode := skip_url_encode o; skip_static := skip_static o;
     tamper := tamper o; os := os o; batch := batch o;
     skip_waf := skip_waf o; fresh_queries := fresh_queries o;
     custom_args := custom_args o |}.

Definition with_level (v : Py.value) (o : Options) : Options :=
  {| risk_level := risk_level o; level := Some v; threads := threads o;
     timeout := timeout o; retries := retries o; techniques := techniques o;
     dbms := dbms o; detection := detection o; proxy := proxy o;
     tor := tor o; tor_port := tor_port o; delay := delay o;
     skip_url_encode := skip_url_encode o; skip_static := skip_static o;
     tamper := tamper o; os := os o; batch := batch o;
     skip_waf := skip_waf o; fresh_queries := fresh_queries o;
     custom_args := custom_args o |}.

Definition with_threads (v : Py.value) (o : Options) : Options :=
  {| risk_level := risk_level o; level := level o; threads := Some v;
     timeout := timeout o; retries := retries o; techniques := techniques o;
     dbms := dbms o; detection := detection o; proxy := proxy o;
     tor := tor o; tor_port := tor_port o; delay := delay o;
     skip_url_encode := skip_url_encode o; skip_static := skip_static o;
     tamper := tamper o; os := os o; batch := batch o;
     skip_waf := skip_waf o; fresh_queries := fresh_queries o;
     custom_args := custom_args o |}.

Definition with_timeout (v : Py.value) (o : Options) : Options :=
  {| risk_level := risk_level o; level := level o; threads := threads o;
     timeout := Some v; retries := retries o; techniques := techniques o;
     dbms := dbms o; detection := detection o; proxy := proxy o;
     tor := tor o; tor_port := tor_port o; delay := delay o;
     skip_url_encode := skip_url_encode o; skip_static := skip_static o;
     tamper := tamper o; os := os o; batch := batch o;
     skip_waf := skip_waf o; fresh_queries := fresh_queries o;
     custom_args := custom_args o |}.

End BuilderNotions.

Section ParserNotions.

Import SubprocessRunner.

(** The last character of a text. *)
Fixpoint last_char (s : string) : option ascii :=
  match s with
  | "" => None
  | String c s' =>
      match s' with
      | "" => Some c
      | _ => last_char s'
      end
  end.

(** The next [skip] characters of [s] are the end of the separator. *)
Definition pending (sep : string) (skip : nat) (s : string) : Prop :=
  ∃ before q rest,
    sep = before +:+ q ∧ String.length q = skip ∧ s = q +:+ rest.

(** [result['raw_output'] = v] *)
Definition set_raw_output (v : string) (r : Result) : Result :=
  {| status := status r; target := target r; dbms := dbms r;
     vulnerable := vulnerable r; vulnerabilities := vulnerabilities r;
     database_info := database_info r; summary := summary r;
     raw_output := v; timestamp := timestamp r |}.

(** A line of white space only, the empty line among them. *)
Fixpoint all_space (s : string) : bool :=
  match s with
  | "" => true
  | String c s' => Py.isspace c && all_space s'
  end.

(** [l2] is [l1] with lines of white space put in, anywhere. *)
Inductive blank_inserted : list string → list string → Prop :=
  | blank_inserted_nil : blank_inserted [] []
  | blank_inserted_keep line l1 l2 :
      blank_inserted l1 l2 → blank_inserted (line :: l1) (line :: l2)
  | blank_inserted_blank b l1 l2 :
      all_space b = true → blank_inserted l1 l2 → blank_inserted l1 (b :: l2).

(** What one line can do to [database_info]. *)
Inductive collected_step (d : db_info) : db_info → Prop :=
  | collected_same : collected_step d d
  | collected_info key v : collected_step d (put_info key v d)
  | collected_database name : collected_step d (ensure_database name d)
  | collected_table name table :
      collected_step d (add_table name table (ensure_database name d)).

(** No table is listed twice under a database. *)
Definition tables_nodup (d : db_info) : Prop :=
  ∀ dbs name e,
    databases d = Some dbs → dbs !! name = Some e → NoDup (tables e).

(** The summary, in the words of the specification: from the flag and
    the number of records alone. *)
Definition summary_for (flag : bool) (count : nat) : string :=
  match flag, count with
  | false, _ => "No SQL injection vulnerabilities found"
  | true, O => "SQL injection vulnerability detected"
  | true, _ =>
      "Found " +:+ Py.str_int (Z.of_nat count)
      +:+ " SQL injection vulnerability(ies)"
  end.

(** The text that a line of retrieved data carries. *)
Definition retrieved_value (line : string) : string :=
  Py.strip (Py.last_piece line "retrieved: ").

(** One of the tests that stand before the first test for retrieved
    data holds of the line. *)
Definition taken_before_retrieved (st : locals) (line : string) : bool :=
  Py.contains "[*] testing connection to the target URL" line
  || Py.contains "[*] starting at" line && Py.contains "[*] ending at" line
  || Py.contains "[INFO] testing URL" line
  || Py.contains "[INFO] testing connection to the target URL" line
  || Py.contains "[INFO] the back-end DBMS is" line
  || Py.contains "[INFO] banner:" line
  || Py.contains "[CRITICAL] sqlmap identified the following injection point(s):" line
  || Py.contains "[CRITICAL] all tested parameters appear to be not injectable" line
  || Py.contains "[INFO] sqlmap identified the following injection point(s):" line
  || Py.contains "[PAYLOAD]" line && in_section vulnerability st
  || Py.contains "[INFO] testing for SQL injection on" line
  || Py.contains "[INFO] testing" line && Py.contains "injection" (Py.lower line)
  || Py.contains "[INFO] fetching database names" line
  || Py.contains "[INFO] fetching tables for database:" line
  || Py.contains "[INFO] fetching columns for table" line
  || Py.contains "[INFO] fetching current user" line.

End ParserNotions.

(** ** Further notions, for the properties of the rest of the code *)

Section MoreNotions.

(** The host with another answer to [os.access]. *)
Definition with_access (f : string → bool) (h : CommandBuilder.Host)
  : CommandBuilder.Host :=
  {| CommandBuilder.path_exists := CommandBuilder.path_exists h;
     CommandBuilder.path_isfile := CommandBuilder.path_isfile h;
     CommandBuilder.access_x := f;
     CommandBuilder.which := CommandBuilder.which h;
     CommandBuilder.dirname := CommandBuilder.dirname h;
     CommandBuilder.path_join := CommandBuilder.path_join h |}.

(** The options with another proxy, and with the batch box as given. *)
Definition with_proxy (text : string) (o : CommandBuilder.Options)
  : CommandBuilder.Options :=
  {| CommandBuilder.risk_level := CommandBuilder.risk_level o;
     CommandBuilder.level := CommandBuilder.level o;
     CommandBuilder.threads := CommandBuilder.threads o;
     CommandBuilder.timeout := CommandBuilder.timeout o;
     CommandBuilder.retries := CommandBuilder.retries o;
     CommandBuilder.techniques := CommandBuilder.techniques o;
     CommandBuilder.dbms := CommandBuilder.dbms o;
     CommandBuilder.detection := CommandBuilder.detection o;
     CommandBuilder.proxy := Some text;
     CommandBuilder.tor := CommandBuilder.tor o;
     CommandBuilder.tor_port := CommandBuilder.tor_port o;
     CommandBuilder.delay := CommandBuilder.delay o;
     CommandBuilder.skip_url_encode := CommandBuilder.skip_url_encode o;
     CommandBuilder.skip_static := CommandBuilder.skip_static o;
     CommandBuilder.tamper := CommandBuilder.tamper o;
     CommandBuilder.os := CommandBuilder.os o;
     CommandBuilder.batch := CommandBuilder.batch o;
     CommandBuilder.skip_waf := CommandBuilder.skip_waf o;
     CommandBuilder.fresh_queries := CommandBuilder.fresh_queries o;
     CommandBuilder.custom_args := CommandBuilder.custom_args o |}.

Definition with_batch (b : bool) (o : CommandBuilder.Options)
  : CommandBuilder.Options :=
  {| CommandBuilder.risk_level := CommandBuilder.risk_level o;
     CommandBuilder.level := CommandBuilder.level o;
     CommandBuilder.threads := CommandBuilder.threads o;
     CommandBuilder.timeout := CommandBuilder.timeout o;
     CommandBuilder.retries := CommandBuilder.retries o;
     CommandBuilder.techniques := CommandBuilder.techniques o;
     CommandBuilder.dbms := CommandBuilder.dbms o;
     CommandBuilder.detection := CommandBuilder.detection o;
     CommandBuilder.proxy := CommandBuilder.proxy o;
     CommandBuilder.tor := CommandBuilder.tor o;
     CommandBuilder.tor_port := CommandBuilder.tor_port o;
     CommandBuilder.delay := CommandBuilder.delay o;
     CommandBuilder.skip_url_encode := CommandBuilder.skip_url_encode o;
     CommandBuilder.skip_static := CommandBuilder.skip_static o;
     CommandBuilder.tamper := CommandBuilder.tamper o;
     CommandBuilder.os := CommandBuilder.os o;
     CommandBuilder.batch := Some b;
     CommandBuilder.skip_waf := CommandBuilder.skip_waf o;
     CommandBuilder.fresh_queries := CommandBuilder.fresh_queries o;
     CommandBuilder.custom_args := CommandBuilder.custom_args o |}.

(** The values of the options that stand in the command before the
    batch flag: what the user typed or chose, without the names of the
    flags. *)
Definition printed_texts (o : CommandBuilder.Options) : list string :=
  text_of Py.str (CommandBuilder.risk_level o)
  ++ text_of Py.str (CommandBuilder.level o)
  ++ text_of Py.str (CommandBuilder.threads o)
  ++ text_of Py.str (CommandBuilder.timeout o)
  ++ text_of Py.str (CommandBuilder.retries o)
  ++ match CommandBuilder.techniques o with
     | Some ((_ :: _) as l) => [Py.join "" l]
     | _ => []
     end
  ++ text_of id (CommandBuilder.dbms o)
  ++ text_of id (CommandBuilder.proxy o)
  ++ (if CommandBuilder.truthy (CommandBuilder.tor o)
      then text_of Py.str (CommandBuilder.tor_port o) else [])
  ++ match CommandBuilder.delay o with
     | Some d => if 0 <? d then [Py.str_int d] else []
     | None => []
     end
  ++ text_of id (CommandBuilder.tamper o)
  ++ text_of id (CommandBuilder.os o).

(** The first character of a text. *)
Definition first_char (s : string) : option ascii :=
  match s with
  | "" => None
  | String c _ => Some c
  end.

(** The text begins and ends with a character that is no white
    space. *)
Definition solid (s : string) : Prop :=
  (∃ c, first_char s = Some c ∧ Py.isspace c = false)
  ∧ (∃ c, last_char s = Some c ∧ Py.isspace c = false).

(** The error that [validate_options] adds for a technique. *)
Definition technique_error (technique : string) : string :=
  "Invalid technique: " +:+ technique.

(** The empty dictionary of options, and one with techniques. *)
Definition no_options : CommandBuilder.Options :=
  {| CommandBuilder.risk_level := None; CommandBuilder.level := None;
     CommandBuilder.threads := None; CommandBuilder.timeout := None;
     CommandBuilder.retries := None; CommandBuilder.techniques := None;
     CommandBuilder.dbms := None; CommandBuilder.detection := None;
     CommandBuilder.proxy := None; CommandBuilder.tor := None;
     CommandBuilder.tor_port := None; CommandBuilder.delay := None;
     CommandBuilder.skip_url_encode := None;
     CommandBuilder.skip_static := None; CommandBuilder.tamper := None;
     CommandBuilder.os := None; CommandBuilder.batch := None;
     CommandBuilder.skip_waf := None; CommandBuilder.fresh_queries := None;
     CommandBuilder.custom_args := None |}.

Definition with_techniques (l : list string) (o : CommandBuilder.Options)
  : CommandBuilder.Options :=
  {| CommandBuilder.risk_level := CommandBuilder.risk_level o;
     CommandBuilder.level := CommandBuilder.level o;
     CommandBuilder.threads := CommandBuilder.threads o;
     CommandBuilder.timeout := CommandBuilder.timeout o;
     CommandBuilder.retries := CommandBuilder.retries o;
     CommandBuilder.techniques := Some l;
     CommandBuilder.dbms := CommandBuilder.dbms o;
     CommandBuilder.detection := CommandBuilder.detection o;
     CommandBuilder.proxy := CommandBuilder.proxy o;
     CommandBuilder.tor := CommandBuilder.tor o;
     CommandBuilder.tor_port := CommandBuilder.tor_port o;
     CommandBuilder.delay := CommandBuilder.delay o;
     CommandBuilder.skip_url_encode := CommandBuilder.skip_url_encode o;
     CommandBuilder.skip_static := CommandBuilder.skip_static o;
     CommandBuilder.tamper := CommandBuilder.tamper o;
     CommandBuilder.os := CommandBuilder.os o;
     CommandBuilder.batch := CommandBuilder.batch o;
     CommandBuilder.skip_waf := CommandBuilder.skip_waf o;
     CommandBuilder.fresh_queries := CommandBuilder.fresh_queries o;
     CommandBuilder.custom_args := CommandBuilder.custom_args o |}.

(** The ranges of the spin boxes of the options panel, as [setRange]
    fixes them in [create_general_tab]. *)
Definition spin_boxes_in_range (f : OptionsPanel.Form) : Prop :=
  1 ≤ OptionsPanel.risk_level f ≤ 3
  ∧ 1 ≤ OptionsPanel.level f ≤ 5
  ∧ 1 ≤ OptionsPanel.threads f ≤ 10
  ∧ 1 ≤ OptionsPanel.timeout f ≤ 300.

(** The options panel as [init_ui] leaves it. *)
Definition fresh_panel : OptionsPanel.Form :=
  {| OptionsPanel.risk_level := 1; OptionsPanel.level := 1;
     OptionsPanel.threads := 1; OptionsPanel.timeout := 30;
     OptionsPanel.retries := 3;
     OptionsPanel.technique_b := true; OptionsPanel.technique_e := true;
     OptionsPanel.technique_u := true; OptionsPanel.technique_s := false;
     OptionsPanel.technique_t := true; OptionsPanel.technique_q := false;
     OptionsPanel.dbms := "Auto-detect";
     OptionsPanel.banner := false; OptionsPanel.current_user := false;
     OptionsPanel.current_db := false; OptionsPanel.hostname := false;
     OptionsPanel.is_dba := false; OptionsPanel.users := false;
     OptionsPanel.passwords := false; OptionsPanel.privileges := false;
     OptionsPanel.roles := false; OptionsPanel.dbs := false;
     OptionsPanel.tables := false; OptionsPanel.columns := false;
     OptionsPanel.schema := false;
     OptionsPanel.proxy := ""; OptionsPanel.tor := false;
     OptionsPanel.tor_port := 9050; OptionsPanel.delay := 0;
     OptionsPanel.skip_url_encode := false;
     OptionsPanel.skip_static := false; OptionsPanel.tamper := "";
     OptionsPanel.os := "Auto-detect"; OptionsPanel.batch := true;
     OptionsPanel.no_check := false; OptionsPanel.fresh_queries := false;
     OptionsPanel.custom_args := "" |}.

(** A target form with a URL typed into the first tab. *)
Definition url_form (tab : Z) (text : string) : TargetInput.Form :=
  {| TargetInput.current_tab := tab; TargetInput.url_input := text;
     TargetInput.data_input := ""; TargetInput.cookie_input := "";
     TargetInput.request_file_input := ""; TargetInput.headers_input := "";
     TargetInput.random_user_agent := false |}.

(** No character of the text is white space. *)
Fixpoint no_space (s : string) : bool :=
  match s with
  | "" => true
  | String c s' => negb (Py.isspace c) && no_space s'
  end.

(** A record as a payload line gives it: the fixed type and title, the
    line as evidence, and one word as parameter. *)
Definition payload_record (v : SubprocessRunner.vuln) : Prop :=
  SubprocessRunner.type v = "Unknown"
  ∧ SubprocessRunner.title v = "SQL Injection"
  ∧ Py.contains "[PAYLOAD]" (SubprocessRunner.payload v) = true
  ∧ Py.contains "Parameter:" (SubprocessRunner.payload v) = true
  ∧ Py.strip (SubprocessRunner.payload v) = SubprocessRunner.payload v
  ∧ Shlex.nonempty (SubprocessRunner.parameter v) = true
  ∧ no_space (SubprocessRunner.parameter v) = true.

(** The line opens the section of the injection points. *)
Definition opens_vulnerability (line : string) : bool :=
  Py.contains "[CRITICAL] sqlmap identified the following injection point(s):"
    (Py.strip line)
  || Py.contains "[INFO] sqlmap identified the following injection point(s):"
       (Py.strip line).

(** Every database of [d] is in [d'], with its tables and maybe more
    after them. *)
Definition schema_grows (d d' : SubprocessRunner.db_info) : Prop :=
  ∀ dbs name e,
    SubprocessRunner.databases d = Some dbs → dbs !! name = Some e →
    ∃ dbs' e',
      SubprocessRunner.databases d' = Some dbs' ∧ dbs' !! name = Some e'
      ∧ SubprocessRunner.tables e `prefix_of` SubprocessRunner.tables e'.

(** [result['timestamp'] = v]. *)
Definition set_timestamp (v : string) (r : SubprocessRunner.Result) :
    SubprocessRunner.Result :=
  {| SubprocessRunner.status := SubprocessRunner.status r;
     SubprocessRunner.target := SubprocessRunner.target r;
     SubprocessRunner.dbms := SubprocessRunner.dbms r;
     SubprocessRunner.vulnerable := SubprocessRunner.vulnerable r;
     SubprocessRunner.vulnerabilities := SubprocessRunner.vulnerabilities r;
     SubprocessRunner.database_info := SubprocessRunner.database_info r;
     SubprocessRunner.summary := SubprocessRunner.summary r;
     SubprocessRunner.raw_output := SubprocessRunner.raw_output r;
     SubprocessRunner.timestamp := v |}.

(** The line is one of those from which the parser takes the target. *)
Definition names_target (line : string) : bool :=
  Py.contains "[*] testing connection to the target URL" (Py.strip line)
  || Py.contains "[INFO] testing URL" (Py.strip line)
  || Py.contains "[INFO] testing connection to the target URL" (Py.strip line).

(** The argument is neither an address nor the option [-u], the two
    things the parser looks for in the command. *)
Definition no_target_word (arg : string) : bool :=
  negb (Py.startswith arg "http://" || Py.startswith arg "https://")
  && negb (String.eqb arg "-u").

(** The seconds that the [wait] calls among [calls] may take together. *)
Fixpoint waited (calls : list SubprocessRunner.call) : Z :=
  match calls with
  | [] => 0
  | SubprocessRunner.wait timeout :: calls' => timeout + waited calls'
  | _ :: calls' => waited calls'
  end.

(** The first attempt of [stop], [terminate()] and [wait(timeout=5)],
    ended in [TimeoutExpired]. *)
Definition timed_out (process : SubprocessRunner.Process) : Prop :=
  SubprocessRunner.outcome process SubprocessRunner.terminate
  = Some SubprocessRunner.TimeoutExpired
  ∨ SubprocessRunner.outcome process SubprocessRunner.terminate = None
    ∧ SubprocessRunner.outcome process (SubprocessRunner.wait 5)
      = Some SubprocessRunner.TimeoutExpired.

(** The signal is one of the two that end a run. *)
Definition closes_run (s : SubprocessRunner.signal) : bool :=
  match s with
  | SubprocessRunner.output_received _ => false
  | _ => true
  end.

(** The request was answered with the status code 200. *)
Definition accepted (r : RestApiClient.reply) : bool :=
  match r with
  | RestApiClient.response status_code _ => status_code =? 200
  | RestApiClient.no_reply => false
  end.

(** An entry of [self.tasks] as the methods leave it: its command is
    the one built from its target and options, and its status one of the
    three that the methods write. *)
Definition registered (sys : CommandBuilder.Sys) (host : CommandBuilder.Host)
    (t : RestApiClient.task) : Prop :=
  RestApiClient.command t
  = CommandBuilder.build_command sys (CommandBuilder.__init__ sys host)
      (RestApiClient.target t) (RestApiClient.options t)
  ∧ RestApiClient.status t ∈ ["created"; "running"; "stopped"].

(** A host where, of the local scripts, the third and the fourth are
    files, and [sqlmap] is not on the search path. *)
Definition scripts_host : CommandBuilder.Host :=
  {| CommandBuilder.path_exists := λ _, false;
     CommandBuilder.path_isfile :=
       λ p, String.eqb p "../sqlmap.py" || String.eqb p "sqlmap/sqlmap.py";
     CommandBuilder.access_x := λ _, false;
     CommandBuilder.which := λ _, None;
     CommandBuilder.dirname := id;
     CommandBuilder.path_join := String.append |}.

(** A host on which nothing is installed. *)
Definition bare_host : CommandBuilder.Host :=
  {| CommandBuilder.path_exists := λ _, false;
     CommandBuilder.path_isfile := λ _, false;
     CommandBuilder.access_x := λ _, false;
     CommandBuilder.which := λ _, None;
     CommandBuilder.dirname := id;
     CommandBuilder.path_join := String.append |}.

(** A registry with one task, as [create_task] leaves it, and one with
    a second task that runs. *)
Definition task_for (sys : CommandBuilder.Sys) (host : CommandBuilder.Host)
    (target : CommandBuilder.Target) (options : CommandBuilder.Options)
    (status : string) : RestApiClient.task :=
  {| RestApiClient.target := target; RestApiClient.options := options;
     RestApiClient.command :=
       CommandBuilder.build_command sys (CommandBuilder.__init__ sys host)
         target options;
     RestApiClient.status := status |}.

Definition one_task : gmap string RestApiClient.task :=
  {[ "1" := task_for plain_sys bare_host
              (url_target "http://example.com/?id=1") plain_options "created" ]}.

Definition two_tasks : gmap string RestApiClient.task :=
  <[ "2" := task_for plain_sys bare_host
              (url_target "http://example.com/?id=2") plain_options "running" ]>
    one_task.

(** The first call of [run] that raised, if one did, in the order of
    the calls: [Popen], the [readline()] of the loop, [read()],
    [wait()]. *)
Definition first_failure (t : SubprocessRunner.Transcript)
  : option SubprocessRunner.failure :=
  match SubprocessRunner.spawn_error t with
  | Some e => Some e
  | None =>
      match SubprocessRunner.readline_error t with
      | Some e => Some e
      | None =>
          match SubprocessRunner.remaining_output t with
          | Some (SubprocessRunner.fails e) => Some e
          | _ =>
              match SubprocessRunner.wait_result t with
              | SubprocessRunner.fails e => Some e
              | SubprocessRunner.gives _ => None
              end
          end
      end
  end.



(** A character that may stand in the name of a database or a table as
    the lines below carry it: no blank, no opening bracket, no quote. *)
Definition name_char (c : ascii) : bool :=
  negb (Ascii.eqb c " " || Ascii.eqb c "[" || Py.char_in c SubprocessRunner.quote_chars).

Fixpoint plain_name (s : string) : bool :=
  match s with
  | "" => true
  | String c s' => name_char c && plain_name s'
  end.

(** The two lines of sqlmap that name a database and a table of it. *)
Definition tables_line (db : string) : string :=
  "[INFO] fetching tables for database: '" +:+ db +:+ "'".

Definition columns_line (table db : string) : string :=
  "[INFO] fetching columns for table '" +:+ table +:+ "' in database '"
  +:+ db +:+ "'".

(** The elements of a list in the order in which they first appear,
    each once. *)
Fixpoint first_appearances (l : list string) : list string :=
  match l with
  | [] => []
  | x :: l' => x :: filter (λ y, y ≠ x) (first_appearances l')
  end.

End MoreNotions.

(** ** Facts about the string methods *)

Section StringFacts.

Lemma app_String (c : ascii) (s t : string) :
  String c s +:+ t = String c (s +:+ t).
Proof. reflexivity. Qed.

Lemma app_empty_l (t : string) : "" +:+ t = t.
Proof. reflexivity. Qed.

Lemma app_empty_r (s : string) : s +:+ "" = s.
Proof. induction s as [|c s IH]; [done|]. by rewrite app_String, IH. Qed.

Lemma app_assoc (s t u : string) : (s +:+ t) +:+ u = s +:+ (t +:+ u).
Proof. induction s as [|c s IH]; [done|]. by rewrite !app_String, IH. Qed.

Lemma app_snoc (s : string) (c : ascii) (t : string) :
  (s +:+ String c "") +:+ t = s +:+ String c t.
Proof. by rewrite app_assoc. Qed.

End StringFacts.

(** ** [shlex.split] undoes [shlex.quote] *)

Section ShlexFacts.

Import Shlex.

(** A character that [quote] leaves bare is no white space, no quote and
    no escape character. *)
Lemma safe_char_plain (c : ascii) :
  safe_char c = true →
  Py.char_in c whitespace = false ∧ Py.char_in c quotes = false
  ∧ Py.char_in c escape = false.
Proof.
  destruct c as [[] [] [] [] [] [] [] []]; vm_compute; intros H;
    try discriminate H; done.
Qed.

(** In a word, a run of bare characters is added to the token. *)
Lemma read_bare (t : string) : ∀ token quoted e rest,
  all_safe t = true →
  read_tokens InWord quoted e token (t +:+ rest)
  = read_tokens InWord quoted e (token +:+ t) rest.
Proof.
  induction t as [|c t IH]; intros token quoted e rest Hsafe.
  - by rewrite app_empty_l, app_empty_r.
  - cbn [all_safe] in Hsafe. apply andb_true_iff in Hsafe as [Hc Ht].
    destruct (safe_char_plain c Hc) as (Hw & Hq & He).
    rewrite app_String. cbn [read_tokens]. rewrite Hw, Hq, He.
    rewrite IH by done. by rewrite app_snoc.
Qed.

(** Between single quotes, the text that [quote] writes for [t] adds [t]
    to the token, and the closing quote leaves a quoted word. *)
Lemma read_single_quoted (t : string) : ∀ token quoted e rest,
  read_tokens (InQuote "'") quoted e token
    (Py.replace_char "'" squote_escaped t +:+ String "'" rest)
  = read_tokens InWord true e (token +:+ t) rest.
Proof.
  induction t as [|c t IH]; intros token quoted e rest.
  - rewrite app_empty_r. reflexivity.
  - cbn [Py.replace_char]. destruct (Ascii.eqb c "'") eqn:Hc.
    + apply Ascii.eqb_eq in Hc as ->.
      rewrite app_assoc. unfold squote_escaped at 1.
      rewrite !app_String, app_empty_l. cbn.
      rewrite IH. by rewrite app_snoc.
    + rewrite app_assoc, app_String, app_empty_l. cbn [read_tokens].
      rewrite Hc.
      replace (Py.char_in c escape && Py.char_in "'" escapedquotes)
        with false by (by rewrite andb_comm).
      rewrite IH. by rewrite app_snoc.
Qed.

(** Reading [quote a] from between two tokens leaves the word [a], which
    is either not empty or known to have been quoted. *)
Lemma read_quoted_arg (a : string) :
  ∃ quoted, Shlex.nonempty a || quoted = true ∧
    ∀ e rest,
      read_tokens InWhite false e "" (quote a +:+ rest)
      = read_tokens InWord quoted e a rest.
Proof.
  destruct a as [|c a].
  - exists true. split; [done|]. intros e rest. reflexivity.
  - unfold quote. destruct (all_safe (String c a)) eqn:Hsafe.
    + exists false. split; [done|]. intros e rest.
      pose proof Hsafe as Hsafe'. cbn [all_safe] in Hsafe'.
      apply andb_true_iff in Hsafe' as [Hc Ha].
      destruct (safe_char_plain c Hc) as (Hw & Hq & He).
      rewrite app_String. cbn [read_tokens]. rewrite Hw, Hq, He.
      by rewrite read_bare.
    + exists true. split; [done|]. intros e rest.
      replace (("'" +:+ Py.replace_char "'" squote_escaped (String c a) +:+ "'")
               +:+ rest)
        with (String "'" (Py.replace_char "'" squote_escaped (String c a)
                            +:+ String "'" rest))
        by (by rewrite !app_String, !app_empty_l, app_assoc).
      cbn [read_tokens]. change (Py.char_in "'" whitespace) with false.
      change (Py.char_in "'" escape) with false.
      change (Py.char_in "'" quotes) with true. cbv iota.
      rewrite (read_single_quoted (String c a) "" false e rest).
      by rewrite app_empty_l.
Qed.

Lemma read_word_end (a : string) (quoted : bool) (e : lex_state) :
  Shlex.nonempty a || quoted = true →
  read_tokens InWord quoted e a "" = Some [a].
Proof.
  intros H. cbn. unfold emit.
  destruct quoted, a; try done.
Qed.

Lemma read_word_blank (a : string) (quoted : bool) (e : lex_state) (rest : string) :
  Shlex.nonempty a || quoted = true →
  read_tokens InWord quoted e a (String " " rest)
  = cons a <$> read_tokens InWhite false InWhite "" rest.
Proof.
  intros H. cbn. rewrite H. unfold emit.
  destruct quoted, a; try done.
Qed.

(** The tokens of the joined quoted arguments are the arguments. *)
Lemma read_joined (l : list string) : ∀ e,
  l ≠ [] →
  read_tokens InWhite false e "" (Py.join " " (quote <$> l)) = Some l.
Proof.
  induction l as [|a l IH]; intros e Hne; [done|].
  destruct (read_quoted_arg a) as (quoted & Hq & Hread).
  destruct l as [|b l].
  - cbn [fmap list_fmap Py.join String.concat].
    rewrite <- (app_empty_r (quote a)), Hread.
    by apply read_word_end.
  - change (Py.join " " (quote <$> a :: b :: l))
      with (quote a +:+ String " " (Py.join " " (quote <$> b :: l))).
    rewrite Hread, read_word_blank by done.
    by rewrite IH.
Qed.

Lemma split_join_quote (l : list string) :
  Shlex.split (Py.join " " (quote <$> l)) = Some l.
Proof.
  destruct l as [|a l]; [reflexivity|]. by apply read_joined.
Qed.

End ShlexFacts.

(** ** The command builder *)

Section BuilderFacts.

Import CommandBuilder.

Lemma occurrences_app (x : string) (l1 l2 : list string) :
  occurrences x (l1 ++ l2) = (occurrences x l1 + occurrences x l2)%nat.
Proof. induction l1 as [|a l1 IH]; cbn; [done|]. rewrite IH. lia. Qed.

Lemma prefix_refl (s : string) : String.prefix s s = true.
Proof.
  induction s as [|c s IH]; [done|]. cbn.
  destruct (ascii_dec c c); [done|congruence].
Qed.

Lemma contains_refl (s : string) : Py.contains s s = true.
Proof. destruct s; cbn -[String.prefix]; by rewrite prefix_refl. Qed.

Lemma clean_occurrences (l : list string) :
  clean l → occurrences "--batch" l = 0%nat.
Proof.
  unfold clean. induction l as [|a l IH]; [done|].
  cbn [existsb occurrences]. intros [Ha Hl]%orb_false_iff.
  rewrite IH by done. destruct (String.eqb_spec a "--batch") as [->|]; [|done].
  by rewrite contains_refl in Ha.
Qed.

Lemma clean_nil : clean [].
Proof. done. Qed.

Lemma clean_app (l1 l2 : list string) : clean l1 → clean l2 → clean (l1 ++ l2).
Proof. unfold clean. intros H1 H2. by rewrite existsb_app, H1, H2. Qed.

Lemma clean_pair_arg {A} (flag : string) (show : A → string) (o : option A) :
  Py.contains "--batch" flag = false →
  Forall (λ s, Py.contains "--batch" s = false) (text_of show o) →
  clean (pair_arg flag show o).
Proof.
  intros Hflag Ho. destruct o as [v|]; [|done].
  apply Forall_cons in Ho as [Hv _]. unfold clean. cbn. by rewrite Hflag, Hv.
Qed.

Lemma clean_flag_arg (flag : string) (b : bool) :
  Py.contains "--batch" flag = false → clean (flag_arg flag b).
Proof. intros Hflag. destruct b; [|done]. unfold clean. cbn. by rewrite Hflag. Qed.

Lemma detection_flag_clean (d flag : string) :
  detection_map !! d = Some flag → Py.contains "--batch" flag = false.
Proof.
  unfold detection_map. intros H%elem_of_list_to_map_2.
  repeat (apply elem_of_cons in H as [[= -> ->]|H]; [reflexivity|]).
  by apply elem_of_nil in H.
Qed.

Lemma clean_detection_args (l : list string) : clean (detection_args l).
Proof.
  induction l as [|d l IH]; [done|]. cbn [detection_args].
  destruct (detection_map !! d) as [flag|] eqn:Hd; [|done].
  unfold clean. cbn [existsb]. by rewrite (detection_flag_clean d flag), IH.
Qed.

Create HintDb batch.
#[local] Hint Resolve clean_nil clean_app clean_pair_arg clean_flag_arg
  clean_detection_args : batch.

(** Everything that the options write before the stored batch flag is
    clean, so the flag is written once: by the stored flag, or else by
    the guard. *)
Lemma option_args_once (o : Options) :
  Forall (λ s, Py.contains "--batch" s = false) (option_texts o) →
  occurrences "--batch" (custom_arg_list (custom_args o)) = 0%nat →
  occurrences "--batch" (_build_option_args o) = 1%nat.
Proof.
  unfold option_texts. rewrite !Forall_app.
  intros (Hrisk & Hlevel & Hthreads & Htimeout & Hretries & Htech & Hdbms
          & Hproxy & Hport & Hdelay & Htamper & Hos) Hcustom.
  unfold _build_option_args. cbv zeta.
  match goal with
  | |- context [ ?p ++ flag_arg "--batch" _ ] => set (pre := p)
  end.
  assert (Hpre : clean pre).
  { subst pre. repeat apply clean_app; auto with batch.
    - destruct (techniques o) as [[|t l]|]; [done| |done].
      apply Forall_cons in Htech as [Htech _]. unfold clean. cbn [existsb].
      by rewrite Htech.
    - destruct (detection o); auto with batch.
    - destruct (truthy (tor o)); [|done].
      apply (clean_app ["--tor"]); auto with batch.
    - destruct (delay o) as [d|]; [|done]. destruct (0 <? d); [|done].
      apply Forall_cons in Hdelay as [Hdelay _]. unfold clean. cbn [existsb].
      by rewrite Hdelay. }
  clearbody pre.
  assert (Hwaf : clean (flag_arg "--skip-waf" (truthy (skip_waf o))))
    by auto with batch.
  assert (Hfresh : clean (flag_arg "--fresh-queries" (truthy (fresh_queries o))))
    by auto with batch.
  rewrite occurrences_app, Hcustom, !existsb_app, Hpre, Hwaf, Hfresh.
  destruct (truthy (batch o)); cbn [flag_arg negb orb existsb];
    change (Py.contains "--batch" "--batch") with true; cbn [negb orb];
    rewrite !occurrences_app, (clean_occurrences pre),
      !(clean_occurrences (flag_arg _ _)) by done; reflexivity.
Qed.

Lemma target_args_none (t : Target) :
  Forall (λ s, s ≠ "--batch") (target_texts t) →
  occurrences "--batch" (_build_target_args t) = 0%nat.
Proof.
  unfold target_texts. rewrite !Forall_app.
  intros (Hurl & Hfile & Hdata & Hcookies & Hheaders).
  unfold _build_target_args. cbv zeta. rewrite !occurrences_app.
  assert (Hpair : ∀ flag o, flag ≠ "--batch" →
            Forall (λ s, s ≠ "--batch") (text_of id o) →
            occurrences "--batch" (pair_arg flag id o) = 0%nat).
  { intros flag [v|] Hflag Hv; [|done]. apply Forall_cons in Hv as [Hv _].
    apply String.eqb_neq in Hflag, Hv. cbn in Hv |- *. by rewrite Hflag, Hv. }
  rewrite !Hpair by done. by destruct (truthy (random_user_agent t)).
Qed.

(** C8: splitting the display string of [get_command_string] with
    [shlex.split] gives back the argument vector of [build_command], in
    the same order, for every target and all options. *)
Theorem display_string_round_trip (sys : Sys) (self : Builder)
    (target : Target) (options : Options) :
  Shlex.split (get_command_string sys self target options)
  = Some (build_command sys self target options).
Proof. unfold get_command_string. cbv zeta. apply split_join_quote. Qed.

(** With [--batch] as custom argument the command holds the flag twice,
    once from the options and once from the custom arguments, which are
    added after the test for the flag. *)
Lemma batch_twice_with_custom_args :
  build_command plain_sys plain_builder
    (url_target "http://example.com/item?id=1")
    (with_custom_args "--batch" plain_options)
  = ["python"; "sqlmap.py"; "-u"; "http://example.com/item?id=1";
     "--risk"; "1"; "--level"; "1"; "--threads"; "1"; "--timeout"; "30";
     "--retries"; "3"; "--technique"; "BEU"; "--banner"; "--dbs";
     "--batch"; "--batch"]
  ∧ occurrences "--batch"
      (build_command plain_sys plain_builder
         (url_target "http://example.com/item?id=1")
         (with_custom_args "--batch" plain_options)) = 2%nat.
Proof. split; vm_compute; reflexivity. Qed.

(** When no text brought in by the executable, the target or the
    options is or holds [--batch], and no custom argument is [--batch],
    the command holds [--batch] exactly once, whether the stored batch
    flag is set or not. *)
Lemma batch_exactly_once (sys : Sys) (self : Builder)
    (target : Target) (options : Options) :
  sqlmap_path self ≠ "--batch" →
  executable sys ≠ "--batch" →
  Forall (λ s, s ≠ "--batch") (target_texts target) →
  Forall (λ s, Py.contains "--batch" s = false) (option_texts options) →
  occurrences "--batch" (custom_arg_list (custom_args options)) = 0%nat →
  occurrences "--batch" (build_command sys self target options) = 1%nat.
Proof.
  intros Hpath Hexe Htarget Hoptions Hcustom.
  unfold build_command. cbv zeta.
  rewrite !occurrences_app, target_args_none, option_args_once by done.
  apply String.eqb_neq in Hpath, Hexe.
  destruct (endswith _ _), (frozen sys); cbn; rewrite ?Hpath, ?Hexe; done.
Qed.

Lemma batch_exactly_once_witness :
  occurrences "--batch"
    (build_command plain_sys plain_builder
       (url_target "http://example.com/item?id=1")
       (with_custom_args "--flush-session -v 3" plain_options)) = 1%nat.
Proof.
  apply batch_exactly_once.
  - vm_compute. discriminate.
  - vm_compute. discriminate.
  - vm_compute. repeat constructor. discriminate.
  - vm_compute. repeat constructor.
  - vm_compute. reflexivity.
Defined.

(** C1 does not hold of the code, which here goes against its own
    comment, [Always add batch mode for non-interactive operation].
    With the batch box not ticked and a proxy whose address holds
    [--batch], the test before the forced flag, which looks for [--batch]
    inside every argument written so far, finds it in the proxy and adds
    nothing: the command has no [--batch] at all. *)
Theorem batch_missing_with_proxy :
  build_command plain_sys plain_builder
    (url_target "http://example.com/item?id=1")
    (with_proxy "http://proxy.local/--batch" (with_batch false plain_options))
  = ["python"; "sqlmap.py"; "-u"; "http://example.com/item?id=1";
     "--risk"; "1"; "--level"; "1"; "--threads"; "1"; "--timeout"; "30";
     "--retries"; "3"; "--technique"; "BEU"; "--banner"; "--dbs";
     "--proxy"; "http://proxy.local/--batch"]
  ∧ occurrences "--batch"
      (build_command plain_sys plain_builder
         (url_target "http://example.com/item?id=1")
         (with_proxy "http://proxy.local/--batch"
            (with_batch false plain_options))) = 0%nat.
Proof. split; vm_compute; reflexivity. Qed.

End BuilderFacts.

(** ** Validation of the target and of the options *)

Section ValidationFacts.

Import CommandBuilder.

(** The three checks of [validate_target], each with the errors it
    adds. *)
Lemma validate_target_parts (isfile : string → bool) (target : Target) :
  validate_target isfile target
  = missing_errors target ++ url_errors target ++ file_errors isfile target.
Proof.
  unfold validate_target, missing_errors, url_errors, file_errors. cbv zeta.
  destruct (url target) as [u|], (request_file target) as [f|];
    cbn [truthy_str];
    repeat match goal with
           | |- context [Shlex.nonempty ?x] => destruct (Shlex.nonempty x)
           end;
    try destruct (Py.startswith u "http://" || Py.startswith u "https://");
    try destruct (isfile f); reflexivity.
Qed.

(** C2, as stated, fails: a target with a well-formed URL and an
    existing request file, both set, passes with no error. *)
Lemma validate_target_accepts_both :
  let target :=
    {| url := Some "http://example.com/item?id=1";
       request_file := Some "request.txt"; data := None; cookies := None;
       headers := None; random_user_agent := None |} in
  validate_target (λ f, String.eqb f "request.txt") target = []
  ∧ is_Some (url target) ∧ is_Some (request_file target).
Proof. cbv zeta. split; [reflexivity|]. split; eexists; reflexivity. Qed.

(** C2, amended: [validate_target] returns no error exactly when the URL
    or the request file is set and not empty, the URL, if set, starts
    with [http://] or [https://], and the request file, if set,
    exists. *)
Theorem validate_target_empty_iff (isfile : string → bool) (target : Target) :
  validate_target isfile target = []
  ↔ truthy_str (url target) || truthy_str (request_file target) = true
    ∧ (∀ u, url target = Some u →
         Py.startswith u "http://" || Py.startswith u "https://" = true)
    ∧ (∀ f, request_file target = Some f → isfile f = true).
Proof.
  rewrite validate_target_parts.
  unfold missing_errors, url_errors, file_errors.
  destruct (url target) as [u|], (request_file target) as [f|];
    cbn [truthy_str];
    repeat match goal with
           | |- context [Shlex.nonempty ?x] => destruct (Shlex.nonempty x)
           end;
    try destruct (Py.startswith u "http://" || Py.startswith u "https://") eqn:Hu;
    try destruct (isfile f) eqn:Hf; cbn [orb app];
    (split;
     [ intros H; try discriminate H;
       (split; [done|]); split; intros ? [= <-]; done
     | intros (H1 & H2 & H3); try discriminate H1;
       try specialize (H2 _ eq_refl); try specialize (H3 _ eq_refl);
       congruence ]).
Qed.

Lemma validate_target_empty_iff_witness :
  validate_target (λ _, false) (url_target "https://example.com/?q=1") = [].
Proof.
  apply validate_target_empty_iff. split; [reflexivity|].
  split; [intros u [= <-]; reflexivity | intros f [=]].
Defined.

Lemma range_errors_within (lo hi : Z) (message : string) (o : option Py.value) :
  within lo hi o → range_errors lo hi message o = [].
Proof.
  destruct o as [v|]; [|done]. unfold within, range_errors, out_of_range.
  destruct (Py.as_int v) as [n|]; [|done]. intros [Hlo Hhi].
  by rewrite (proj2 (Z.ltb_ge n lo)), (proj2 (Z.ltb_ge hi n)).
Qed.

Lemma range_errors_outside (lo hi n : Z) (message : string) :
  ¬ (lo ≤ n ≤ hi) →
  range_errors lo hi message (Some (Py.VInt n)) = [message].
Proof.
  intros Hout. unfold range_errors, out_of_range. cbn [Py.as_int].
  destruct (n <? lo) eqn:Hlo; [done|]. destruct (hi <? n) eqn:Hhi; [done|].
  apply Z.ltb_ge in Hlo, Hhi. lia.
Qed.

Lemma technique_errors_known (l : list string) :
  Forall (λ t, t ∈ valid_techniques) l → technique_errors l = [].
Proof.
  induction 1 as [|t l Ht _ IH]; [done|]. cbn [technique_errors].
  by rewrite bool_decide_eq_true_2.
Qed.

(** C7: options whose risk, level, threads and timeout are in their
    ranges and whose technique letters are known have no error; with the
    risk set to an integer outside 1..3, such as 0 or 4, the one error
    is the one of the risk, and likewise for an integer outside the range
    of the level, the threads or the timeout. *)
Theorem validate_options_ranges (o : Options) :
  within 1 3 (risk_level o) →
  within 1 5 (level o) →
  within 1 10 (threads o) →
  within 1 300 (timeout o) →
  known_techniques (techniques o) →
  validate_options o = []
  ∧ validate_options (with_risk_level (Py.VInt 0) o)
    = ["Risk level must be between 1 and 3"]
  ∧ validate_options (with_risk_level (Py.VInt 4) o)
    = ["Risk level must be between 1 and 3"]
  ∧ (∀ n, ¬ (1 ≤ n ≤ 3) →
       validate_options (with_risk_level (Py.VInt n) o)
       = ["Risk level must be between 1 and 3"])
  ∧ (∀ n, ¬ (1 ≤ n ≤ 5) →
       validate_options (with_level (Py.VInt n) o)
       = ["Level must be between 1 and 5"])
  ∧ (∀ n, ¬ (1 ≤ n ≤ 10) →
       validate_options (with_threads (Py.VInt n) o)
       = ["Threads must be between 1 and 10"])
  ∧ (∀ n, ¬ (1 ≤ n ≤ 300) →
       validate_options (with_timeout (Py.VInt n) o)
       = ["Timeout must be between 1 and 300 seconds"]).
Proof.
  intros Hrisk Hlevel Hthreads Htimeout Htech.
  assert (Htech' : match techniques o with
                   | Some l => technique_errors l
                   | None => []
                   end = []).
  { unfold known_techniques in Htech. destruct (techniques o); [|done].
    by apply technique_errors_known. }
  assert (Hrisk' : ∀ n, ¬ (1 ≤ n ≤ 3) →
            validate_options (with_risk_level (Py.VInt n) o)
            = ["Risk level must be between 1 and 3"]).
  { intros n Hn. unfold validate_options. cbv zeta.
    cbn [risk_level level threads timeout techniques with_risk_level].
    by rewrite range_errors_outside, !range_errors_within, Htech'. }
  repeat split.
  - unfold validate_options. cbv zeta.
    by rewrite !range_errors_within, Htech'.
  - apply Hrisk'. lia.
  - apply Hrisk'. lia.
  - exact Hrisk'.
  - intros n Hn. unfold validate_options. cbv zeta.
    cbn [risk_level level threads timeout techniques with_level].
    by rewrite range_errors_outside, !range_errors_within, Htech'.
  - intros n Hn. unfold validate_options. cbv zeta.
    cbn [risk_level level threads timeout techniques with_threads].
    by rewrite range_errors_outside, !range_errors_within, Htech'.
  - intros n Hn. unfold validate_options. cbv zeta.
    cbn [risk_level level threads timeout techniques with_timeout].
    by rewrite range_errors_outside, !range_errors_within, Htech'.
Qed.

Lemma validate_options_ranges_witness :
  validate_options plain_options = []
  ∧ validate_options (with_risk_level (Py.VInt 0) plain_options)
    = ["Risk level must be between 1 and 3"]
  ∧ validate_options (with_risk_level (Py.VInt 4) plain_options)
    = ["Risk level must be between 1 and 3"].
Proof.
  destruct (validate_options_ranges plain_options) as (H0 & H1 & H2 & _).
  - cbn. lia.
  - cbn. lia.
  - cbn. lia.
  - cbn. lia.
  - cbn. repeat constructor.
  - exact (conj H0 (conj H1 H2)).
Defined.

End ValidationFacts.

(** ** The pieces of a stripped line *)

Section PieceFacts.

Lemma last_char_app (x : string) (a : ascii) (s : string) :
  last_char (x +:+ String a s) = last_char (String a s).
Proof.
  induction x as [|b x IH]; [done|]. rewrite app_String.
  cbn [last_char]. rewrite IH. by destruct x.
Qed.

Lemma last_char_cons (a b : ascii) (s : string) :
  last_char (String a (String b s)) = last_char (String b s).
Proof. reflexivity. Qed.

Lemma rstrip_last (p : ascii → bool) (s : string) :
  Py.rstrip_with p s ≠ "" →
  ∃ c, last_char (Py.rstrip_with p s) = Some c ∧ p c = false.
Proof.
  induction s as [|a s IH]; [done|]. cbn [Py.rstrip_with].
  destruct (Py.rstrip_with p s) as [|b r] eqn:Hr.
  - destruct (p a) eqn:Ha; [done|]. intros _. by exists a.
  - intros _. destruct IH as (c & Hc & Hp); [done|]. exists c. by rewrite last_char_cons.
Qed.

(** A stripped line that is not empty ends in a character that is no
    white space. *)
Lemma strip_last (s : string) :
  Shlex.nonempty (Py.strip s) = true →
  ∃ c, last_char (Py.strip s) = Some c ∧ Py.isspace c = false.
Proof.
  intros H. apply rstrip_last. intros Heq. unfold Py.strip in H.
  by rewrite Heq in H.
Qed.

Lemma prefix_app (sep s : string) :
  String.prefix sep s = true → ∃ rest, s = sep +:+ rest.
Proof.
  revert s. induction sep as [|a sep IH]; intros s H.
  - by exists s.
  - destruct s as [|b s]; [done|]. cbn in H.
    destruct (ascii_dec a b) as [->|]; [|done].
    destruct (IH s H) as (rest & ->). by exists rest.
Qed.

Lemma split_go_nonempty (sep : string) (s : string) : ∀ skip cur,
  Py.split_go sep skip cur s ≠ [].
Proof.
  induction s as [|a s IH]; intros skip cur; [done|]. cbn [Py.split_go].
  destruct skip; [|apply IH]. destruct (String.prefix sep (String a s)); [done|apply IH].
Qed.

Lemma last_cons_nonempty (x : string) (l : list string) (d : string) :
  l ≠ [] → List.last (x :: l) d = List.last l d.
Proof. by destruct l. Qed.

(** When the separator ends in white space and the text does not, the
    last piece ends as the text does. *)
Lemma split_go_last (sep : string) (d : ascii) :
  last_char sep = Some d → Py.isspace d = true →
  ∀ s skip cur c dflt,
    pending sep skip s →
    last_char (cur +:+ s) = Some c → Py.isspace c = false →
    last_char (List.last (Py.split_go sep skip cur s) dflt) = Some c.
Proof.
  intros Hd Hspace. induction s as [|a s IH]; intros skip cur c dflt Hpend Hc Hsolid.
  { cbn. by rewrite app_empty_r in Hc. }
  rewrite last_char_app in Hc. cbn [Py.split_go]. destruct skip as [|k].
  - destruct (String.prefix sep (String a s)) eqn:Hpre.
    + rewrite last_cons_nonempty by apply split_go_nonempty.
      apply prefix_app in Hpre as (rest & Hrest).
      destruct sep as [|b sep]; [done|].
      rewrite app_String in Hrest. injection Hrest as Ha Hs.
      replace (String.length (String b sep) - 1)%nat with (String.length sep)
        by (cbn [String.length]; lia).
      destruct s as [|a' s'].
      * destruct sep; [|done]. cbn in Hc, Hd. congruence.
      * apply IH; [|by rewrite app_empty_l|done].
        by exists (String b ""), sep, rest.
    + apply IH; [exists sep, "", s; by rewrite app_empty_r| |done].
      by rewrite app_snoc, last_char_app.
  - destruct Hpend as (before & q & rest & Hsep & Hlen & Hs).
    destruct q as [|b q]; [done|]. rewrite app_String in Hs.
    injection Hs as Ha Hs. cbn [String.length] in Hlen.
    destruct s as [|a' s'].
    + destruct q; [|done]. rewrite Hsep, last_char_app in Hd.
      cbn in Hc, Hd. congruence.
    + apply IH; [|by rewrite last_char_app|done].
      exists (before +:+ String b ""), q, rest.
      rewrite app_snoc. repeat split; [done|lia|done].
Qed.

Lemma last_piece_last (s sep : string) (c d : ascii) :
  last_char sep = Some d → Py.isspace d = true →
  last_char s = Some c → Py.isspace c = false →
  last_char (Py.last_piece s sep) = Some c.
Proof.
  intros Hd Hspace Hc Hsolid. unfold Py.last_piece, Py.split.
  apply (split_go_last sep d); try done.
  exists sep, "", s. by rewrite app_empty_r.
Qed.

(** A text that ends in a character that is no white space has a
    word. *)
Lemma split_ws_go_nonempty (s : string) : ∀ cur c,
  last_char s = Some c → Py.isspace c = false →
  Py.split_ws_go cur s ≠ [].
Proof.
  induction s as [|a s IH]; intros cur c Hc Hsolid; [done|].
  cbn [Py.split_ws_go]. destruct s as [|b s].
  - cbn in Hc. injection Hc as ->. rewrite Hsolid. cbn.
    by destruct cur.
  - rewrite last_char_cons in Hc. destruct (Py.isspace a).
    + intros [_ H]%app_eq_nil. by apply (IH "" c).
    + by apply (IH _ c).
Qed.

Lemma string_length_app (s t : string) :
  String.length (s +:+ t) = (String.length s + String.length t)%nat.
Proof. induction s as [|c s IH]; [done|]. rewrite app_String. cbn. by rewrite IH. Qed.

(** Two ways to cut one text meet in a common piece. *)
Lemma string_app_eq_app (x y u v : string) :
  x +:+ y = u +:+ v →
  (∃ w, u = x +:+ w ∧ y = w +:+ v) ∨ (∃ w, x = u +:+ w ∧ v = w +:+ y).
Proof.
  revert u. induction x as [|c x IH]; intros u H.
  - left. by exists u.
  - destruct u as [|c' u].
    + right. by exists (String c x).
    + rewrite !app_String in H. injection H as <- H.
      destruct (IH u H) as [(w & -> & ->)|(w & -> & ->)]; [left|right];
        by exists w.
Qed.

Lemma app_snoc_inv (x y b : string) (d : ascii) :
  x +:+ y = b +:+ String d "" → y ≠ "" →
  ∃ y', y = y' +:+ String d "" ∧ b = x +:+ y'.
Proof.
  revert b. induction x as [|c x IH]; intros b H Hy.
  - by exists b.
  - rewrite app_String in H. destruct b as [|c' b].
    + rewrite app_empty_l in H. injection H as _ H.
      destruct x; [|done]. by rewrite app_empty_l in H.
    + rewrite app_String in H. injection H as <- H.
      destruct (IH b H Hy) as (y' & -> & ->). by exists y'.
Qed.

Lemma char_in_app (d : ascii) (x y : string) :
  Py.char_in d (x +:+ y) = Py.char_in d x || Py.char_in d y.
Proof.
  induction x as [|c x IH]; [done|]. rewrite app_String. cbn [Py.char_in].
  by rewrite IH, orb_assoc.
Qed.

Lemma char_in_snoc (d : ascii) (x : string) :
  Py.char_in d (x +:+ String d "") = true.
Proof.
  rewrite char_in_app. cbn. rewrite Ascii.eqb_refl. by rewrite orb_true_r.
Qed.

Lemma prefix_app_same (sep rest : string) :
  String.prefix sep (sep +:+ rest) = true.
Proof.
  induction sep as [|c sep IH]; [by destruct rest|]. rewrite app_String. cbn.
  destruct (ascii_dec c c); [done|congruence].
Qed.

(** The rest of a separator that was found is passed over. *)
Lemma split_go_skip (sep : string) (q : string) : ∀ rest cur,
  Py.split_go sep (String.length q) cur (q +:+ rest)
  = Py.split_go sep 0 cur rest.
Proof.
  induction q as [|c q IH]; intros rest cur; [by destruct rest|].
  rewrite app_String. cbn [String.length Py.split_go]. apply IH.
Qed.

(** A text without the separator is one piece. *)
Lemma split_go_none (sep : string) (v : string) : ∀ cur,
  Py.contains sep v = false →
  Py.split_go sep 0 cur v = [cur +:+ v].
Proof.
  induction v as [|c v IH]; intros cur H.
  - by rewrite app_empty_r.
  - cbn [Py.contains] in H. apply orb_false_iff in H as [Hpre H].
    cbn [Py.split_go]. rewrite Hpre, IH by done.
    by rewrite app_assoc, app_String, app_empty_l.
Qed.

(** A separator at the start ends the piece. *)
Lemma split_go_found (sep rest cur : string) :
  sep ≠ "" →
  Py.split_go sep 0 cur (sep +:+ rest)
  = cur :: Py.split_go sep 0 "" rest.
Proof.
  intros Hsep. pose proof (prefix_app_same sep rest) as Hpre.
  destruct sep as [|a sep]; [done|]. rewrite app_String in Hpre |- *.
  cbn [Py.split_go]. rewrite Hpre.
  replace (String.length (String a sep) - 1)%nat with (String.length sep)
    by (cbn [String.length]; lia).
  by rewrite split_go_skip.
Qed.

(** A separator whose last character stands nowhere else in it cannot
    lie across itself: where it starts a text that holds it further on,
    it stands wholly before that place. *)
Lemma separator_aligned (body : string) (d : ascii)
    (before value rest : string) :
  Py.char_in d body = false →
  before +:+ (body +:+ String d "") +:+ value
  = (body +:+ String d "") +:+ rest →
  before = "" ∨ ∃ before', before = (body +:+ String d "") +:+ before'.
Proof.
  intros Hd H. set (sep := body +:+ String d "") in *.
  destruct (string_app_eq_app _ _ _ _ H) as [(w & Hsep & Hw)|(w & -> & _)];
    [|right; by exists w].
  destruct before as [|c before]; [by left|]. right.
  destruct (string_app_eq_app _ _ _ _ Hw) as [(l & Hl & _)|(l & Hl & _)].
  - apply (f_equal String.length) in Hsep. subst w.
    rewrite !string_length_app in Hsep. cbn [String.length] in Hsep. lia.
  - destruct w as [|a w].
    + exists "". by rewrite Hsep, !app_empty_r.
    + exfalso. assert (Hlen : l ≠ "").
      { intros ->. apply (f_equal String.length) in Hsep, Hl.
        rewrite Hl in Hsep. rewrite !string_length_app in Hsep.
        cbn [String.length] in Hsep. lia. }
      destruct (app_snoc_inv _ _ _ _ (eq_sym Hsep)) as (w' & Hw' & _); [done|].
      destruct (app_snoc_inv _ _ _ _ (eq_sym Hl) Hlen) as (l' & _ & Hbody).
      rewrite Hbody, Hw', char_in_app, char_in_snoc in Hd. done.
Qed.

Lemma last_piece_go (body : string) (d : ascii) (value : string) :
  Py.char_in d body = false →
  Py.contains (body +:+ String d "") value = false →
  ∀ n before cur dflt,
    (String.length before ≤ n)%nat →
    List.last
      (Py.split_go (body +:+ String d "") 0 cur
         (before +:+ (body +:+ String d "") +:+ value)) dflt
    = value.
Proof.
  intros Hd Hvalue. set (sep := body +:+ String d "").
  assert (Hsep : sep ≠ "") by (subst sep; by destruct body).
  induction n as [|n IH]; intros before cur dflt Hn.
  - destruct before; [|by inversion Hn].
    rewrite app_empty_l, split_go_found, split_go_none by done. done.
  - destruct (String.prefix sep (before +:+ sep +:+ value)) eqn:Hpre.
    + apply prefix_app in Hpre as (rest & Hrest).
      destruct (separator_aligned _ _ _ _ _ Hd Hrest) as [->|(before' & ->)].
      * rewrite app_empty_l, split_go_found, split_go_none by done. done.
      * rewrite app_assoc, split_go_found by done.
        rewrite last_cons_nonempty by apply split_go_nonempty.
        apply IH. rewrite string_length_app in Hn.
        assert (0 < String.length sep)%nat by (destruct sep; [done|cbn; lia]).
        unfold sep in *. lia.
    + destruct before as [|c before].
      { rewrite app_empty_l, prefix_app_same in Hpre. done. }
      rewrite app_String in Hpre |- *. cbn [Py.split_go]. rewrite Hpre.
      apply IH. cbn in Hn. lia.
Qed.

(** The last piece is the text after the last separator, for a
    separator whose last character stands nowhere else in it. *)
Lemma last_piece_after (body : string) (d : ascii) (before value : string) :
  Py.char_in d body = false →
  Py.contains (body +:+ String d "") value = false →
  Py.last_piece (before +:+ (body +:+ String d "") +:+ value)
    (body +:+ String d "")
  = value.
Proof.
  intros Hd Hvalue. unfold Py.last_piece, Py.split.
  by apply (last_piece_go body d value Hd Hvalue (String.length before)).
Qed.

End PieceFacts.

(** ** The output parser *)

Section ParserFacts.

Import SubprocessRunner.

Lemma param_of_stripped (raw : string) :
  Shlex.nonempty (Py.strip raw) = true →
  ∃ param, param_of (Py.strip raw) = Some param.
Proof.
  intros (c & Hc & Hsolid)%strip_last. unfold param_of, Py.first_item, Py.split_ws.
  pose proof (last_piece_last (Py.strip raw) "Parameter: " c " "
                eq_refl eq_refl Hc Hsolid) as Hlast.
  pose proof (split_ws_go_nonempty _ "" c Hlast Hsolid) as Hne.
  destruct (Py.split_ws_go "" _) as [|param l]; [done|]. by exists param.
Qed.

(** Goes down the chain of tests of [parse_line], one test at a time. *)
Ltac next_test :=
  match goal with
  | |- context [if ?c then _ else _] =>
      lazymatch c with
      | context [if _ then _ else _] => fail
      | _ => destruct c eqn:?
      end
  | |- context [match quoted_text ?l with _ => _ end] =>
      destruct (quoted_text l) eqn:?
  | |- context [match target_url ?s with _ => _ end] =>
      destruct (target_url s) eqn:?
  end.

(** The loop body never raises: the [IndexError] of [split()[0]] needs
    a line that ends in white space, and the line is stripped. *)
Lemma parse_line_total (st : locals) (raw : string) :
  ∃ st', parse_line st raw = Some st'.
Proof.
  unfold parse_line. cbv zeta.
  destruct (Shlex.nonempty (Py.strip raw)) eqn:Hline; cbn [negb]; [|by eexists].
  destruct (param_of_stripped raw Hline) as (param & ->). cbn [mbind option_bind].
  generalize (Py.strip raw). intros line.
  repeat first [ by eexists | next_test ].
Qed.

Lemma parse_lines_total (lines : list string) : ∀ st,
  ∃ st', parse_lines st lines = Some st'.
Proof.
  induction lines as [|line lines IH]; intros st; [by eexists|].
  cbn [parse_lines]. destruct (parse_line_total st line) as (st1 & ->).
  cbn. apply IH.
Qed.

Lemma all_space_strip (b : string) : all_space b = true → Py.strip b = "".
Proof.
  unfold Py.strip. induction b as [|c b IH]; [done|]. cbn [all_space Py.lstrip_with].
  intros [-> Hb]%andb_true_iff. by apply IH.
Qed.

Lemma parse_line_blank (st : locals) (b : string) :
  all_space b = true → parse_line st b = Some st.
Proof. intros Hb. unfold parse_line. by rewrite (all_space_strip b Hb). Qed.

Lemma parse_lines_blank_inserted (l1 l2 : list string) :
  blank_inserted l1 l2 → ∀ st, parse_lines st l2 = parse_lines st l1.
Proof.
  induction 1 as [|line l1 l2 _ IH|b l1 l2 Hb _ IH]; intros st; [done| |].
  - cbn [parse_lines]. destruct (parse_line st line); cbn; [apply IH|done].
  - cbn [parse_lines]. rewrite parse_line_blank by done. cbn. apply IH.
Qed.

(** The loop neither reads nor writes [result['raw_output']]. *)
Lemma parse_line_raw_output (x : string) (st : locals) (raw : string) :
  parse_line (with_res (set_raw_output x) st) raw
  = with_res (set_raw_output x) <$> parse_line st raw.
Proof.
  unfold parse_line. cbv zeta.
  destruct (Shlex.nonempty (Py.strip raw)) eqn:Hline; cbn [negb]; [|done].
  destruct (param_of_stripped raw Hline) as (param & ->). cbn [mbind option_bind].
  generalize (Py.strip raw). intros line.
  change (in_section ?s (with_res _ st)) with (in_section s st).
  change (target_url (with_res _ st)) with (target_url st).
  change (vulnerable (res (with_res (set_raw_output x) st)))
    with (vulnerable (res st)).
  repeat first [ reflexivity | next_test ].
Qed.

Lemma parse_lines_raw_output (x : string) (lines : list string) : ∀ st,
  parse_lines (with_res (set_raw_output x) st) lines
  = with_res (set_raw_output x) <$> parse_lines st lines.
Proof.
  induction lines as [|line lines IH]; intros st; [done|].
  cbn [parse_lines]. rewrite parse_line_raw_output.
  destruct (parse_line st line) as [st1|]; cbn; [apply IH|done].
Qed.

Lemma parse_output_raw_output (x : string) (command lines : list string)
    (r0 : Result) :
  _parse_sqlmap_output command lines (set_raw_output x r0)
  = set_raw_output x <$> _parse_sqlmap_output command lines r0.
Proof.
  unfold _parse_sqlmap_output.
  change (start (set_raw_output x r0)) with (with_res (set_raw_output x) (start r0)).
  rewrite parse_lines_raw_output.
  destruct (parse_lines (start r0) lines) as [st|]; cbn; [|done].
  destruct (_ && _); [|done].
  by destruct (target_from_command command command).
Qed.

(** What the end of [_parse_sqlmap_output] makes of the state in which
    the loop ends. *)
Lemma parse_output_of_state (command lines : list string) (r0 : Result)
    (st : locals) :
  parse_lines (start r0) lines = Some st →
  ∃ r, _parse_sqlmap_output command lines r0 = Some r
       ∧ vulnerable r = vulnerable (res st)
       ∧ vulnerabilities r = found st
       ∧ database_info r = collected st
       ∧ dbms r = dbms (res st)
       ∧ summary r = final_summary (res st) (found st).
Proof.
  intros Hst. unfold _parse_sqlmap_output. rewrite Hst. cbn.
  destruct (_ && _); [|by eexists].
  destruct (target_from_command command command); by eexists.
Qed.

Lemma parse_line_collected (st st' : locals) (raw : string) :
  parse_line st raw = Some st' → collected_step (collected st) (collected st').
Proof.
  unfold parse_line. cbv zeta.
  destruct (Shlex.nonempty (Py.strip raw)) eqn:Hline; cbn [negb];
    [|intros [= <-]; constructor].
  destruct (param_of_stripped raw Hline) as (param & ->). cbn [mbind option_bind].
  generalize (Py.strip raw). intros line.
  repeat first [ by (intros [= <-]; constructor) | next_test ].
Qed.

Lemma ensure_database_nodup (name : string) (d : db_info) :
  tables_nodup d → tables_nodup (ensure_database name d).
Proof.
  intros Hd dbs n e [= <-] He. destruct (databases d) as [dbs0|] eqn:Hdbs; cbn in He.
  - destruct (dbs0 !! name) eqn:Hname; [by eapply Hd|].
    destruct (decide (name = n)) as [->|Hne].
    + rewrite lookup_insert_eq in He. injection He as <-. constructor.
    + rewrite lookup_insert_ne in He by done. by eapply Hd.
  - rewrite lookup_empty in He. destruct (decide (name = n)) as [->|Hne].
    + rewrite lookup_insert_eq in He. injection He as <-. constructor.
    + rewrite lookup_insert_ne in He by done. by rewrite lookup_empty in He.
Qed.

Lemma add_table_nodup (name table : string) (d : db_info) :
  tables_nodup d → tables_nodup (add_table name table d).
Proof.
  intros Hd. unfold add_table.
  destruct (databases d) as [dbs0|] eqn:Hdbs; [|done].
  destruct (dbs0 !! name) as [e0|] eqn:Hname; [|done].
  case_bool_decide as Hin; [done|].
  intros dbs n e [= <-] He. destruct (decide (name = n)) as [->|Hne].
  - rewrite lookup_insert_eq in He. injection He as <-. cbn.
    apply NoDup_app. split; [by eapply Hd|]. split; [|apply NoDup_singleton].
    intros t Ht ->%list_elem_of_singleton. done.
  - rewrite lookup_insert_ne in He by done. by eapply Hd.
Qed.

Lemma collected_step_nodup (d d' : db_info) :
  collected_step d d' → tables_nodup d → tables_nodup d'.
Proof.
  destruct 1; intros Hd; [done|done|by apply ensure_database_nodup|].
  by apply add_table_nodup, ensure_database_nodup.
Qed.

Lemma parse_lines_nodup (lines : list string) : ∀ st st',
  parse_lines st lines = Some st' →
  tables_nodup (collected st) → tables_nodup (collected st').
Proof.
  induction lines as [|line lines IH]; intros st st' Hst Hd.
  - by injection Hst as <-.
  - cbn [parse_lines] in Hst. destruct (parse_line st line) as [st1|] eqn:H1; [|done].
    cbn in Hst. apply (IH st1 st' Hst).
    by apply (collected_step_nodup (collected st)), Hd; eapply parse_line_collected.
Qed.

(** C3: the marker of the injection points followed by the payload line
    of the parameter [id] gives a result that is vulnerable and has
    exactly one record: parameter [id], type [Unknown], title
    [SQL Injection], and the whole payload line as evidence. *)
Theorem injection_point_then_payload (now : string) (command : list string) :
  ∃ r,
    _parse_results now command
      ["[CRITICAL] sqlmap identified the following injection point(s):";
       "[PAYLOAD] Parameter: id (GET) ..."] = Some r
    ∧ vulnerable r = true
    ∧ vulnerabilities r
      = [{| parameter := "id"; type := "Unknown"; title := "SQL Injection";
            payload := "[PAYLOAD] Parameter: id (GET) ..." |}].
Proof.
  unfold _parse_results. cbv zeta.
  match goal with
  | |- context [_parse_sqlmap_output ?c ?l ?r0] =>
      destruct (parse_output_of_state c l r0 _ ltac:(vm_compute; reflexivity))
        as (r & Hr & Hv & Hvs & _)
  end.
  exists r. split; [exact Hr|]. by rewrite Hv, Hvs.
Qed.

(** C4, as stated, fails: in the section of the current user, a line
    that holds the text of a retrieved value after the banner marker
    sets the banner and no user, because the test for the banner comes
    first. *)
Lemma retrieved_after_banner_marker :
  let line := "[INFO] banner: [INFO] retrieved: root" in
  Py.contains "[INFO] retrieved: root" line = true
  ∧ (current_section <$>
       parse_lines (start (initial_result "" []))
         ["[INFO] fetching current user"])
    = Some (Some user_info)
  ∧ (r ← _parse_results "" [] ["[INFO] fetching current user"; line];
     Some (info (database_info r) !! "current_user",
           info (database_info r) !! "banner"))
    = Some (None, Some "[INFO] retrieved: root").
Proof. cbv zeta. repeat split; vm_compute; reflexivity. Qed.

(** C4, amended: a line that holds [[INFO] retrieved:], with
    [retrieved: ] and a value after it, and passes none of the tests
    that come before, stores the value, the stripped text after the last
    [retrieved: ], as current user in the user section and as version in
    the version section, the flag untouched, and in any other section
    sets the flag, the collected data untouched. *)
Theorem retrieved_line (st : locals) (raw before value : string) :
  Py.strip raw = before +:+ "retrieved: " +:+ value →
  Py.contains "retrieved: " value = false →
  Py.contains "[INFO] retrieved:" (Py.strip raw) = true →
  taken_before_retrieved st (Py.strip raw) = false →
  (in_section user_info st = false →
   Py.contains "[INFO] fetching database server version" (Py.strip raw) = false) →
  ∃ st',
    parse_line st raw = Some st'
    ∧ (current_section st = Some user_info →
       info (collected st') !! "current_user" = Some (Py.strip value)
       ∧ vulnerable (res st') = vulnerable (res st))
    ∧ (current_section st = Some version_info →
       info (collected st') !! "version" = Some (Py.strip value)
       ∧ vulnerable (res st') = vulnerable (res st))
    ∧ (current_section st ≠ Some user_info →
       current_section st ≠ Some version_info →
       vulnerable (res st') = true ∧ collected st' = collected st).
Proof.
  intros Hcut Hvalue Hretrieved Hbefore Hversion.
  assert (Hlast : Py.last_piece (Py.strip raw) "retrieved: " = value).
  { rewrite Hcut. change "retrieved: " with ("retrieved:" +:+ String " " "").
    by apply last_piece_after. }
  clear Hcut Hvalue.
  unfold parse_line. cbv zeta.
  assert (Hline : Shlex.nonempty (Py.strip raw) = true).
  { destruct (Py.strip raw); [discriminate Hretrieved|done]. }
  rewrite Hline. cbn [negb]. revert Hlast Hretrieved Hbefore Hversion.
  generalize (Py.strip raw). intros line Hlast Hretrieved Hbefore Hversion.
  unfold taken_before_retrieved in Hbefore.
  repeat (apply orb_false_iff in Hbefore as [Hbefore ?]).
  repeat match goal with
         | H : ?c = false |- context [if ?c then _ else _] => rewrite H
         end.
  rewrite Hretrieved, Hlast. cbn [andb]. unfold in_section in Hversion |- *.
  destruct (decide (current_section st = Some user_info)) as [Huser|Huser].
  { rewrite (bool_decide_eq_true_2 _ Huser).
    eexists. split; [reflexivity|]. cbn. rewrite lookup_insert_eq.
    repeat split; intros; congruence. }
  rewrite (bool_decide_eq_false_2 _ Huser) in Hversion |- *.
  rewrite Hversion by done.
  destruct (decide (current_section st = Some version_info)) as [Hvers|Hvers].
  { rewrite (bool_decide_eq_true_2 _ Hvers).
    eexists. split; [reflexivity|]. cbn. rewrite lookup_insert_eq.
    repeat split; intros; congruence. }
  rewrite (bool_decide_eq_false_2 _ Hvers).
  destruct (vulnerable (res st)) eqn:Hv; cbn [negb];
    (eexists; split; [reflexivity|]); repeat split; intros; try congruence; done.
Qed.

Lemma retrieved_line_witness :
  ∃ st',
    parse_line (with_section user_info (start (initial_result "" [])))
      "[12:00:01] [INFO] retrieved: root@localhost" = Some st'
    ∧ info (collected st') !! "current_user" = Some "root@localhost"
    ∧ vulnerable (res st') = false.
Proof.
  edestruct (retrieved_line
               (with_section user_info (start (initial_result "" [])))
               "[12:00:01] [INFO] retrieved: root@localhost"
               "[12:00:01] [INFO] " "root@localhost")
    as (st' & Hst & Huser & _).
  - vm_compute. reflexivity.
  - vm_compute. reflexivity.
  - vm_compute. reflexivity.
  - vm_compute. reflexivity.
  - vm_compute. discriminate.
  - exists st'. split; [exact Hst|]. exact (Huser eq_refl).
Defined.

Lemma final_summary_for (r : Result) (vs : list vuln) :
  final_summary r vs = summary_for (vulnerable r) (length vs).
Proof. unfold final_summary, summary_for. by destruct (vulnerable r), vs. Qed.

(** C6: whatever the lines, the summary of the result is the one that
    the final flag and the final number of records call for; a summary
    that a line wrote on the way is gone. *)
Theorem summary_from_final_flag (now : string) (command : list string) :
  (∀ lines r0, ∃ r,
     _parse_sqlmap_output command lines r0 = Some r
     ∧ summary r = summary_for (vulnerable r) (length (vulnerabilities r)))
  ∧ (∃ r,
       _parse_results now command
         ["[CRITICAL] all tested parameters appear to be not injectable"]
       = Some r
       ∧ vulnerable r = false
       ∧ summary r = "No SQL injection vulnerabilities found")
  ∧ (∃ r,
       _parse_results now command
         ["[INFO] parameter 'id' is vulnerable";
          "[INFO] sqlmap got a connection to the target URL"]
       = Some r
       ∧ vulnerable r = true
       ∧ summary r = "SQL injection vulnerability detected").
Proof.
  split; [|split].
  - intros lines r0. destruct (parse_lines_total lines (start r0)) as (st & Hst).
    destruct (parse_output_of_state command lines r0 st Hst)
      as (r & Hr & Hv & Hvs & _ & _ & Hs).
    exists r. split; [exact Hr|]. by rewrite Hs, final_summary_for, Hv, Hvs.
  - unfold _parse_results. cbv zeta.
    match goal with
    | |- context [_parse_sqlmap_output ?c ?l ?r0] =>
        destruct (parse_output_of_state c l r0 _ ltac:(vm_compute; reflexivity))
          as (r & Hr & Hv & _ & _ & _ & Hs)
    end.
    exists r. split; [exact Hr|]. by rewrite Hv, Hs.
  - unfold _parse_results. cbv zeta.
    match goal with
    | |- context [_parse_sqlmap_output ?c ?l ?r0] =>
        destruct (parse_output_of_state c l r0 _ ltac:(vm_compute; reflexivity))
          as (r & Hr & Hv & _ & _ & _ & Hs)
    end.
    exists r. split; [exact Hr|]. by rewrite Hv, Hs.
Qed.

(** C10: lines of white space put into the output, anywhere, change
    nothing in what [_parse_sqlmap_output] makes of a result, and in the
    result of [_parse_results] nothing but the raw output. *)
Theorem blank_lines_ignored (now : string) (command l1 l2 : list string) :
  blank_inserted l1 l2 →
  (∀ r0, _parse_sqlmap_output command l2 r0 = _parse_sqlmap_output command l1 r0)
  ∧ ∃ r1 r2,
      _parse_results now command l1 = Some r1
      ∧ _parse_results now command l2 = Some r2
      ∧ target r2 = target r1
      ∧ dbms r2 = dbms r1
      ∧ vulnerable r2 = vulnerable r1
      ∧ vulnerabilities r2 = vulnerabilities r1
      ∧ database_info r2 = database_info r1
      ∧ summary r2 = summary r1
      ∧ r2 = set_raw_output (raw_output r2) r1.
Proof.
  intros Hins.
  assert (Hsame : ∀ r0, _parse_sqlmap_output command l2 r0
                        = _parse_sqlmap_output command l1 r0).
  { intros r0. unfold _parse_sqlmap_output.
    by rewrite (parse_lines_blank_inserted l1 l2 Hins). }
  split; [exact Hsame|].
  unfold _parse_results. cbv zeta.
  match goal with
  | |- context [_parse_sqlmap_output command l1 ?r0] => set (r1_0 := r0)
  end.
  match goal with
  | |- context [_parse_sqlmap_output command l2 ?r0] =>
      change r0 with (set_raw_output (Py.join (String "010" "") l2) r1_0)
  end.
  rewrite parse_output_raw_output, Hsame.
  destruct (parse_lines_total l1 (start r1_0)) as (st & Hst).
  destruct (parse_output_of_state command l1 r1_0 st Hst) as (r1 & -> & _).
  exists r1, (set_raw_output (Py.join (String "010" "") l2) r1).
  by repeat split.
Qed.

Lemma blank_lines_ignored_witness :
  ∃ r1 r2,
    _parse_results "" [] ["[INFO] the back-end DBMS is MySQL"] = Some r1
    ∧ _parse_results "" [] [""; "[INFO] the back-end DBMS is MySQL"; "   "]
      = Some r2
    ∧ target r2 = target r1
    ∧ dbms r2 = dbms r1
    ∧ vulnerable r2 = vulnerable r1
    ∧ vulnerabilities r2 = vulnerabilities r1
    ∧ database_info r2 = database_info r1
    ∧ summary r2 = summary r1
    ∧ r2 = set_raw_output (raw_output r2) r1.
Proof.
  apply (blank_lines_ignored "" []
           ["[INFO] the back-end DBMS is MySQL"]
           [""; "[INFO] the back-end DBMS is MySQL"; "   "]).
  apply blank_inserted_blank; [reflexivity|].
  apply blank_inserted_keep.
  apply blank_inserted_blank; [reflexivity|].
  apply blank_inserted_nil.
Defined.

End ParserFacts.

(** ** More on the command builder *)

Section MoreBuilderFacts.

Import CommandBuilder.

(** X1: for each of the four paths that [find_sqlmap] hands to
    [_is_executable], the answer is the one of [os.path.isfile]: all four
    end in [.py], so the [os.access] call of [_is_executable] is never
    reached, and the loop over the paths finds the same path whatever
    that call would answer.  ([shutil.which], called before the loop,
    asks [os.access] on its own; its answer is not in question here.) *)
Theorem common_paths_skip_access_check (host : Host) (f : string → bool) :
  Forall (λ path, _is_executable host path = path_isfile host path)
    common_paths
  ∧ first_executable (with_access f host) common_paths
    = first_executable host common_paths.
Proof.
  split.
  - unfold common_paths, _is_executable.
    repeat constructor; by destruct (path_isfile host _).
  - unfold common_paths. cbn [first_executable]. unfold _is_executable.
    change (endswith "sqlmap.py" ".py") with true.
    change (endswith "./sqlmap.py" ".py") with true.
    change (endswith "../sqlmap.py" ".py") with true.
    change (endswith "sqlmap/sqlmap.py" ".py") with true.
    reflexivity.
Qed.

(** X2: when the application is not frozen and [sqlmap] is not on the
    search path, the command of a new builder starts with [python] and
    the first of the four local scripts that is a file (no script before
    it in the list is one), or, when none is, with the bare name
    [sqlmap]. *)
Theorem local_script_runs_under_python (sys : Sys) (host : Host)
    (target : Target) (options : Options) :
  frozen sys = false →
  which host "sqlmap" = None →
  (∃ before path after rest,
     common_paths = before ++ path :: after
     ∧ Forall (λ earlier, path_isfile host earlier = false) before
     ∧ path_isfile host path = true
     ∧ build_command sys (__init__ sys host) target options
       = "python" :: path :: rest)
  ∨ (Forall (λ path, path_isfile host path = false) common_paths
     ∧ ∃ rest,
         build_command sys (__init__ sys host) target options
         = "sqlmap" :: rest).
Proof.
  intros Hfrozen Hwhich.
  unfold build_command, __init__, find_sqlmap, bundled_sqlmap. cbv zeta.
  rewrite Hfrozen, Hwhich. cbn [truthy_str sqlmap_path].
  unfold common_paths. cbn [first_executable]. unfold _is_executable.
  change (endswith "sqlmap.py" ".py") with true.
  change (endswith "./sqlmap.py" ".py") with true.
  change (endswith "../sqlmap.py" ".py") with true.
  change (endswith "sqlmap/sqlmap.py" ".py") with true.
  destruct (path_isfile host "sqlmap.py") eqn:H1.
  { left. exists [], "sqlmap.py". eexists _, _.
    split; [reflexivity|]. split; [constructor|]. by split. }
  destruct (path_isfile host "./sqlmap.py") eqn:H2.
  { left. exists ["sqlmap.py"], "./sqlmap.py". eexists _, _.
    split; [reflexivity|]. split; [by repeat constructor|]. by split. }
  destruct (path_isfile host "../sqlmap.py") eqn:H3.
  { left. exists ["sqlmap.py"; "./sqlmap.py"], "../sqlmap.py". eexists _, _.
    split; [reflexivity|]. split; [by repeat constructor|]. by split. }
  destruct (path_isfile host "sqlmap/sqlmap.py") eqn:H4.
  { left. exists ["sqlmap.py"; "./sqlmap.py"; "../sqlmap.py"], "sqlmap/sqlmap.py".
    eexists _, _.
    split; [reflexivity|]. split; [by repeat constructor|]. by split. }
  right. split; [by repeat constructor|]. eexists. reflexivity.
Qed.

Lemma local_script_runs_under_python_witness :
  (∃ before path after rest,
     common_paths = before ++ path :: after
     ∧ Forall (λ earlier, path_isfile scripts_host earlier = false) before
     ∧ path_isfile scripts_host path = true
     ∧ build_command plain_sys (__init__ plain_sys scripts_host)
         (url_target "http://example.com/?id=1") plain_options
       = "python" :: path :: rest)
  ∨ (Forall (λ path, path_isfile scripts_host path = false) common_paths
     ∧ ∃ rest,
         build_command plain_sys (__init__ plain_sys scripts_host)
           (url_target "http://example.com/?id=1") plain_options
         = "sqlmap" :: rest).
Proof.
  apply local_script_runs_under_python; reflexivity.
Defined.

Lemma holds_pair_arg {A} (flag : string) (show : A → string) (o : option A) :
  Py.contains "--batch" flag = false →
  existsb (Py.contains "--batch") (pair_arg flag show o)
  = existsb (Py.contains "--batch") (text_of show o).
Proof. intros Hflag. destruct o; [|done]. cbn. by rewrite Hflag. Qed.

Lemma count_pair_arg {A} (flag : string) (show : A → string) (o : option A) :
  String.eqb flag "--batch" = false →
  occurrences "--batch" (pair_arg flag show o)
  = occurrences "--batch" (text_of show o).
Proof. intros Hflag. destruct o; [|done]. cbn. by rewrite Hflag. Qed.

Lemma holds_flag_arg (flag : string) (b : bool) :
  Py.contains "--batch" flag = false →
  existsb (Py.contains "--batch") (flag_arg flag b) = false.
Proof. intros Hflag. destruct b; [|done]. cbn. by rewrite Hflag. Qed.

Lemma count_flag_arg (flag : string) (b : bool) :
  Py.contains "--batch" flag = false →
  occurrences "--batch" (flag_arg flag b) = 0%nat.
Proof. intros Hflag. by apply clean_occurrences, holds_flag_arg. Qed.

(** What stands before the batch flag holds [--batch] where the texts
    of the options do, as an argument and inside one: the names of the
    flags never do. *)
Lemma before_batch_flag (o : Options) :
  let pre :=
    [] ++ pair_arg "--risk" Py.str (risk_level o)
    ++ pair_arg "--level" Py.str (level o)
    ++ pair_arg "--threads" Py.str (threads o)
    ++ pair_arg "--timeout" Py.str (timeout o)
    ++ pair_arg "--retries" Py.str (retries o)
    ++ match techniques o with
       | Some ((_ :: _) as l) => ["--technique"; Py.join "" l]
       | _ => []
       end
    ++ pair_arg "--dbms" id (dbms o)
    ++ match detection o with
       | Some l => detection_args l
       | None => []
       end
    ++ pair_arg "--proxy" id (proxy o)
    ++ (if truthy (tor o)
        then "--tor" :: pair_arg "--tor-port" Py.str (tor_port o)
        else [])
    ++ match delay o with
       | Some d => if 0 <? d then ["--delay"; Py.str_int d] else []
       | None => []
       end
    ++ flag_arg "--skip-url-encode" (truthy (skip_url_encode o))
    ++ flag_arg "--skip-static" (truthy (skip_static o))
    ++ pair_arg "--tamper" id (tamper o)
    ++ pair_arg "--os" id (os o) in
  existsb (Py.contains "--batch") pre
  = existsb (Py.contains "--batch") (printed_texts o)
  ∧ occurrences "--batch" pre = occurrences "--batch" (printed_texts o).
Proof.
  cbv zeta. unfold printed_texts.
  assert (Hdetect : ∀ d,
            existsb (Py.contains "--batch")
              match d with Some l => detection_args l | None => [] end = false).
  { intros [l|]; [apply clean_detection_args|done]. }
  rewrite !existsb_app, !occurrences_app.
  rewrite !holds_pair_arg, !count_pair_arg, !holds_flag_arg, !count_flag_arg,
    Hdetect, (clean_occurrences _ (Hdetect _)) by reflexivity.
  cbn [existsb occurrences].
  assert (Htech :
    existsb (Py.contains "--batch")
      match techniques o with
      | Some ((_ :: _) as l) => ["--technique"; Py.join "" l]
      | _ => []
      end
    = existsb (Py.contains "--batch")
        match techniques o with
        | Some ((_ :: _) as l) => [Py.join "" l]
        | _ => []
        end
    ∧ occurrences "--batch"
        match techniques o with
        | Some ((_ :: _) as l) => ["--technique"; Py.join "" l]
        | _ => []
        end
      = occurrences "--batch"
          match techniques o with
          | Some ((_ :: _) as l) => [Py.join "" l]
          | _ => []
          end) by (by destruct (techniques o) as [[|t l]|]).
  assert (Htor :
    existsb (Py.contains "--batch")
      (if truthy (tor o)
       then "--tor" :: pair_arg "--tor-port" Py.str (tor_port o) else [])
    = existsb (Py.contains "--batch")
        (if truthy (tor o) then text_of Py.str (tor_port o) else [])
    ∧ occurrences "--batch"
        (if truthy (tor o)
         then "--tor" :: pair_arg "--tor-port" Py.str (tor_port o) else [])
      = occurrences "--batch"
          (if truthy (tor o) then text_of Py.str (tor_port o) else []))
    by (by destruct (truthy (tor o)), (tor_port o)).
  assert (Hdelay :
    existsb (Py.contains "--batch")
      match delay o with
      | Some d => if 0 <? d then ["--delay"; Py.str_int d] else []
      | None => []
      end
    = existsb (Py.contains "--batch")
        match delay o with
        | Some d => if 0 <? d then [Py.str_int d] else []
        | None => []
        end
    ∧ occurrences "--batch"
        match delay o with
        | Some d => if 0 <? d then ["--delay"; Py.str_int d] else []
        | None => []
        end
      = occurrences "--batch"
          match delay o with
          | Some d => if 0 <? d then [Py.str_int d] else []
          | None => []
          end)
    by (destruct (delay o) as [d|]; [destruct (0 <? d)|]; done).
  destruct Htech as [-> ->], Htor as [-> ->], Hdelay as [-> ->].
  split; [|lia]. cbn [orb]. reflexivity.
Qed.

(** X3: the number of [--batch] arguments among the option arguments,
    exactly: one for each typed or chosen value that is [--batch]; one
    for the flag, which is there when the batch box is ticked or, through
    the test before the forced flag, when no value holds [--batch] inside
    it, and only then; and one for each custom argument that is
    [--batch]. *)
Theorem batch_flag_count (o : Options) :
  occurrences "--batch" (_build_option_args o)
  = (occurrences "--batch" (printed_texts o)
     + (if truthy (batch o)
           || negb (existsb (Py.contains "--batch") (printed_texts o))
        then 1 else 0)
     + occurrences "--batch" (custom_arg_list (custom_args o)))%nat.
Proof.
  unfold _build_option_args. cbv zeta.
  destruct (before_batch_flag o) as [Hholds Hcount]. cbv zeta in Hholds, Hcount.
  rewrite !(assoc_L (++)) in Hholds, Hcount.
  match type of Hholds with
  | existsb _ ?p = _ => set (pre := p) in *
  end.
  rewrite occurrences_app.
  match goal with
  | |- context [negb (existsb _ ?a)] => set (args := a)
  end.
  assert (Hargs : existsb (Py.contains "--batch") args
                  = existsb (Py.contains "--batch") (printed_texts o)
                    || truthy (batch o)).
  { subst args.
    rewrite !existsb_app, Hholds, (holds_flag_arg "--skip-waf"),
      (holds_flag_arg "--fresh-queries") by reflexivity.
    rewrite !orb_false_r. destruct (truthy (batch o)); cbn [flag_arg existsb].
    - change (Py.contains "--batch" "--batch") with true. done.
    - done. }
  assert (Hnumber : occurrences "--batch" args
                    = (occurrences "--batch" (printed_texts o)
                       + if truthy (batch o) then 1 else 0)%nat).
  { subst args.
    rewrite !occurrences_app, Hcount, (count_flag_arg "--skip-waf"),
      (count_flag_arg "--fresh-queries") by reflexivity.
    destruct (truthy (batch o)); cbn; lia. }
  clearbody args. rewrite Hargs.
  destruct (existsb (Py.contains "--batch") (printed_texts o)),
    (truthy (batch o)); cbn [orb negb];
    rewrite ?occurrences_app, Hnumber; cbn; lia.
Qed.

End MoreBuilderFacts.

(** ** Custom arguments, display string and validation *)

Section QuotingFacts.

Import CommandBuilder.

Lemma safe_char_not_space (c : ascii) :
  Shlex.safe_char c = true → Py.isspace c = false.
Proof.
  destruct c as [[] [] [] [] [] [] [] []]; vm_compute; intros H;
    try discriminate H; done.
Qed.

Lemma all_safe_last (s : string) (c : ascii) :
  Shlex.all_safe s = true → last_char s = Some c → Shlex.safe_char c = true.
Proof.
  induction s as [|a s IH]; [done|]. cbn [Shlex.all_safe].
  intros [Ha Hs]%andb_true_iff. destruct s as [|b s].
  - cbn. by intros [= <-].
  - rewrite last_char_cons. by apply IH.
Qed.

Lemma last_char_is_Some (a : ascii) (s : string) :
  ∃ c, last_char (String a s) = Some c.
Proof.
  revert a. induction s as [|b s IH]; intros a; [by exists a|].
  rewrite last_char_cons. apply IH.
Qed.

(** What [quote] writes begins and ends with a character that is no
    white space. *)
Lemma quote_solid (a : string) : solid (Shlex.quote a).
Proof.
  destruct a as [|c a]; [split; by eexists|]. unfold Shlex.quote.
  destruct (Shlex.all_safe (String c a)) eqn:Hsafe.
  - split.
    + exists c. split; [done|]. apply safe_char_not_space.
      cbn [Shlex.all_safe] in Hsafe. by apply andb_true_iff in Hsafe as [? _].
    + destruct (last_char_is_Some c a) as (d & Hd). exists d. split; [done|].
      by eapply safe_char_not_space, all_safe_last.
  - split; [by exists "'"%char|]. exists "'"%char. split; [|done].
    rewrite <- app_assoc. apply last_char_app.
Qed.

Lemma solid_join (a b : string) :
  solid a → solid b → solid (a +:+ String " " b).
Proof.
  intros [(c & Hc & Hcs) _] [_ (d & Hd & Hds)]. split.
  - exists c. split; [|done]. destruct a; [done|]. by rewrite app_String.
  - exists d. split; [|done]. rewrite last_char_app.
    destruct b; [done|]. by rewrite last_char_cons.
Qed.

Lemma joined_solid (l : list string) :
  l ≠ [] → solid (Py.join " " (Shlex.quote <$> l)).
Proof.
  induction l as [|a l IH]; [done|]. intros _. destruct l as [|b l].
  - apply quote_solid.
  - change (Py.join " " (Shlex.quote <$> a :: b :: l))
      with (Shlex.quote a +:+ String " " (Py.join " " (Shlex.quote <$> b :: l))).
    apply solid_join; [apply quote_solid|by apply IH].
Qed.

Lemma rstrip_solid (p : ascii → bool) (s : string) (c : ascii) :
  last_char s = Some c → p c = false → Py.rstrip_with p s = s.
Proof.
  induction s as [|a s IH]; [done|]. intros Hc Hp. cbn [Py.rstrip_with].
  destruct s as [|b s].
  - cbn in Hc. injection Hc as ->. cbn. by rewrite Hp.
  - rewrite last_char_cons in Hc. by rewrite IH.
Qed.

(** A text that begins and ends with other characters than white space
    is left as it is by [strip]. *)
Lemma strip_solid (s : string) : solid s → Py.strip s = s.
Proof.
  intros [(c & Hc & Hcs) (d & Hd & Hds)]. unfold Py.strip.
  destruct s as [|a s]; [done|]. cbn in Hc. injection Hc as ->.
  cbn [Py.lstrip_with]. rewrite Hcs. by apply (rstrip_solid _ _ d).
Qed.

(** X4: custom arguments written as the [shlex.quote]d arguments, joined
    by blanks, come into the command as they were, with their white
    space and quotes. *)
Theorem custom_args_round_trip (l : list string) :
  custom_arg_list (Some (Py.join " " (Shlex.quote <$> l))) = l.
Proof.
  destruct l as [|a l]; [reflexivity|]. unfold custom_arg_list. cbv zeta.
  pose proof (joined_solid (a :: l) ltac:(done)) as Hsolid.
  rewrite (strip_solid _ Hsolid), split_join_quote.
  destruct Hsolid as [(c & Hc & _) _].
  by destruct (Py.join " " (Shlex.quote <$> a :: l)).
Qed.

(** X5: the display string tells the commands apart: two commands with
    the same display string are the same argument vector. *)
Theorem display_string_determines_command (sys sys' : Sys)
    (self self' : Builder) (target target' : Target)
    (options options' : Options) :
  get_command_string sys self target options
  = get_command_string sys' self' target' options' →
  build_command sys self target options
  = build_command sys' self' target' options'.
Proof.
  unfold get_command_string. cbv zeta. intros H.
  apply (f_equal Shlex.split) in H. rewrite !split_join_quote in H.
  by injection H.
Qed.

Lemma display_string_determines_command_witness :
  build_command plain_sys plain_builder (url_target "http://a.example/?x=1")
    plain_options
  = build_command plain_sys plain_builder (url_target "http://a.example/?x=1")
      (with_batch false plain_options).
Proof.
  apply display_string_determines_command. vm_compute. reflexivity.
Defined.

End QuotingFacts.

Section MoreValidationFacts.

Import CommandBuilder.

Lemma elem_of_guarded (b : bool) (m x : string) :
  x ∈ (if b then [] else [m]) ↔ b = false ∧ x = m.
Proof.
  destruct b; [rewrite elem_of_nil|rewrite list_elem_of_singleton];
    intuition congruence.
Qed.

Lemma elem_of_missing_errors (x : string) (t : Target) :
  x ∈ missing_errors t
  ↔ (truthy_str (url t) = false ∧ truthy_str (request_file t) = false)
    ∧ x = "Either URL or request file must be specified".
Proof. unfold missing_errors. by rewrite elem_of_guarded, orb_false_iff. Qed.

Lemma elem_of_url_errors (x : string) (t : Target) :
  x ∈ url_errors t
  ↔ (∃ u, url t = Some u
          ∧ Py.startswith u "http://" || Py.startswith u "https://" = false)
    ∧ x = "URL must start with http:// or https://".
Proof.
  unfold url_errors. destruct (url t) as [u|].
  - rewrite elem_of_guarded. split.
    + intros [H ->]. split; [by exists u|done].
    + by intros [(u' & [= <-] & H) ->].
  - rewrite elem_of_nil. split; [done|]. by intros [(u' & [=] & _) _].
Qed.

Lemma elem_of_file_errors (x : string) (isfile : string → bool) (t : Target) :
  x ∈ file_errors isfile t
  ↔ (∃ f, request_file t = Some f ∧ isfile f = false)
    ∧ x = "Request file does not exist".
Proof.
  unfold file_errors. destruct (request_file t) as [f|].
  - rewrite elem_of_guarded. split.
    + intros [H ->]. split; [by exists f|done].
    + by intros [(f' & [= <-] & H) ->].
  - rewrite elem_of_nil. split; [done|]. by intros [(f' & [=] & _) _].
Qed.

(** X6: each of the three errors of [validate_target] is there exactly
    when its own check fails, whatever the other entries of the target
    are. *)
Theorem validate_target_errors_independent (isfile : string → bool)
    (target : Target) :
  ("Either URL or request file must be specified"
     ∈ validate_target isfile target
   ↔ truthy_str (url target) = false
     ∧ truthy_str (request_file target) = false)
  ∧ ("URL must start with http:// or https://" ∈ validate_target isfile target
     ↔ ∃ u, url target = Some u
            ∧ Py.startswith u "http://" || Py.startswith u "https://" = false)
  ∧ ("Request file does not exist" ∈ validate_target isfile target
     ↔ ∃ f, request_file target = Some f ∧ isfile f = false).
Proof.
  rewrite validate_target_parts, !elem_of_app, !elem_of_missing_errors,
    !elem_of_url_errors, !elem_of_file_errors.
  split; [|split]; split.
  - intros [[H _]|[[_ H]|[_ H]]]; [exact H|discriminate H..].
  - intros H. left. by split.
  - intros [[_ H]|[[H _]|[_ H]]]; [discriminate H|exact H|discriminate H].
  - intros H. right. left. by split.
  - intros [[_ H]|[[_ H]|[H _]]]; [discriminate H..|exact H].
  - intros H. right. right. by split.
Qed.

Lemma range_errors_empty (lo hi : Z) (message : string) (o : option Py.value) :
  range_errors lo hi message o = [] ↔ within lo hi o.
Proof.
  split; [|apply range_errors_within].
  destruct o as [v|]; [|done]. unfold within, range_errors, out_of_range.
  destruct (Py.as_int v) as [n|]; [|done].
  destruct (n <? lo) eqn:Hlo; [done|]. destruct (hi <? n) eqn:Hhi; [done|].
  intros _. apply Z.ltb_ge in Hlo, Hhi. lia.
Qed.

(** The loop over the techniques gives one error for each technique
    that is not known, in their order. *)
Lemma technique_errors_filter (l : list string) :
  technique_errors l
  = technique_error <$> filter (λ t, t ∉ valid_techniques) l.
Proof.
  induction l as [|t l IH]; [done|]. cbn [technique_errors].
  rewrite filter_cons. case_bool_decide as Ht.
  - rewrite decide_False by (intros H; by apply H). exact IH.
  - rewrite decide_True by done. cbn. by rewrite IH.
Qed.

(** X7: [validate_options] returns no error exactly when risk, level,
    threads and timeout, where given, are integers in their ranges and
    every technique is known: no invalid entry passes and no valid one is
    refused. *)
Theorem validate_options_empty_iff (o : Options) :
  validate_options o = []
  ↔ within 1 3 (risk_level o) ∧ within 1 5 (level o)
    ∧ within 1 10 (threads o) ∧ within 1 300 (timeout o)
    ∧ known_techniques (techniques o).
Proof.
  unfold validate_options. cbv zeta. cbn [app].
  rewrite !app_nil, !range_errors_empty.
  assert (match techniques o with
          | Some l => technique_errors l
          | None => []
          end = [] ↔ known_techniques (techniques o)) as ->; [|tauto].
  unfold known_techniques. destruct (techniques o) as [l|]; [|done].
  split; [|apply technique_errors_known].
  induction l as [|t l IH]; [constructor|]. cbn [technique_errors].
  case_bool_decide as Ht; [|done]. intros Hl. constructor; [done|by apply IH].
Qed.

(** X8: with risk, level, threads and timeout in their ranges, the
    errors of [validate_options] are exactly one for each technique that
    is not one of the six, in the order of the list and as often as it
    stands there. *)
Theorem validate_options_technique_errors (o : Options) (l : list string) :
  within 1 3 (risk_level o) → within 1 5 (level o) →
  within 1 10 (threads o) → within 1 300 (timeout o) →
  techniques o = Some l →
  validate_options o
  = technique_error <$> filter (λ t, t ∉ valid_techniques) l.
Proof.
  intros Hrisk Hlevel Hthreads Htimeout Hl.
  unfold validate_options. cbv zeta.
  rewrite !range_errors_within by done.
  by rewrite Hl, technique_errors_filter.
Qed.

Lemma validate_options_technique_errors_witness :
  validate_options (with_techniques ["B"; "X"; "U"; "X"] plain_options)
  = technique_error <$> filter (λ t, t ∉ valid_techniques) ["B"; "X"; "U"; "X"].
Proof.
  apply validate_options_technique_errors; [cbn; lia..|reflexivity].
Defined.

End MoreValidationFacts.

(** ** The forms and the start of a scan *)

Section FormFacts.

Import CommandBuilder.

Lemma lstrip_cases (p : ascii → bool) (s : string) :
  Py.lstrip_with p s = ""
  ∨ ∃ c t, Py.lstrip_with p s = String c t ∧ p c = false.
Proof.
  induction s as [|a s IH]; [by left|]. cbn [Py.lstrip_with].
  destruct (p a) eqn:Ha; [exact IH|]. right. by exists a, s.
Qed.

Lemma rstrip_cons (p : ascii → bool) (c : ascii) (t : string) :
  p c = false → ∃ r, Py.rstrip_with p (String c t) = String c r.
Proof.
  intros Hc. cbn [Py.rstrip_with]. destruct (Py.rstrip_with p t).
  - rewrite Hc. by eexists.
  - by eexists.
Qed.

(** A stripped text is empty, or begins and ends with a character that
    is no white space. *)
Lemma strip_cases (s : string) : Py.strip s = "" ∨ solid (Py.strip s).
Proof.
  destruct (Shlex.nonempty (Py.strip s)) eqn:Hne;
    [|left; by destruct (Py.strip s)].
  right. split; [|by apply strip_last]. unfold Py.strip in *.
  destruct (lstrip_cases Py.isspace s) as [Hl|(c & t & Hl & Hc)];
    rewrite Hl in *; [done|].
  destruct (rstrip_cons Py.isspace c t Hc) as (r & ->). by exists c.
Qed.

Lemma entry_solid (text v : string) :
  TargetInput.entry text = Some v → solid v.
Proof.
  unfold TargetInput.entry. cbv zeta.
  destruct (strip_cases text) as [->|Hs]; [done|].
  destruct (Shlex.nonempty (Py.strip text)); [|done]. by intros [= <-].
Qed.

Lemma entry_Some (text : string) :
  is_Some (TargetInput.entry text) ↔ Shlex.nonempty (Py.strip text) = true.
Proof.
  unfold TargetInput.entry. cbv zeta.
  destruct (Shlex.nonempty (Py.strip text)); split; try done.
Qed.

Lemma entry_truthy (text : string) :
  truthy_str (TargetInput.entry text) = Shlex.nonempty (Py.strip text).
Proof.
  unfold TargetInput.entry. cbv zeta.
  by destruct (Shlex.nonempty (Py.strip text)) eqn:H; cbn; rewrite ?H.
Qed.

Lemma entry_texts (text : string) :
  Forall (λ v, solid v ∧ Py.strip v = v) (text_of id (TargetInput.entry text)).
Proof.
  destruct (TargetInput.entry text) as [v|] eqn:Hv; [|constructor].
  constructor; [|constructor].
  split; [by eapply entry_solid|by eapply strip_solid, entry_solid].
Qed.

(** X9: the target that the form delivers never has both a URL and a
    request file, has POST data and cookies only beside a URL, and each of
    its texts is stripped and not empty. *)
Theorem form_target_well_formed (f : TargetInput.Form) :
  ¬ (is_Some (url (TargetInput.get_target_info f))
     ∧ is_Some (request_file (TargetInput.get_target_info f)))
  ∧ (is_Some (request_file (TargetInput.get_target_info f)) →
     data (TargetInput.get_target_info f) = None
     ∧ cookies (TargetInput.get_target_info f) = None)
  ∧ Forall (λ v, solid v ∧ Py.strip v = v)
      (target_texts (TargetInput.get_target_info f)).
Proof.
  unfold TargetInput.get_target_info, target_texts.
  cbn [url request_file data cookies headers].
  destruct (TargetInput.current_tab f =? 0) eqn:H0; [|destruct (_ =? 1) eqn:H1].
  all: split; [by intros [[? ?] [? ?]]|].
  all: split; [try by intros [? ?]; done|].
  all: rewrite !Forall_app; repeat split.
  all: try apply entry_texts.
  all: try constructor.
  all: done.
Qed.

(** X10: a scan is started exactly when the URL tab is the current one
    and the URL is not blank, or the request-file tab is and the path is
    not blank; the command then holds [-u] or [-r] followed by the
    stripped text.  From every other tab, the headers tab among them, the
    warning is shown. *)
Theorem start_scan_needs_target (sys : Sys) (command_builder : Builder)
    (target_input : TargetInput.Form) (options_panel : OptionsPanel.Form) :
  (is_Some (MainWindow.start_scan sys command_builder target_input options_panel)
   ↔ (TargetInput.current_tab target_input = 0
      ∧ Shlex.nonempty (Py.strip (TargetInput.url_input target_input)) = true)
     ∨ (TargetInput.current_tab target_input = 1
        ∧ Shlex.nonempty
            (Py.strip (TargetInput.request_file_input target_input)) = true))
  ∧ ∀ command,
      MainWindow.start_scan sys command_builder target_input options_panel
      = Some command →
      ∃ before after,
        command
        = before
          ++ (if TargetInput.current_tab target_input =? 0
              then ["-u"; Py.strip (TargetInput.url_input target_input)]
              else ["-r"; Py.strip (TargetInput.request_file_input target_input)])
          ++ after.
Proof.
  unfold MainWindow.start_scan, build_command, _build_target_args. cbv zeta.
  set (target := TargetInput.get_target_info target_input).
  assert (url target
          = if TargetInput.current_tab target_input =? 0
            then TargetInput.entry (TargetInput.url_input target_input)
            else None) as -> by reflexivity.
  assert (request_file target
          = if TargetInput.current_tab target_input =? 0 then None
            else if TargetInput.current_tab target_input =? 1
                 then TargetInput.entry
                        (TargetInput.request_file_input target_input)
                 else None) as -> by reflexivity.
  clearbody target. unfold TargetInput.entry. cbv zeta.
  destruct (TargetInput.current_tab target_input =? 0) eqn:H0;
    [apply Z.eqb_eq in H0
    |apply Z.eqb_neq in H0;
     destruct (TargetInput.current_tab target_input =? 1) eqn:H1;
     [apply Z.eqb_eq in H1|apply Z.eqb_neq in H1]];
    repeat match goal with
           | |- context [Shlex.nonempty (Py.strip ?x)] =>
               destruct (Shlex.nonempty (Py.strip x)) eqn:?
           end;
    cbn [truthy_str negb andb pair_arg id app];
    repeat match goal with
           | H : Shlex.nonempty ?v = true |- context [Shlex.nonempty ?v] =>
               rewrite H
           end;
    cbn [negb andb].
  all: split; [split|].
  all: match goal with
       | |- is_Some None → _ => intros [? [=]]
       | |- is_Some (Some _) → _ =>
           intros _; first [left; split; done | right; split; done]
       | |- _ → is_Some (Some _) => intros _; by eexists
       | |- _ → is_Some None => intros [[? ?]|[? ?]]; congruence
       | |- ∀ c, None = Some c → _ => intros ? [=]
       | |- ∀ c, Some _ = Some c → _ =>
           intros ? [= <-]; rewrite <- !(assoc_L (++));
           eexists _, _; reflexivity
       end.
Qed.

Lemma checked_techniques_known (b e u s t q : bool) :
  Forall (λ x, x ∈ valid_techniques)
    (OptionsPanel.checked b "B" ++ OptionsPanel.checked e "E"
     ++ OptionsPanel.checked u "U" ++ OptionsPanel.checked s "S"
     ++ OptionsPanel.checked t "T" ++ OptionsPanel.checked q "Q").
Proof.
  rewrite !Forall_app. unfold valid_techniques.
  repeat split;
    match goal with
    | |- Forall _ (OptionsPanel.checked ?x _) =>
        destruct x; repeat constructor; set_solver
    end.
Qed.

(** X11: with the spin boxes in the ranges that the panel gives them,
    the options that the panel delivers always pass [validate_options],
    whatever boxes are ticked and whatever is typed. *)
Theorem panel_options_valid (f : OptionsPanel.Form) :
  spin_boxes_in_range f →
  validate_options (OptionsPanel.get_options f) = [].
Proof.
  intros (Hrisk & Hlevel & Hthreads & Htimeout).
  unfold validate_options. cbv zeta.
  cbn [OptionsPanel.get_options risk_level level threads timeout techniques].
  rewrite !range_errors_within by done.
  by rewrite technique_errors_known by apply checked_techniques_known.
Qed.

Lemma panel_options_valid_witness :
  validate_options (OptionsPanel.get_options fresh_panel) = [].
Proof.
  apply panel_options_valid. unfold spin_boxes_in_range. cbn. lia.
Defined.

Lemma detection_args_app (l1 l2 : list string) :
  detection_args (l1 ++ l2) = detection_args l1 ++ detection_args l2.
Proof.
  induction l1 as [|d l1 IH]; [done|]. cbn [app detection_args].
  destruct (detection_map !! d); by rewrite IH.
Qed.

(** X12: every detection box of the panel is known to the builder: each
    ticked box gives its own flag, in the order of the panel, and none is
    dropped. *)
Theorem panel_detection_flags (f : OptionsPanel.Form) :
  ∃ l,
    detection (OptionsPanel.get_options f) = Some l
    ∧ detection_args l
      = OptionsPanel.checked (OptionsPanel.banner f) "--banner"
        ++ OptionsPanel.checked (OptionsPanel.current_user f) "--current-user"
        ++ OptionsPanel.checked (OptionsPanel.current_db f) "--current-db"
        ++ OptionsPanel.checked (OptionsPanel.hostname f) "--hostname"
        ++ OptionsPanel.checked (OptionsPanel.is_dba f) "--is-dba"
        ++ OptionsPanel.checked (OptionsPanel.users f) "--users"
        ++ OptionsPanel.checked (OptionsPanel.passwords f) "--passwords"
        ++ OptionsPanel.checked (OptionsPanel.privileges f) "--privileges"
        ++ OptionsPanel.checked (OptionsPanel.roles f) "--roles"
        ++ OptionsPanel.checked (OptionsPanel.dbs f) "--dbs"
        ++ OptionsPanel.checked (OptionsPanel.tables f) "--tables"
        ++ OptionsPanel.checked (OptionsPanel.columns f) "--columns"
        ++ OptionsPanel.checked (OptionsPanel.schema f) "--schema".
Proof.
  eexists. split; [reflexivity|]. rewrite !detection_args_app.
  repeat (f_equal;
          [match goal with
           | |- detection_args (OptionsPanel.checked ?b _) = _ =>
               destruct b; vm_compute; reflexivity
           end|]).
  by destruct (OptionsPanel.schema f); vm_compute.
Qed.

End FormFacts.

(** ** More on the output parser *)

Section MoreParserFacts.

Import SubprocessRunner.

(** Goes down the chain of tests of [parse_line], as in the proofs
    above. *)
Ltac next_branch :=
  match goal with
  | |- context [if ?c then _ else _] =>
      lazymatch c with
      | context [if _ then _ else _] => fail
      | _ => destruct c eqn:?
      end
  | |- context [match quoted_text ?l with _ => _ end] =>
      destruct (quoted_text l) eqn:?
  | |- context [match target_url ?s with _ => _ end] =>
      destruct (target_url s) eqn:?
  end.

(** Opens [parse_line] on a line that is not blank, with the parameter
    that its tests may ask for. *)
Ltac open_parse_line raw Hline param Hparam :=
  unfold parse_line; cbv zeta;
  destruct (Shlex.nonempty (Py.strip raw)) eqn:Hline; cbn [negb];
  [ destruct (param_of_stripped raw Hline) as (param & Hparam);
    rewrite Hparam; cbn [mbind option_bind] | ].

(** The loop leaves the status, the raw output and the time stamp of
    the result alone. *)
Lemma parse_line_keeps (st st' : locals) (raw : string) :
  parse_line st raw = Some st' →
  status (res st') = status (res st)
  ∧ raw_output (res st') = raw_output (res st)
  ∧ timestamp (res st') = timestamp (res st).
Proof.
  open_parse_line raw Hline param Hparam; [|by intros [= <-]].
  clear Hparam Hline. generalize (Py.strip raw). intros line.
  repeat first [ by intros [= <-] | next_branch ].
Qed.

Lemma parse_lines_keeps (lines : list string) : ∀ st st',
  parse_lines st lines = Some st' →
  status (res st') = status (res st)
  ∧ raw_output (res st') = raw_output (res st)
  ∧ timestamp (res st') = timestamp (res st).
Proof.
  induction lines as [|line lines IH]; intros st st' Hst.
  - by injection Hst as <-.
  - cbn [parse_lines] in Hst.
    destruct (parse_line st line) as [st1|] eqn:H1; [|done]. cbn in Hst.
    destruct (parse_line_keeps _ _ _ H1) as (<- & <- & <-). by apply IH.
Qed.

(** X13: the result of a completed scan always has the status
    [completed], the time stamp of the call and, as raw output, the lines
    joined by line feeds, whatever the lines hold. *)
Theorem parse_results_keeps_raw_output (now : string)
    (command lines : list string) :
  ∃ r,
    _parse_results now command lines = Some r
    ∧ status r = "completed"
    ∧ raw_output r = Py.join (String "010" "") lines
    ∧ timestamp r = now.
Proof.
  unfold _parse_results, _parse_sqlmap_output. cbv zeta.
  destruct (parse_lines_total lines (start (initial_result now lines)))
    as (st & Hst).
  rewrite Hst. cbn [mbind option_bind].
  destruct (parse_lines_keeps _ _ _ Hst) as (Hs & Hr & Ht).
  eexists. split; [reflexivity|].
  destruct (_ && _); [destruct (target_from_command command command)|];
    cbn; by rewrite ?Hs, ?Hr, ?Ht.
Qed.

Lemma split_ws_go_words (s : string) : ∀ cur w,
  no_space cur = true →
  w ∈ Py.split_ws_go cur s →
  Shlex.nonempty w = true ∧ no_space w = true.
Proof.
  induction s as [|c s IH]; intros cur w Hcur Hw; cbn [Py.split_ws_go] in Hw.
  - destruct cur; [by apply elem_of_nil in Hw|].
    by apply list_elem_of_singleton in Hw as ->.
  - destruct (Py.isspace c) eqn:Hc.
    + apply elem_of_app in Hw as [Hw|Hw]; [|by apply (IH "")].
      destruct cur; [by apply elem_of_nil in Hw|].
      by apply list_elem_of_singleton in Hw as ->.
    + apply (IH (cur +:+ String c "")); [|done].
      clear -Hcur Hc. induction cur as [|a cur IHc].
      * rewrite app_empty_l. cbn. by rewrite Hc.
      * cbn in Hcur. apply andb_true_iff in Hcur as [Ha Hcur].
        rewrite app_String. cbn. by rewrite Ha, IHc.
Qed.

Lemma param_of_word (line param : string) :
  param_of line = Some param →
  Shlex.nonempty param = true ∧ no_space param = true.
Proof.
  unfold param_of, Py.first_item, Py.split_ws. intros H.
  apply (split_ws_go_words (Py.last_piece line "Parameter: ") "" param);
    [done|].
  destruct (Py.split_ws_go "" _) as [|w l]; [done|].
  injection H as ->. by left.
Qed.

Lemma rstrip_twice (p : ascii → bool) (s : string) :
  Py.rstrip_with p (Py.rstrip_with p s) = Py.rstrip_with p s.
Proof.
  destruct (Py.rstrip_with p s) as [|a r] eqn:Hr; [done|].
  destruct (rstrip_last p s) as (c & Hc & Hp); [by rewrite Hr|].
  rewrite Hr in Hc. by apply (rstrip_solid p _ c).
Qed.

(** Stripping a stripped text changes nothing. *)
Lemma strip_twice (s : string) : Py.strip (Py.strip s) = Py.strip s.
Proof.
  destruct (strip_cases s) as [->|Hs]; [done|]. by apply strip_solid.
Qed.

(** One line leaves the records as they are, or adds one payload record
    at the end, and that only in the section of the injection points. *)
Lemma parse_line_found (st st' : locals) (raw : string) :
  parse_line st raw = Some st' →
  found st' = found st
  ∨ ∃ v, found st' = found st ++ [v] ∧ payload_record v
         ∧ current_section st = Some vulnerability.
Proof.
  open_parse_line raw Hline param Hparam; [|intros [= <-]; by left].
  apply param_of_word in Hparam as [Hword Hsolid]. clear Hline.
  pose proof (strip_twice raw) as Hstrip. revert Hstrip.
  generalize (Py.strip raw). intros line Hstrip.
  repeat first
    [ by (intros [= <-]; left)
    | by (intros [= <-]; right; eexists; split; [reflexivity|];
          match goal with
          | H : _ && in_section vulnerability st = true |- _ =>
              apply andb_true_iff in H as [? ?%bool_decide_eq_true]
          end;
          repeat split; assumption)
    | next_branch ].
Qed.

Lemma parse_lines_app (l1 l2 : list string) : ∀ st,
  parse_lines st (l1 ++ l2) = st1 ← parse_lines st l1; parse_lines st1 l2.
Proof.
  induction l1 as [|line l1 IH]; intros st; [done|].
  cbn [app parse_lines]. destruct (parse_line st line); cbn; [apply IH|done].
Qed.

Lemma parse_lines_found (lines : list string) : ∀ st st',
  parse_lines st lines = Some st' →
  Forall payload_record (found st) →
  found st `prefix_of` found st' ∧ Forall payload_record (found st').
Proof.
  induction lines as [|line lines IH]; intros st st' Hst Hgood.
  - by injection Hst as <-.
  - cbn [parse_lines] in Hst.
    destruct (parse_line st line) as [st1|] eqn:H1; [|done]. cbn in Hst.
    destruct (parse_line_found _ _ _ H1) as [Heq|(v & Heq & Hv & _)].
    + rewrite <- Heq in *. by apply IH.
    + destruct (IH st1 st' Hst) as [Hpre Hall].
      { rewrite Heq. apply Forall_app. split; [done|by constructor]. }
      split; [|done]. etrans; [|exact Hpre]. rewrite Heq. by apply prefix_app_r.
Qed.

(** X14: whatever the lines, every vulnerability record of the result
    comes from a payload line: its type is [Unknown], its title
    [SQL Injection], its evidence a stripped line that holds [[PAYLOAD]]
    and [Parameter:], and its parameter one word without white space. *)
Theorem records_come_from_payload_lines (now : string)
    (command lines : list string) :
  ∃ r,
    _parse_results now command lines = Some r
    ∧ Forall payload_record (vulnerabilities r).
Proof.
  unfold _parse_results. cbv zeta.
  destruct (parse_lines_total lines (start (initial_result now lines)))
    as (st & Hst).
  destruct (parse_output_of_state command lines _ st Hst)
    as (r & Hr & _ & Hvs & _).
  exists r. split; [exact Hr|]. rewrite Hvs.
  by apply (parse_lines_found lines _ st Hst).
Qed.

(** The section of the injection points is entered only by a line that
    opens it. *)
Lemma parse_line_section (st st' : locals) (raw : string) :
  parse_line st raw = Some st' →
  current_section st' = Some vulnerability →
  current_section st = Some vulnerability ∨ opens_vulnerability raw = true.
Proof.
  unfold opens_vulnerability.
  open_parse_line raw Hline param Hparam; [|intros [= <-]; by left].
  clear Hparam Hline. generalize (Py.strip raw). intros line.
  repeat first
    [ by (intros [= <-] Hs; left)
    | by (intros [= <-] Hs; discriminate Hs)
    | by (intros [= <-] Hs; right;
          repeat match goal with H : _ = true |- _ => rewrite H end;
          rewrite ?orb_true_r)
    | next_branch ].
Qed.

(** X15: when no line opens the section of the injection points, the
    result has no vulnerability record, whatever payload lines the output
    holds. *)
Theorem no_records_without_marker (now : string)
    (command lines : list string) :
  Forall (λ line, opens_vulnerability line = false) lines →
  ∃ r,
    _parse_results now command lines = Some r ∧ vulnerabilities r = [].
Proof.
  intros Hlines. unfold _parse_results. cbv zeta.
  destruct (parse_lines_total lines (start (initial_result now lines)))
    as (st & Hst).
  destruct (parse_output_of_state command lines _ st Hst)
    as (r & Hr & _ & Hvs & _).
  exists r. split; [exact Hr|]. rewrite Hvs. clear Hr Hvs.
  assert (Hinv : current_section (start (initial_result now lines))
                 ≠ Some vulnerability
                 ∧ found (start (initial_result now lines)) = []) by done.
  revert Hst Hinv. generalize (start (initial_result now lines)).
  induction Hlines as [|line lines' Hline _ IH]; intros st0 Hst [Hsec Hfound].
  - by injection Hst as <-.
  - cbn [parse_lines] in Hst.
    destruct (parse_line st0 line) as [st1|] eqn:H1; [|done]. cbn in Hst.
    apply (IH st1 Hst). split.
    + intros Hs. destruct (parse_line_section _ _ _ H1 Hs); congruence.
    + destruct (parse_line_found _ _ _ H1) as [->|(v & _ & _ & Hs)]; done.
Qed.

Lemma no_records_without_marker_witness :
  ∃ r,
    _parse_results "" []
      ["[INFO] testing connection to the target URL";
       "[PAYLOAD] Parameter: id (GET)";
       "[INFO] retrieved: 5.7.30"] = Some r
    ∧ vulnerabilities r = [].
Proof.
  apply no_records_without_marker. repeat constructor.
Defined.

(** Projects the fields of a state that a branch has written. *)
Ltac simpl_state :=
  cbn [collected res found current_section target_url with_res with_collected
       with_section with_found with_target_url info databases put_info
       dbms set_dbms set_target set_vulnerable ensure_database].

(** One line leaves the DBMS of the result and of the collected data
    as they are, or sets both to the same name. *)
Lemma parse_line_dbms (st st' : locals) (raw : string) :
  parse_line st raw = Some st' →
  (info (collected st') !! "dbms" = info (collected st) !! "dbms"
   ∧ dbms (res st') = dbms (res st))
  ∨ info (collected st') !! "dbms" = Some (dbms (res st')).
Proof.
  open_parse_line raw Hline param Hparam; [|intros [= <-]; by left].
  clear Hparam Hline. generalize (Py.strip raw). intros line.
  assert (Htable : ∀ name table d,
            info (add_table name table (ensure_database name d)) = info d).
  { intros name table d. unfold add_table. cbn [databases ensure_database].
    destruct (_ !! name); [|done]. by case_bool_decide. }
  repeat first
    [ by (intros [= <-]; left)
    | by (intros [= <-]; left; simpl_state; rewrite ?Htable;
          rewrite ?lookup_insert_ne by done; done)
    | by (intros [= <-]; right; simpl_state; by rewrite lookup_insert_eq)
    | next_branch ].
Qed.

(** X16: the DBMS of the result and the one in its database information
    never differ: either no line named a DBMS and the result says
    [Unknown], or both hold the name of the last such line. *)
Theorem dbms_fields_agree (now : string) (command lines : list string) :
  ∃ r,
    _parse_results now command lines = Some r
    ∧ (info (database_info r) !! "dbms" = None ∧ dbms r = "Unknown"
       ∨ info (database_info r) !! "dbms" = Some (dbms r)).
Proof.
  unfold _parse_results. cbv zeta.
  destruct (parse_lines_total lines (start (initial_result now lines)))
    as (st & Hst).
  destruct (parse_output_of_state command lines _ st Hst)
    as (r & Hr & _ & _ & Hd & Hdbms & _).
  exists r. split; [exact Hr|]. rewrite Hd, Hdbms. clear Hr Hd Hdbms.
  assert (Hinv : info (collected (start (initial_result now lines))) !! "dbms"
                 = None
                 ∧ dbms (res (start (initial_result now lines))) = "Unknown"
                 ∨ info (collected (start (initial_result now lines))) !! "dbms"
                   = Some (dbms (res (start (initial_result now lines)))))
    by (left; done).
  revert Hst Hinv. generalize (start (initial_result now lines)).
  induction lines as [|line lines' IH]; intros st0 Hst Hinv.
  - by injection Hst as <-.
  - cbn [parse_lines] in Hst.
    destruct (parse_line st0 line) as [st1|] eqn:H1; [|done]. cbn in Hst.
    apply (IH st1 Hst).
    destruct (parse_line_dbms _ _ _ H1) as [[-> ->]|?]; [done|by right].
Qed.

Lemma ensure_database_grows (name : string) (d : db_info) :
  schema_grows d (ensure_database name d).
Proof.
  intros dbs n e Hdbs He. unfold ensure_database. rewrite Hdbs. cbn.
  destruct (dbs !! name) eqn:Hname.
  - by exists dbs, e.
  - exists (<[name := {| tables := [] |}]> dbs), e.
    split; [done|]. split; [|done]. rewrite lookup_insert_ne; [done|].
    intros ->. congruence.
Qed.

Lemma add_table_grows (name table : string) (d : db_info) :
  schema_grows d (add_table name table d).
Proof.
  intros dbs n e Hdbs He. unfold add_table. rewrite Hdbs.
  destruct (dbs !! name) as [e0|] eqn:Hname; [|by exists dbs, e].
  case_bool_decide; [by exists dbs, e|]. cbn.
  destruct (decide (name = n)) as [->|Hne].
  - eexists _, _. split; [done|]. rewrite lookup_insert_eq. split; [done|].
    cbn. rewrite Hname in He. injection He as ->. by apply prefix_app_r.
  - eexists _, e. split; [done|]. by rewrite lookup_insert_ne.
Qed.

Lemma schema_grows_trans (d1 d2 d3 : db_info) :
  schema_grows d1 d2 → schema_grows d2 d3 → schema_grows d1 d3.
Proof.
  intros H12 H23 dbs n e Hdbs He.
  destruct (H12 dbs n e Hdbs He) as (dbs2 & e2 & Hdbs2 & He2 & Hp2).
  destruct (H23 dbs2 n e2 Hdbs2 He2) as (dbs3 & e3 & Hdbs3 & He3 & Hp3).
  exists dbs3, e3. split; [done|]. split; [done|]. by etrans.
Qed.

Lemma collected_step_grows (d d' : db_info) :
  collected_step d d' → schema_grows d d'.
Proof.
  destruct 1.
  - intros dbs n e ? ?. by exists dbs, e.
  - intros dbs n e ? ?. by exists dbs, e.
  - apply ensure_database_grows.
  - eapply schema_grows_trans; [apply ensure_database_grows|apply add_table_grows].
Qed.

Lemma parse_lines_grows (lines : list string) : ∀ st st',
  parse_lines st lines = Some st' → schema_grows (collected st) (collected st').
Proof.
  induction lines as [|line lines IH]; intros st st' Hst.
  - injection Hst as <-. intros dbs n e ? ?. by exists dbs, e.
  - cbn [parse_lines] in Hst.
    destruct (parse_line st line) as [st1|] eqn:H1; [|done]. cbn in Hst.
    eapply schema_grows_trans; [|by apply IH].
    by eapply collected_step_grows, parse_line_collected.
Qed.

(** The loop neither reads nor writes [result['timestamp']]. *)
Lemma parse_line_timestamp (x : string) (st : locals) (raw : string) :
  parse_line (with_res (set_timestamp x) st) raw
  = with_res (set_timestamp x) <$> parse_line st raw.
Proof.
  unfold parse_line. cbv zeta.
  destruct (Shlex.nonempty (Py.strip raw)) eqn:Hline; cbn [negb]; [|done].
  destruct (param_of_stripped raw Hline) as (param & ->). cbn [mbind option_bind].
  generalize (Py.strip raw). intros line.
  change (in_section ?s (with_res _ st)) with (in_section s st).
  change (target_url (with_res _ st)) with (target_url st).
  change (vulnerable (res (with_res (set_timestamp x) st)))
    with (vulnerable (res st)).
  repeat first [ reflexivity | next_branch ].
Qed.

Lemma parse_lines_timestamp (x : string) (lines : list string) : ∀ st,
  parse_lines (with_res (set_timestamp x) st) lines
  = with_res (set_timestamp x) <$> parse_lines st lines.
Proof.
  induction lines as [|line lines IH]; intros st; [done|].
  cbn [parse_lines]. rewrite parse_line_timestamp.
  destruct (parse_line st line) as [st1|]; cbn; [apply IH|done].
Qed.

(** X17: more output never takes a finding back: the records of the
    result of [l1] are the first records of the result of [l1 ++ l2], and
    every database of the first is in the second, with its tables and
    maybe more after them. *)
Theorem findings_only_grow (now now' : string) (command command' : list string)
    (l1 l2 : list string) :
  ∃ r1 r2,
    _parse_results now command l1 = Some r1
    ∧ _parse_results now' command' (l1 ++ l2) = Some r2
    ∧ vulnerabilities r1 `prefix_of` vulnerabilities r2
    ∧ schema_grows (database_info r1) (database_info r2).
Proof.
  unfold _parse_results. cbv zeta.
  destruct (parse_lines_total l1 (start (initial_result now l1))) as (st1 & Hst1).
  destruct (parse_output_of_state command l1 _ st1 Hst1)
    as (r1 & Hr1 & _ & Hvs1 & Hd1 & _).
  destruct (parse_lines_total (l1 ++ l2) (start (initial_result now' (l1 ++ l2))))
    as (st2 & Hst2).
  destruct (parse_output_of_state command' (l1 ++ l2) _ st2 Hst2)
    as (r2 & Hr2 & _ & Hvs2 & Hd2 & _).
  exists r1, r2. split; [exact Hr1|]. split; [exact Hr2|].
  rewrite Hvs1, Hvs2, Hd1, Hd2. clear Hr1 Hr2 Hvs1 Hvs2 Hd1 Hd2.
  change (start (initial_result now' (l1 ++ l2)))
    with (with_res (set_raw_output (Py.join (String "010" "") (l1 ++ l2)))
            (with_res (set_timestamp now') (start (initial_result now l1))))
    in Hst2.
  rewrite parse_lines_raw_output, parse_lines_timestamp, parse_lines_app, Hst1
    in Hst2.
  cbn [mbind option_bind] in Hst2.
  destruct (parse_lines st1 l2) as [st3|] eqn:Hst3; [|done].
  injection Hst2 as <-. cbn [found collected with_res].
  split; [|by apply (parse_lines_grows l2)].
  apply (parse_lines_found l2 st1 st3 Hst3).
  by apply (parse_lines_found l1 _ st1 Hst1).
Qed.

(** X27: a line that holds [[INFO] retrieved:] but nowhere [retrieved: ]
    with its blank, as a line does whose value is empty, is split at
    nothing: in the user section the whole stripped line becomes the
    current user, and in the version section the version. *)
Theorem retrieved_without_value (st : locals) (raw : string) :
  Py.contains "[INFO] retrieved:" (Py.strip raw) = true →
  Py.contains "retrieved: " (Py.strip raw) = false →
  taken_before_retrieved st (Py.strip raw) = false →
  (in_section user_info st = false →
   Py.contains "[INFO] fetching database server version" (Py.strip raw) = false) →
  ∃ st',
    parse_line st raw = Some st'
    ∧ (current_section st = Some user_info →
       info (collected st') !! "current_user" = Some (Py.strip raw))
    ∧ (current_section st = Some version_info →
       info (collected st') !! "version" = Some (Py.strip raw)).
Proof.
  intros Hretrieved Hblank Hbefore Hversion.
  assert (Hlast : Py.strip (Py.last_piece (Py.strip raw) "retrieved: ")
                  = Py.strip raw).
  { unfold Py.last_piece, Py.split. rewrite split_go_none by done.
    cbn [List.last]. by rewrite app_empty_l, strip_twice. }
  clear Hblank.
  unfold parse_line. cbv zeta.
  assert (Hline : Shlex.nonempty (Py.strip raw) = true).
  { destruct (Py.strip raw); [discriminate Hretrieved|done]. }
  rewrite Hline. cbn [negb]. revert Hlast Hretrieved Hbefore Hversion.
  generalize (Py.strip raw). intros line Hlast Hretrieved Hbefore Hversion.
  unfold taken_before_retrieved in Hbefore.
  repeat (apply orb_false_iff in Hbefore as [Hbefore ?]).
  repeat match goal with
         | H : ?c = false |- context [if ?c then _ else _] => rewrite H
         end.
  rewrite Hretrieved, Hlast. cbn [andb]. unfold in_section in Hversion |- *.
  destruct (decide (current_section st = Some user_info)) as [Huser|Huser].
  { rewrite (bool_decide_eq_true_2 _ Huser).
    eexists. split; [reflexivity|]. cbn. rewrite lookup_insert_eq.
    split; intros; congruence. }
  rewrite (bool_decide_eq_false_2 _ Huser) in Hversion |- *.
  rewrite Hversion by done.
  destruct (decide (current_section st = Some version_info)) as [Hvers|Hvers].
  { rewrite (bool_decide_eq_true_2 _ Hvers).
    eexists. split; [reflexivity|]. cbn. rewrite lookup_insert_eq.
    split; intros; congruence. }
  rewrite (bool_decide_eq_false_2 _ Hvers).
  destruct (vulnerable (res st)); cbn [negb];
    (eexists; split; [reflexivity|]); split; intros; congruence.
Qed.

Lemma retrieved_without_value_witness :
  ∃ st',
    parse_line (with_section user_info (start (initial_result "" [])))
      "[12:00:01] [INFO] retrieved: " = Some st'
    ∧ info (collected st') !! "current_user"
      = Some "[12:00:01] [INFO] retrieved:".
Proof.
  edestruct (retrieved_without_value
               (with_section user_info (start (initial_result "" [])))
               "[12:00:01] [INFO] retrieved: ")
    as (st' & Hst & Huser & _).
  - vm_compute. reflexivity.
  - vm_compute. reflexivity.
  - vm_compute. reflexivity.
  - vm_compute. discriminate.
  - exists st'. split; [exact Hst|]. exact (Huser eq_refl).
Defined.

End MoreParserFacts.

(** ** The tables of a database, in the order of the output *)

Section TableFacts.

Import SubprocessRunner.

Lemma plain_name_char (s : string) (d : ascii) :
  plain_name s = true → name_char d = false → Py.char_in d s = false.
Proof.
  intros Hs Hd. induction s as [|c s IH]; [done|]. cbn in Hs |- *.
  apply andb_true_iff in Hs as [Hc Hs]. rewrite IH by done.
  destruct (Ascii.eqb_spec d c) as [->|]; [congruence|done].
Qed.

Lemma prefix_cut (q : ascii) (y : string) : ∀ x sep,
  Py.char_in q sep = false →
  String.prefix sep (x +:+ String q y) = String.prefix sep x.
Proof.
  induction x as [|c x IH]; intros sep Hq.
  - rewrite app_empty_l. destruct sep as [|a sep]; [done|]. cbn in Hq |- *.
    apply orb_false_iff in Hq as [Hqa _].
    destruct (ascii_dec a q) as [->|]; [|done].
    by rewrite Ascii.eqb_refl in Hqa.
  - rewrite app_String. destruct sep as [|a sep]; [done|]. cbn in Hq |- *.
    apply orb_false_iff in Hq as [_ Hq].
    destruct (ascii_dec a c); [by apply IH|done].
Qed.

(** A text cut at a character that the sought text does not hold has
    it on one side of the cut or not at all. *)
Lemma contains_cut (q : ascii) (sep y : string) : ∀ x,
  sep ≠ "" → Py.char_in q sep = false →
  Py.contains sep (x +:+ String q y) = Py.contains sep x || Py.contains sep y.
Proof.
  intros x Hsep Hq. induction x as [|c x IH].
  - pose proof (prefix_cut q y "" sep Hq) as Hpre.
    rewrite app_empty_l in Hpre |- *. cbn [Py.contains]. rewrite Hpre.
    by destruct sep.
  - pose proof (prefix_cut q y (String c x) sep Hq) as Hpre.
    rewrite app_String in Hpre |- *. cbn [Py.contains].
    by rewrite Hpre, IH, orb_assoc.
Qed.

Lemma contains_char (d : ascii) (sep : string) : ∀ v,
  Py.char_in d sep = true → Py.char_in d v = false →
  Py.contains sep v = false.
Proof.
  intros v Hd. induction v as [|c v IH]; intros Hv.
  - destruct sep; [done|]. done.
  - cbn [Py.contains]. cbn in Hv. apply orb_false_iff in Hv as [Hc Hv].
    rewrite IH, orb_false_r by done.
    destruct (String.prefix sep (String c v)) eqn:Hpre; [|done].
    apply prefix_app in Hpre as (rest & Hrest).
    apply (f_equal (Py.char_in d)) in Hrest.
    rewrite char_in_app, Hd in Hrest. cbn in Hrest. by rewrite Hc, Hv in Hrest.
Qed.

Lemma contains_here (sep s : string) :
  String.prefix sep s = true → Py.contains sep s = true.
Proof. intros H. destruct s; cbn [Py.contains]; by rewrite H. Qed.

Lemma contains_app_r (sep x y : string) :
  Py.contains sep y = true → Py.contains sep (x +:+ y) = true.
Proof.
  intros H. induction x as [|c x IH]; [done|]. rewrite app_String.
  cbn [Py.contains]. by rewrite IH, orb_true_r.
Qed.

Lemma contains_cons (sep : string) (c : ascii) (s : string) :
  Py.contains sep s = true → Py.contains sep (String c s) = true.
Proof. intros H. cbn [Py.contains]. by rewrite H, orb_true_r. Qed.

Lemma contains_mid (sep x y : string) :
  Py.contains sep (x +:+ sep +:+ y) = true.
Proof. apply contains_app_r, contains_here, prefix_app_same. Qed.

(** A text before the first separator that does not hold the first
    character of the separator is the first piece. *)
Lemma split_go_pass (a : ascii) (sep' t : string) : ∀ x cur,
  Py.char_in a x = false →
  Py.split_go (String a sep') 0 cur (x +:+ t)
  = Py.split_go (String a sep') 0 (cur +:+ x) t.
Proof.
  induction x as [|c x IH]; intros cur Hx.
  - by rewrite app_empty_l, app_empty_r.
  - cbn in Hx. apply orb_false_iff in Hx as [Hc Hx].
    rewrite app_String. cbn [Py.split_go String.prefix].
    destruct (ascii_dec a c) as [->|]; [by rewrite Ascii.eqb_refl in Hc|].
    rewrite IH by done. by rewrite app_assoc, app_String, app_empty_l.
Qed.

Lemma first_piece_before (a : ascii) (sep' x rest : string) :
  Py.char_in a x = false →
  Py.first_piece (x +:+ String a sep' +:+ rest) (String a sep') = x.
Proof.
  intros Hx. unfold Py.first_piece, Py.split.
  by rewrite split_go_pass, split_go_found, app_empty_l.
Qed.

Lemma lstrip_free (p : ascii → bool) (s : string) :
  (∀ d, p d = true → Py.char_in d s = false) → Py.lstrip_with p s = s.
Proof.
  intros H. destruct s as [|c s]; [done|]. cbn.
  destruct (p c) eqn:Hc; [|done]. specialize (H c Hc). cbn in H.
  by rewrite Ascii.eqb_refl in H.
Qed.

Lemma rstrip_free (p : ascii → bool) (s : string) :
  (∀ d, p d = true → Py.char_in d s = false) → Py.rstrip_with p s = s.
Proof.
  induction s as [|c s IH]; intros H; [done|]. cbn [Py.rstrip_with].
  rewrite IH.
  - destruct s; [|done]. destruct (p c) eqn:Hc; [|done].
    specialize (H c Hc). cbn in H. by rewrite Ascii.eqb_refl in H.
  - intros d Hd. specialize (H d Hd). cbn in H.
    by apply orb_false_iff in H as [_ H].
Qed.

Lemma rstrip_snoc (p : ascii → bool) (q : ascii) (x : string) :
  p q = true →
  Py.rstrip_with p (x +:+ String q "") = Py.rstrip_with p x.
Proof.
  intros Hq. induction x as [|c x IH].
  - rewrite app_empty_l. cbn. by rewrite Hq.
  - rewrite app_String. cbn [Py.rstrip_with]. by rewrite IH.
Qed.

(** A plain name between single quotes, the quotes stripped. *)
Lemma strip_quoted (name : string) :
  plain_name name = true →
  Py.strip_chars SubprocessRunner.quote_chars
    (String "'" (name +:+ String "'" "")) = name.
Proof.
  intros Hname. unfold Py.strip_chars.
  assert (Hfree : ∀ d, Py.char_in d SubprocessRunner.quote_chars = true →
                       Py.char_in d name = false).
  { intros d Hd. apply plain_name_char; [done|]. unfold name_char.
    by rewrite Hd, !orb_true_r. }
  cbn [Py.lstrip_with].
  change (Py.char_in "'" SubprocessRunner.quote_chars) with true. cbv iota.
  destruct name as [|c name].
  - rewrite app_empty_l. reflexivity.
  - assert (Hc : Py.char_in c SubprocessRunner.quote_chars = false).
    { cbn in Hname. apply andb_true_iff in Hname as [Hc _].
      unfold name_char in Hc. apply negb_true_iff in Hc.
      by apply orb_false_iff in Hc as [_ Hc]. }
    rewrite app_String. cbn [Py.lstrip_with]. rewrite Hc, <- app_String.
    rewrite rstrip_snoc by reflexivity. by apply rstrip_free.
Qed.

Lemma plain_name_blank (name : string) :
  plain_name name = true → Py.char_in " " name = false.
Proof. intros H. by apply plain_name_char. Qed.

Lemma plain_name_bracket (name : string) :
  plain_name name = true → Py.char_in "[" name = false.
Proof. intros H. by apply plain_name_char. Qed.

(** A line that starts with the bracket and ends with the quote is
    stripped already. *)
Lemma strip_marked_line (x : string) :
  Py.strip (String "[" (x +:+ String "'" ""))
  = String "[" (x +:+ String "'" "").
Proof.
  unfold Py.strip. cbn [Py.lstrip_with]. change (Py.isspace "[") with false.
  cbv iota. apply (rstrip_solid _ _ "'"); [|done].
  by rewrite <- app_String, last_char_app.
Qed.

Lemma tables_line_cut (db : string) :
  tables_line db
  = "[INFO] fetching tables for database: "
    +:+ String "'" (db +:+ String "'" "").
Proof. reflexivity. Qed.

Lemma columns_line_cut (table db : string) :
  columns_line table db
  = "[INFO] fetching columns for table "
    +:+ String "'" (table +:+ String "'"
          (" in database " +:+ String "'" (db +:+ String "'" ""))).
Proof. reflexivity. Qed.

(** No text with a bracket and without a quote stands in one of the two
    lines unless it stands in their fixed parts: the names hold no
    bracket. *)
Lemma tables_line_without (m db : string) :
  plain_name db = true →
  Py.char_in "[" m && negb (Py.char_in "'" m)
  && negb (Py.contains m "[INFO] fetching tables for database: ") = true →
  Py.contains m (tables_line db) = false.
Proof.
  intros Hdb H. apply andb_true_iff in H as [H Hfixed].
  apply andb_true_iff in H as [Hbracket Hquote].
  apply negb_true_iff in Hquote, Hfixed.
  assert (Hm : m ≠ "") by (by intros ->).
  rewrite tables_line_cut, !contains_cut, Hfixed by done.
  rewrite (contains_char "[" m db) by (by try apply plain_name_bracket).
  by destruct m.
Qed.

Lemma columns_line_without (m table db : string) :
  plain_name table = true → plain_name db = true →
  Py.char_in "[" m && negb (Py.char_in "'" m)
  && negb (Py.contains m "[INFO] fetching columns for table ")
  && negb (Py.contains m " in database ") = true →
  Py.contains m (columns_line table db) = false.
Proof.
  intros Htable Hdb H. apply andb_true_iff in H as [H Hmid].
  apply andb_true_iff in H as [H Hfixed].
  apply andb_true_iff in H as [Hbracket Hquote].
  apply negb_true_iff in Hquote, Hfixed, Hmid.
  assert (Hm : m ≠ "") by (by intros ->).
  rewrite columns_line_cut, !contains_cut, Hfixed, Hmid by done.
  rewrite (contains_char "[" m table), (contains_char "[" m db)
    by (by try apply plain_name_bracket).
  by destruct m.
Qed.

Lemma quoted_without_blank (name : string) (sep : string) :
  plain_name name = true → Py.char_in " " sep = true →
  Py.contains sep (String "'" (name +:+ String "'" "")) = false.
Proof.
  intros Hname Hsep. apply (contains_char " "); [done|].
  rewrite <- app_String, char_in_app. cbn [Py.char_in].
  rewrite plain_name_blank by done. reflexivity.
Qed.

(** The line of the tables of a database makes sure that the database
    is listed. *)
Lemma tables_line_parsed (st : locals) (db : string) :
  plain_name db = true →
  parse_line st (tables_line db)
  = Some (with_collected (ensure_database db (collected st)) st).
Proof.
  intros Hdb.
  assert (Hstrip : Py.strip (tables_line db) = tables_line db).
  { unfold tables_line. rewrite app_String, <- app_assoc. apply strip_marked_line. }
  assert (Hhere : Py.contains "[INFO] fetching tables for database:"
                    (tables_line db) = true)
    by (apply contains_here; reflexivity).
  assert (Hpiece : Py.last_piece (tables_line db) "database: "
                   = String "'" (db +:+ String "'" "")).
  { change (tables_line db)
      with ("[INFO] fetching tables for "
            +:+ ("database:" +:+ String " " "")
            +:+ String "'" (db +:+ String "'" "")).
    change "database: " with ("database:" +:+ String " " "").
    apply last_piece_after; [reflexivity|]. by apply quoted_without_blank. }
  unfold parse_line. cbv zeta. rewrite Hstrip.
  change (Shlex.nonempty (tables_line db)) with true. cbn [negb].
  repeat match goal with
         | |- context [Py.contains ?m (tables_line db)] =>
             rewrite (tables_line_without m db Hdb) by reflexivity
         end.
  cbn [andb]. cbv iota. rewrite Hhere, Hpiece, strip_quoted by done.
  reflexivity.
Qed.

(** The line of the columns of a table lists the table under its
    database, the database made sure of first. *)
Lemma columns_line_parsed (st : locals) (table db : string) :
  plain_name table = true → plain_name db = true →
  parse_line st (columns_line table db)
  = Some (with_collected
            (add_table db table (ensure_database db (collected st))) st).
Proof.
  intros Htable Hdb.
  set (info := String "'" (table +:+ String "'"
                 (" in database " +:+ String "'" (db +:+ String "'" "")))).
  assert (Hstrip : Py.strip (columns_line table db) = columns_line table db).
  { unfold columns_line. rewrite app_String, <- !app_assoc.
    apply strip_marked_line. }
  assert (Hhere : Py.contains "[INFO] fetching columns for table"
                    (columns_line table db) = true)
    by (apply contains_here; reflexivity).
  assert (Htab : Py.contains "table " (columns_line table db) = true).
  { apply (contains_app_r _ "[INFO] fetching columns for "), contains_here.
    reflexivity. }
  assert (Hdat : Py.contains "database" (columns_line table db) = true).
  { apply (contains_app_r _ "[INFO] fetching columns for table '"),
      contains_app_r, (contains_app_r _ "' in "), contains_here.
    reflexivity. }
  assert (Hinfo : Py.last_piece (columns_line table db) "table " = info).
  { change (columns_line table db)
      with ("[INFO] fetching columns for "
            +:+ ("table" +:+ String " " "") +:+ info).
    change "table " with ("table" +:+ String " " "").
    apply last_piece_after; [reflexivity|]. subst info.
    rewrite <- (app_empty_l (String "'" _)), !contains_cut by done.
    rewrite (contains_char " " _ table), (contains_char " " _ db)
      by (by try apply plain_name_blank).
    reflexivity. }
  assert (Hin : Py.contains " in database" info = true).
  { subst info. apply contains_cons, contains_app_r, contains_cons, contains_here.
    reflexivity. }
  assert (Hfirst : Py.first_piece info " in database"
                   = String "'" (table +:+ String "'" "")).
  { replace info
      with (String "'" (table +:+ String "'" "")
            +:+ String " " "in database"
            +:+ String " " (String "'" (db +:+ String "'" "")))
      by (subst info; by rewrite app_String, app_assoc).
    apply first_piece_before.
    rewrite <- app_String, char_in_app. cbn [Py.char_in].
    by rewrite plain_name_blank. }
  assert (Hlast : Py.last_piece info "database "
                  = String "'" (db +:+ String "'" "")).
  { replace info
      with ((String "'" (table +:+ String "'" " in "))
            +:+ ("database" +:+ String " " "")
            +:+ String "'" (db +:+ String "'" ""))
      by (subst info; by rewrite app_String, app_assoc).
    change "database " with ("database" +:+ String " " "").
    apply last_piece_after; [reflexivity|]. by apply quoted_without_blank. }
  clearbody info.
  unfold parse_line. cbv zeta. rewrite Hstrip.
  change (Shlex.nonempty (columns_line table db)) with true. cbn [negb].
  repeat match goal with
         | |- context [Py.contains ?m (columns_line table db)] =>
             rewrite (columns_line_without m table db Htable Hdb) by reflexivity
         end.
  cbn [andb]. cbv iota. rewrite Hhere, Htab, Hdat. cbn [andb].
  rewrite Hinfo, Hin, Hfirst, Hlast, !strip_quoted by done.
  reflexivity.
Qed.

Lemma filter_all {A} (P : A → Prop) `{∀ x, Decision (P x)} (l : list A) :
  Forall P l → filter P l = l.
Proof.
  induction 1 as [|x l Hx _ IH]; [done|].
  by rewrite filter_cons_True, IH.
Qed.

(** Adding one more name to the names met so far, then the first
    appearances of the rest that are new. *)
Lemma first_appearances_step (acc : list string) (t : string) (l : list string) :
  (if bool_decide (t ∈ acc) then acc else acc ++ [t])
  ++ filter (λ y, y ∉ (if bool_decide (t ∈ acc) then acc else acc ++ [t])) l
  = acc ++ filter (λ y, y ∉ acc) (t :: filter (λ y, y ≠ t) l).
Proof.
  case_bool_decide as Ht.
  - rewrite filter_cons_False by (intros Hn; by apply Hn).
    f_equal. rewrite list_filter_filter. apply list_filter_iff.
    intros y. split; [|by intros [? _]]. intros Hy. split; [done|].
    intros ->. by apply Hy.
  - rewrite filter_cons_True by done. rewrite <- (assoc_L (++)). cbn [app].
    do 2 f_equal. rewrite list_filter_filter. apply list_filter_iff.
    intros y. rewrite not_elem_of_app, list_elem_of_singleton. tauto.
Qed.

(** The lines of the columns of a list of tables of one database leave
    under the database, after the tables met before, the new ones in the
    order of their first appearance. *)
Lemma columns_lines_parsed (db : string) (ts : list string) :
  plain_name db = true → Forall (λ t, plain_name t = true) ts →
  ∀ st acc,
    databases (collected st) = Some {[ db := {| tables := acc |} ]} →
    ∃ st',
      parse_lines st ((λ t, columns_line t db) <$> ts) = Some st'
      ∧ databases (collected st')
        = Some {[ db := {| tables :=
                    acc ++ filter (λ y, y ∉ acc) (first_appearances ts) |} ]}.
Proof.
  intros Hdb Hts. induction Hts as [|t ts Ht _ IH]; intros st acc Hst.
  - exists st. split; [done|]. cbn [first_appearances].
    by rewrite filter_nil, (right_id_L [] (++)).
  - cbn [fmap list_fmap parse_lines]. rewrite columns_line_parsed by done.
    cbn [mbind option_bind].
    destruct (IH (with_collected
                    (add_table db t (ensure_database db (collected st))) st)
                (if bool_decide (t ∈ acc) then acc else acc ++ [t]))
      as (st' & Hst' & Hdbs).
    { cbn [collected with_collected]. unfold add_table, ensure_database.
      cbv zeta. rewrite Hst. cbn [default from_option id databases].
      rewrite lookup_singleton_eq. cbn [databases].
      rewrite lookup_singleton_eq. cbn [tables].
      case_bool_decide; cbn [databases]; [done|].
      by rewrite insert_singleton_eq. }
    exists st'. split; [done|]. rewrite Hdbs. cbn [first_appearances].
    by rewrite first_appearances_step.
Qed.

(** C5: the line of the tables of [shop] followed by the line of the
    columns of [users] in [shop] lists [users] under [shop], and the
    columns line once more changes nothing.  In general: after the line
    of the tables of a database, the lines of the columns of any tables
    of it leave under the database the tables in the order in which they
    first appear, each once; whatever the lines, no table is listed twice
    under a database; and more lines only add tables after those that are
    listed. *)
Theorem columns_line_lists_table_once (now : string) (command : list string) :
  (∃ r,
     _parse_results now command
       ["[INFO] fetching tables for database: 'shop'";
        "[INFO] fetching columns for table 'users' in database 'shop'"]
     = Some r
     ∧ databases (database_info r)
       = Some {[ "shop" := {| tables := ["users"] |} ]})
  ∧ (∃ r,
       _parse_results now command
         ["[INFO] fetching tables for database: 'shop'";
          "[INFO] fetching columns for table 'users' in database 'shop'";
          "[INFO] fetching columns for table 'users' in database 'shop'"]
       = Some r
       ∧ databases (database_info r)
         = Some {[ "shop" := {| tables := ["users"] |} ]})
  ∧ (∀ db ts,
       plain_name db = true → Forall (λ t, plain_name t = true) ts →
       ∃ r,
         _parse_results now command
           (tables_line db :: ((λ t, columns_line t db) <$> ts))
         = Some r
         ∧ databases (database_info r)
           = Some {[ db := {| tables := first_appearances ts |} ]})
  ∧ (∀ lines, ∃ r,
       _parse_results now command lines = Some r
       ∧ tables_nodup (database_info r))
  ∧ (∀ l1 l2, ∃ r1 r2,
       _parse_results now command l1 = Some r1
       ∧ _parse_results now command (l1 ++ l2) = Some r2
       ∧ schema_grows (database_info r1) (database_info r2)).
Proof.
  unfold _parse_results. cbv zeta. split; [|split; [|split; [|split]]].
  - match goal with
    | |- context [_parse_sqlmap_output ?c ?l ?r0] =>
        destruct (parse_output_of_state c l r0 _ ltac:(vm_compute; reflexivity))
          as (r & Hr & _ & _ & Hd & _)
    end.
    exists r. split; [exact Hr|]. rewrite Hd. vm_compute. reflexivity.
  - match goal with
    | |- context [_parse_sqlmap_output ?c ?l ?r0] =>
        destruct (parse_output_of_state c l r0 _ ltac:(vm_compute; reflexivity))
          as (r & Hr & _ & _ & Hd & _)
    end.
    exists r. split; [exact Hr|]. rewrite Hd. vm_compute. reflexivity.
  - intros db ts Hdb Hts.
    set (lines := tables_line db :: ((λ t, columns_line t db) <$> ts)).
    set (st1 := with_collected
                  (ensure_database db
                     (collected (start (initial_result now lines))))
                  (start (initial_result now lines))).
    destruct (columns_lines_parsed db ts Hdb Hts st1 []) as (st & Hst & Hdbs).
    { subst st1. cbn [collected with_collected start initial_result].
      unfold ensure_database. cbv zeta. cbn [default from_option id databases].
      rewrite lookup_empty. by rewrite insert_empty. }
    assert (Hlines : parse_lines (start (initial_result now lines)) lines
                     = Some st).
    { unfold lines at 2. cbn [parse_lines].
      rewrite tables_line_parsed by done. exact Hst. }
    destruct (parse_output_of_state command lines _ st Hlines)
      as (r & Hr & _ & _ & Hd & _).
    exists r. split; [exact Hr|]. rewrite Hd, Hdbs. cbn [app].
    rewrite filter_all; [done|].
    apply Forall_forall. intros y _. apply not_elem_of_nil.
  - intros lines.
    match goal with
    | |- context [_parse_sqlmap_output ?c ?l ?r0] =>
        destruct (parse_lines_total l (start r0)) as (st & Hst);
        destruct (parse_output_of_state c l r0 st Hst)
          as (r & Hr & _ & _ & Hd & _)
    end.
    exists r. split; [exact Hr|]. rewrite Hd.
    apply (parse_lines_nodup lines _ st Hst). intros dbs name e Hdbs. discriminate Hdbs.
  - intros l1 l2.
    destruct (parse_lines_total l1 (start (initial_result now l1)))
      as (st1 & Hst1).
    destruct (parse_output_of_state command l1 _ st1 Hst1)
      as (r1 & Hr1 & _ & _ & Hd1 & _).
    destruct (parse_lines_total (l1 ++ l2)
                (start (initial_result now (l1 ++ l2)))) as (st2 & Hst2).
    destruct (parse_output_of_state command (l1 ++ l2) _ st2 Hst2)
      as (r2 & Hr2 & _ & _ & Hd2 & _).
    exists r1, r2. split; [exact Hr1|]. split; [exact Hr2|].
    rewrite Hd1, Hd2. clear Hr1 Hr2 Hd1 Hd2.
    change (start (initial_result now (l1 ++ l2)))
      with (with_res (set_raw_output (Py.join (String "010" "") (l1 ++ l2)))
              (start (initial_result now l1))) in Hst2.
    rewrite parse_lines_raw_output, parse_lines_app, Hst1 in Hst2.
    cbn [mbind option_bind] in Hst2.
    destruct (parse_lines st1 l2) as [st3|] eqn:Hst3; [|done].
    injection Hst2 as <-. cbn [collected with_res].
    by apply (parse_lines_grows l2).
Qed.

End TableFacts.

(** ** The target of the result, taken from the command *)

Section FallbackFacts.

Import SubprocessRunner.

Ltac next_branch :=
  match goal with
  | |- context [if ?c then _ else _] =>
      lazymatch c with
      | context [if _ then _ else _] => fail
      | _ => destruct c eqn:?
      end
  | |- context [match quoted_text ?l with _ => _ end] =>
      destruct (quoted_text l) eqn:?
  end.

(** A line that names no target leaves the target alone. *)
Lemma parse_line_target (st st' : locals) (raw : string) :
  target_url st = None →
  names_target raw = false →
  parse_line st raw = Some st' →
  target (res st') = target (res st) ∧ target_url st' = None.
Proof.
  intros Hu Hn. unfold names_target in Hn.
  apply orb_false_iff in Hn as [Hn H3]. apply orb_false_iff in Hn as [H1 H2].
  unfold parse_line. cbv zeta.
  destruct (Shlex.nonempty (Py.strip raw)) eqn:Hline; cbn [negb];
    [|by intros [= <-]].
  destruct (param_of_stripped raw Hline) as (param & ->).
  cbn [mbind option_bind]. rewrite Hu, H1, H2, H3. cbv iota. clear -Hu.
  generalize (Py.strip raw). intros line.
  repeat first [ by intros [= <-] | next_branch ].
Qed.

Lemma parse_lines_target (lines : list string) : ∀ st st',
  target_url st = None →
  Forall (λ line, names_target line = false) lines →
  parse_lines st lines = Some st' →
  target (res st') = target (res st).
Proof.
  induction lines as [|line lines IH]; intros st st' Hu Hlines Hst.
  - by injection Hst as <-.
  - apply Forall_cons in Hlines as [Hline Hlines]. cbn [parse_lines] in Hst.
    destruct (parse_line st line) as [st1|] eqn:H1; [|done]. cbn in Hst.
    destruct (parse_line_target _ _ _ Hu Hline H1) as [<- Hu1]. by apply IH.
Qed.

Lemma index_after (head tail : list string) :
  Forall (λ a, no_target_word a = true) head →
  index (head ++ "-u" :: tail) "-u" = length head.
Proof.
  induction 1 as [|a head Ha _ IH]; [done|]. cbn [app index length].
  unfold no_target_word in Ha. apply andb_true_iff in Ha as [_ Ha].
  apply negb_true_iff in Ha. by rewrite Ha, IH.
Qed.

Lemma target_from_command_skips (command head args : list string) :
  Forall (λ a, no_target_word a = true) head →
  target_from_command command (head ++ args) = target_from_command command args.
Proof.
  induction 1 as [|a head Ha _ IH]; [done|]. cbn [app target_from_command].
  unfold no_target_word in Ha. apply andb_true_iff in Ha as [Ha1 Ha2].
  apply negb_true_iff in Ha1, Ha2. by rewrite Ha1, Ha2.
Qed.

Lemma target_from_command_url (head tail : list string) (u : string) :
  Forall (λ a, no_target_word a = true) head →
  target_from_command (head ++ "-u" :: u :: tail) (head ++ "-u" :: u :: tail)
  = Some u.
Proof.
  intros Hhead. rewrite target_from_command_skips by done.
  cbn [target_from_command]. rewrite index_after by done.
  change (Py.startswith "-u" "http://" || Py.startswith "-u" "https://")
    with false.
  change ("-u" =? "-u")%string with true. cbn [andb].
  replace (_ <? _)%nat with true.
  - rewrite lookup_app_r by lia.
    by replace (length head + 1 - length head)%nat with 1%nat by lia.
  - symmetry. apply Nat.ltb_lt. rewrite length_app. cbn. lia.
Qed.

(** X18: a scan of a URL whose output names no target still reports
    it: when the launcher words of the command are neither an address nor
    [-u] and no line is one of those the parser takes the target from,
    the target of the result is the URL given to [build_command], whether
    or not it is a well-formed address. *)
Theorem target_falls_back_to_url (sys : CommandBuilder.Sys)
    (self : CommandBuilder.Builder) (t : CommandBuilder.Target)
    (options : CommandBuilder.Options) (u now : string)
    (lines : list string) :
  CommandBuilder.url t = Some u →
  no_target_word (CommandBuilder.sqlmap_path self) = true →
  no_target_word (CommandBuilder.executable sys) = true →
  Forall (λ line, names_target line = false) lines →
  ∃ r,
    _parse_results now (CommandBuilder.build_command sys self t options) lines
    = Some r
    ∧ target r = u.
Proof.
  intros Hurl Hpath Hexe Hlines.
  assert (∃ head tail,
            CommandBuilder.build_command sys self t options
            = head ++ "-u" :: u :: tail
            ∧ Forall (λ a, no_target_word a = true) head)
    as (head & tail & -> & Hhead).
  { unfold CommandBuilder.build_command, CommandBuilder._build_target_args.
    cbv zeta. rewrite Hurl. cbn [CommandBuilder.pair_arg app id].
    rewrite <- !(assoc_L (++)). cbn [app].
    eexists _, _. split; [reflexivity|].
    destruct (CommandBuilder.endswith _ _);
      [destruct (CommandBuilder.frozen sys)|]; by repeat constructor. }
  unfold _parse_results, _parse_sqlmap_output. cbv zeta.
  destruct (parse_lines_total lines (start (initial_result now lines)))
    as (st & Hst).
  rewrite Hst. cbn [mbind option_bind].
  cbn [target set_parsed].
  rewrite (parse_lines_target lines (start (initial_result now lines)) st
             eq_refl Hlines Hst).
  cbn [target res start initial_result].
  change ("Unknown" =? "Unknown")%string with true.
  rewrite bool_decide_eq_false_2 by (by destruct head).
  cbn [andb negb]. rewrite target_from_command_url by done.
  eexists. split; reflexivity.
Qed.

Lemma target_falls_back_to_url_witness :
  ∃ r,
    _parse_results "12:00:00"
      (CommandBuilder.build_command plain_sys plain_builder
         (url_target "localhost/item.php?id=1") plain_options)
      ["[INFO] the back-end DBMS is MySQL"]
    = Some r
    ∧ target r = "localhost/item.php?id=1".
Proof.
  apply target_falls_back_to_url; [reflexivity..|repeat constructor].
Defined.

End FallbackFacts.

(** ** The runner thread: [run] and [stop] *)

Section RunnerFacts.

Import SubprocessRunner.

Lemma streamed_stripped (reads : list string) (line : string) :
  line ∈ streamed reads → Py.rstrip_with Py.isspace line = line.
Proof.
  induction reads as [|r reads IH]; cbn [streamed]; [by intros ?%elem_of_nil|].
  destruct (Shlex.nonempty r); [|done].
  intros [->|Hin]%elem_of_cons; [apply rstrip_twice|by apply IH].
Qed.

Lemma drained_stripped (lines : list string) (line : string) :
  line ∈ drained lines →
  Py.rstrip_with Py.isspace line = line ∧ Shlex.nonempty line = true.
Proof.
  induction lines as [|r lines IH]; cbn [drained]; [by intros ?%elem_of_nil|].
  destruct (Shlex.nonempty (Py.strip r)) eqn:Hr; [|done].
  intros [->|Hin]%elem_of_cons; [|by apply IH].
  split; [apply rstrip_twice|done].
Qed.

(** X19: every run emits the lines it kept and then at most one
    closing signal.  When [Popen], a [readline()], [read()] or [wait()]
    raised an [Exception], it is [scan_failed] with the text of the
    exception, also after lines were emitted and whatever the process
    returns; when what was raised is no [Exception], there is none.
    Otherwise it is [scan_completed] for the return code 0, with the
    result of parsing the emitted lines, which cannot fail and has their
    join as raw output, and [scan_failed] with the code for any other. *)
Theorem run_ends_with_one_signal (now : string) (command : list string)
    (t : Transcript) :
  ∃ lines closing,
    run now command t = (output_received <$> lines) ++ closing
    ∧ lines = match spawn_error t with
              | Some _ => []
              | None => output_lines t
              end
    ∧ match first_failure t with
      | Some (exception message) => closing = [scan_failed message]
      | Some base_exception => closing = []
      | None =>
          ∃ return_code,
            wait_result t = gives return_code
            ∧ if return_code =? 0 then
                ∃ r, closing = [scan_completed r]
                     ∧ _parse_results now command lines = Some r
                     ∧ raw_output r = Py.join (String "010" "") lines
              else
                closing
                = [scan_failed
                     ("Process exited with code " +:+ Py.str_int return_code)]
      end.
Proof.
  unfold run, first_failure, output_lines.
  destruct (spawn_error t) as [e|].
  { exists [], (reported e). split; [done|]. split; [done|]. by destruct e. }
  destruct (readline_error t) as [e|].
  { eexists _, (reported e). rewrite (right_id_L [] (++)).
    split; [done|]. split; [done|]. by destruct e. }
  assert (Hend : ∃ closing,
            match wait_result t with
            | fails e => reported e
            | gives return_code =>
                if return_code =? 0 then
                  match
                    _parse_results now command (streamed (reads t) ++ left_over t)
                  with
                  | Some result => [scan_completed result]
                  | None => [scan_failed "list index out of range"]
                  end
                else
                  [scan_failed
                     ("Process exited with code " +:+ Py.str_int return_code)]
            end = closing
            ∧ match wait_result t with
              | fails (exception message) => closing = [scan_failed message]
              | fails base_exception => closing = []
              | gives _ =>
                  ∃ return_code,
                    wait_result t = gives return_code
                    ∧ if return_code =? 0 then
                        ∃ r, closing = [scan_completed r]
                             ∧ _parse_results now command
                                 (streamed (reads t) ++ left_over t) = Some r
                             ∧ raw_output r
                               = Py.join (String "010" "")
                                   (streamed (reads t) ++ left_over t)
                      else
                        closing
                        = [scan_failed
                             ("Process exited with code "
                              +:+ Py.str_int return_code)]
              end).
  { destruct (wait_result t) as [return_code|[message|]];
      [|by eexists..].
    destruct (return_code =? 0) eqn:Hcode.
    - unfold _parse_results, _parse_sqlmap_output. cbv zeta.
      set (lines := streamed (reads t) ++ left_over t).
      destruct (parse_lines_total lines (start (initial_result now lines)))
        as (st & Hst).
      rewrite Hst. cbn [mbind option_bind].
      destruct (parse_lines_keeps _ _ _ Hst) as (_ & Hraw & _).
      eexists. split; [reflexivity|]. exists return_code.
      split; [done|]. rewrite Hcode. eexists. split; [reflexivity|].
      split; [reflexivity|].
      destruct (_ && _); [destruct (target_from_command command command)|];
        cbn; by rewrite Hraw.
    - eexists. split; [reflexivity|]. exists return_code. by rewrite Hcode. }
  destruct Hend as (closing & Hrun & Hclosing). rewrite Hrun.
  destruct (remaining_output t) as [[remaining|e]|] eqn:Hrem.
  - exists (streamed (reads t) ++ left_over t), closing.
    rewrite fmap_app, <- (assoc_L (++)). split; [done|]. split; [done|].
    by destruct (wait_result t) as [?|[?|]].
  - exists (streamed (reads t)), (reported e).
    unfold left_over. rewrite Hrem, (right_id_L [] (++)).
    split; [done|]. split; [done|]. by destruct e.
  - exists (streamed (reads t) ++ left_over t), closing.
    rewrite fmap_app, <- (assoc_L (++)). split; [done|]. split; [done|].
    by destruct (wait_result t) as [?|[?|]].
Qed.

(** X20: no line that [run] keeps and emits ends in white space, so none
    carries its line terminator; a line kept from the output that was left
    when the loop ended is, in addition, not empty. *)
Theorem kept_lines_are_stripped (t : Transcript) (line : string) :
  line ∈ output_lines t →
  Py.rstrip_with Py.isspace line = line
  ∧ (line ∉ streamed (reads t) → Shlex.nonempty line = true).
Proof.
  unfold output_lines, left_over. intros [Hin|Hin]%elem_of_app.
  - split; [by eapply streamed_stripped|done].
  - destruct (readline_error t); [by apply elem_of_nil in Hin|].
    destruct (remaining_output t) as [[remaining|?]|];
      [|by apply elem_of_nil in Hin..].
    destruct (Shlex.nonempty remaining); [|by apply elem_of_nil in Hin].
    apply drained_stripped in Hin as [? ?]. by split.
Qed.

Lemma kept_lines_are_stripped_witness :
  Py.rstrip_with Py.isspace "[INFO] resuming" = "[INFO] resuming"
  ∧ ("[INFO] resuming"
     ∉ streamed (reads {| spawn_error := None;
                          reads := [String "010" ""];
                          readline_error := None;
                          remaining_output := Some (gives "  [INFO] resuming  ");
                          wait_result := gives 0 |})
     → Shlex.nonempty "[INFO] resuming" = true).
Proof.
  apply (kept_lines_are_stripped
           {| spawn_error := None; reads := [String "010" ""];
              readline_error := None;
              remaining_output := Some (gives "  [INFO] resuming  ");
              wait_result := gives 0 |}).
  vm_compute. repeat constructor.
Defined.

(** Opens [stop] on each way its calls can end. *)
Ltac stop_cases process :=
  unfold try_except, and_then, perform;
  repeat match goal with
         | |- context [outcome process ?c] =>
             destruct (outcome process c) as [[]|] eqn:?; cbn
         end.

(** X21: [stop] waits at most twice, five seconds and then two: the
    time-outs of its [wait] calls never add up to more than seven
    seconds, whatever the process does, and nothing is called on a
    process that is absent or has ended. *)
Theorem stop_waits_at_most_seven (p : option Process) :
  0 ≤ waited (fst (stop p)) ≤ 7
  ∧ (fst (stop p) ≠ [] →
     ∃ process rest,
       p = Some process ∧ poll process = None
       ∧ fst (stop p) = terminate :: rest).
Proof.
  destruct p as [process|]; cbn [stop]; [|by split; [cbn; lia|]].
  destruct (poll process) eqn:Hpoll; [by split; [cbn; lia|]|].
  stop_cases process; (split; [lia|]); intros _; by eexists _, _.
Qed.

(** X22: [stop] kills the process exactly when it runs and the first
    attempt, [terminate()] and [wait(timeout=5)], ended in
    [TimeoutExpired]; from then on no exception leaves [stop], whatever
    [kill()] and the second [wait] raise. *)
Theorem stop_kills_only_after_timeout (p : option Process) :
  (kill ∈ fst (stop p) ↔
   ∃ process, p = Some process ∧ poll process = None ∧ timed_out process)
  ∧ (kill ∈ fst (stop p) → snd (stop p) = None).
Proof.
  destruct p as [process|]; cbn [stop].
  2: { split; [split|]; [by intros ?%elem_of_nil|by intros (? & [=] & _)
                         |by intros ?%elem_of_nil]. }
  destruct (poll process) eqn:Hpoll.
  { split; [split|]; [by intros ?%elem_of_nil
                     |intros (? & [= <-] & ? & _); congruence
                     |by intros ?%elem_of_nil]. }
  unfold timed_out.
  stop_cases process; (split; [split|]);
    first
      [ by intros _
      | by (intros Hin;
            repeat (apply elem_of_cons in Hin as [Hin|Hin]; [discriminate Hin|]);
            by apply elem_of_nil in Hin)
      | by (intros _; exists process; eauto)
      | by (intros _; repeat constructor)
      | by (intros (? & [= <-] & _ & [?|[? ?]]); congruence) ].
Qed.



End RunnerFacts.

(** ** The registry of the REST client *)

Section RegistryFacts.

Import RestApiClient.

Lemma with_status_registered (sys : CommandBuilder.Sys)
    (host : CommandBuilder.Host) (v : string) (t : task) :
  v ∈ ["created"; "running"; "stopped"] →
  registered sys host t → registered sys host (with_status v t).
Proof. intros Hv [Hcommand _]. by split. Qed.

(** X23: the methods keep the registry well formed, whatever the server
    replies: if every task holds the command built from its target and
    options and one of the statuses [created], [running] and [stopped],
    the same is true after [create_task], [start_task], [stop_task] and
    [delete_task]. *)
Theorem registry_stays_well_formed (sys : CommandBuilder.Sys)
    (host : CommandBuilder.Host) (post : reply) (tasks : gmap string task)
    (target : CommandBuilder.Target) (options : CommandBuilder.Options)
    (task_id : string) :
  map_Forall (λ _, registered sys host) tasks →
  map_Forall (λ _, registered sys host)
    (create_task sys host post tasks target options).1.2
  ∧ map_Forall (λ _, registered sys host) (start_task post tasks task_id).1.2
  ∧ map_Forall (λ _, registered sys host) (stop_task post tasks task_id).2
  ∧ map_Forall (λ _, registered sys host) (delete_task post tasks task_id).2.
Proof.
  intros Hall.
  assert (Hset : ∀ v t,
            v ∈ ["created"; "running"; "stopped"] →
            tasks !! task_id = Some t →
            map_Forall (λ _, registered sys host)
              (<[task_id := with_status v t]> tasks)).
  { intros v t Hv Ht. apply map_Forall_insert_2; [|done].
    apply with_status_registered; [done|].
    by apply (map_Forall_lookup_1 _ _ _ _ Hall Ht). }
  unfold create_task, start_task, stop_task, delete_task. cbv zeta.
  destruct post as [|status_code taskid]; [by destruct (tasks !! task_id)|].
  destruct (status_code =? 200); [|by destruct (tasks !! task_id)].
  split; [|split; [|split]].
  - destruct taskid as [new_id|]; [|done]. cbn.
    apply map_Forall_insert_2; [|done]. split; [done|]. cbn. by left.
  - destruct (tasks !! task_id) as [t|] eqn:Ht; [|done]. cbn.
    apply Hset; [|done]. by right; left.
  - cbn. destruct (tasks !! task_id) as [t|] eqn:Ht; [|done].
    apply Hset; [|done]. by right; right; left.
  - cbn. by apply map_Forall_delete.
Qed.

Lemma registry_stays_well_formed_witness :
  map_Forall (λ _, registered plain_sys bare_host)
    (create_task plain_sys bare_host (response 200 (Some "2")) one_task
       (url_target "http://example.com/?id=2") plain_options).1.2
  ∧ map_Forall (λ _, registered plain_sys bare_host)
      (start_task (response 200 (Some "2")) one_task "1").1.2
  ∧ map_Forall (λ _, registered plain_sys bare_host)
      (stop_task (response 200 (Some "2")) one_task "1").2
  ∧ map_Forall (λ _, registered plain_sys bare_host)
      (delete_task (response 200 (Some "2")) one_task "1").2.
Proof.
  apply registry_stays_well_formed. apply map_Forall_singleton.
  split; [reflexivity|]. by left.
Defined.

(** X24: a task that the server accepts at every step goes through the
    statuses [created], [running] and [stopped], each method reporting
    success, and deleting it gives back the registry from before its
    creation, when its identifier was not in use. *)
Theorem task_lifecycle (sys : CommandBuilder.Sys) (host : CommandBuilder.Host)
    (tasks : gmap string task) (target : CommandBuilder.Target)
    (options : CommandBuilder.Options) (task_id : string)
    (started stopped deleted : reply) :
  tasks !! task_id = None →
  accepted started = true → accepted stopped = true →
  accepted deleted = true →
  ∃ t1 t2 t3,
    create_task sys host (response 200 (Some task_id)) tasks target options
    = (Some task_id, t1, [task_created task_id])
    ∧ status <$> t1 !! task_id = Some "created"
    ∧ start_task started t1 task_id = (true, t2, [task_started task_id])
    ∧ status <$> t2 !! task_id = Some "running"
    ∧ stop_task stopped t2 task_id = (true, t3)
    ∧ status <$> t3 !! task_id = Some "stopped"
    ∧ delete_task deleted t3 task_id = (true, tasks).
Proof.
  intros Hfresh Hstart Hstop Hdelete.
  destruct started as [|c1 ?]; [done|]. destruct stopped as [|c2 ?]; [done|].
  destruct deleted as [|c3 ?]; [done|]. cbn in Hstart, Hstop, Hdelete.
  unfold create_task, start_task, stop_task, delete_task. cbv zeta.
  change (200 =? 200) with true. cbv iota.
  eexists _, _, _. split; [reflexivity|].
  rewrite lookup_insert_eq. split; [done|].
  rewrite Hstart. split; [reflexivity|].
  rewrite lookup_insert_eq. split; [done|].
  rewrite Hstop, lookup_insert_eq. split; [reflexivity|]. split; [done|].
  rewrite Hdelete, !insert_insert_eq, delete_insert_id by done. done.
Qed.

Lemma task_lifecycle_witness :
  ∃ t1 t2 t3,
    create_task plain_sys bare_host (response 200 (Some "1")) ∅
      (url_target "http://example.com/?id=1") plain_options
    = (Some "1", t1, [task_created "1"])
    ∧ status <$> t1 !! "1" = Some "created"
    ∧ start_task (response 200 None) t1 "1" = (true, t2, [task_started "1"])
    ∧ status <$> t2 !! "1" = Some "running"
    ∧ stop_task (response 200 None) t2 "1" = (true, t3)
    ∧ status <$> t3 !! "1" = Some "stopped"
    ∧ delete_task (response 200 None) t3 "1" = (true, ∅).
Proof.
  apply task_lifecycle; reflexivity.
Defined.

(** X25: a method changes the registry at one identifier only, the one
    it is given or, for [create_task], the one it returns: every other
    task is as before. *)
Theorem methods_touch_one_task (sys : CommandBuilder.Sys)
    (host : CommandBuilder.Host) (post : reply) (tasks : gmap string task)
    (target : CommandBuilder.Target) (options : CommandBuilder.Options)
    (task_id other : string) :
  other ≠ task_id →
  (start_task post tasks task_id).1.2 !! other = tasks !! other
  ∧ (stop_task post tasks task_id).2 !! other = tasks !! other
  ∧ (delete_task post tasks task_id).2 !! other = tasks !! other
  ∧ ((create_task sys host post tasks target options).1.1 ≠ Some other →
     (create_task sys host post tasks target options).1.2 !! other
     = tasks !! other).
Proof.
  intros Hother.
  unfold create_task, start_task, stop_task, delete_task. cbv zeta.
  destruct post as [|status_code taskid]; [by destruct (tasks !! task_id)|].
  destruct (status_code =? 200); [|by destruct (tasks !! task_id)].
  split; [|split; [|split]].
  - destruct (tasks !! task_id); [|done]. cbn. by rewrite lookup_insert_ne.
  - cbn. destruct (tasks !! task_id); [|done]. by rewrite lookup_insert_ne.
  - cbn. by rewrite lookup_delete_ne.
  - destruct taskid as [new_id|]; [|done]. cbn. intros Hnew.
    rewrite lookup_insert_ne; [done|]. congruence.
Qed.

Lemma methods_touch_one_task_witness :
  (start_task (response 200 (Some "3")) two_tasks "1").1.2 !! "2"
  = two_tasks !! "2"
  ∧ (stop_task (response 200 (Some "3")) two_tasks "1").2 !! "2"
    = two_tasks !! "2"
  ∧ (delete_task (response 200 (Some "3")) two_tasks "1").2 !! "2"
    = two_tasks !! "2"
  ∧ ((create_task plain_sys bare_host (response 200 (Some "3")) two_tasks
        (url_target "http://example.com/?id=3") plain_options).1.1 ≠ Some "2" →
     (create_task plain_sys bare_host (response 200 (Some "3")) two_tasks
        (url_target "http://example.com/?id=3") plain_options).1.2 !! "2"
     = two_tasks !! "2").
Proof.
  apply methods_touch_one_task. discriminate.
Defined.

(** X26: a request that fails or is answered with another status code
    than 200 changes nothing: each method reports failure, leaves the
    registry as it was and emits no signal; and [start_task] does so for
    an identifier that is not registered, whatever the server would
    reply. *)
Theorem refused_requests_change_nothing (sys : CommandBuilder.Sys)
    (host : CommandBuilder.Host) (post : reply) (tasks : gmap string task)
    (target : CommandBuilder.Target) (options : CommandBuilder.Options)
    (task_id : string) :
  accepted post = false ∨ tasks !! task_id = None →
  start_task post tasks task_id = (false, tasks, [])
  ∧ (accepted post = false →
     create_task sys host post tasks target options = (None, tasks, [])
     ∧ stop_task post tasks task_id = (false, tasks)
     ∧ delete_task post tasks task_id = (false, tasks)).
Proof.
  unfold create_task, start_task, stop_task, delete_task, accepted. cbv zeta.
  intros [Hpost|Hid].
  - destruct post as [|status_code taskid];
      [|rewrite Hpost]; by destruct (tasks !! task_id).
  - rewrite Hid. split; [done|].
    destruct post as [|status_code taskid]; [done|]. by intros ->.
Qed.

Lemma refused_requests_change_nothing_witness :
  start_task (response 500 None) ∅ "1" = (false, ∅, [])
  ∧ (accepted (response 500 None) = false →
     create_task plain_sys bare_host (response 500 None) ∅
       (url_target "http://example.com/?id=1") plain_options = (None, ∅, [])
     ∧ stop_task (response 500 None) ∅ "1" = (false, ∅)
     ∧ delete_task (response 500 None) ∅ "1" = (false, ∅)).
Proof.
  apply refused_requests_change_nothing. left. reflexivity.
Defined.

End RegistryFacts.
